(** * Movie-anime-scraper: a shallow embedding of the aggregation engine

    The development follows the Python sources:
    - [scrapers/base_scraper.py]: the normalized data model and its
      serialisation ([VideoSource], [Episode], [Season], [ScraperResult]),
      and the text methods of [BaseScraper];
    - [scrapers/utils.py]: page and JSON fetching, the retry wrapper, embed
      classification, base64, the title and query helpers;
    - [scrapers/anime_scrapers.py], [scrapers/movie_scrapers.py]: the site
      adapters;
    - [main.py]: the two aggregated searches and the endpoints on one
      source.

    Conventions.  A Python [str] is a Rocq [string] whose characters are the
    code points U+0000..U+00FF; text decoded from bytes, which may hold any
    code point, is a list of code points.  A Python [int] is a [Z].  A
    coroutine is modelled by the value it is awaited to: the claims below
    concern results, not scheduling.  A call that may raise returns a
    [result]; [try_except] is the [try: ... except Exception:] statement.
    The exceptions modelled are those of class [Exception]; the
    cancellation of a task and the exit of the interpreter are not.  What
    [print] writes on the console is left out.  Library calls whose result
    depends on the outside world (HTTP requests, HTML parsing) are fields
    of an environment. *)

From Stdlib Require Import ZArith NArith List String Ascii Bool Lia.
From Stdlib Require Import Permutation Sorted DecimalString OrderedTypeEx.
From stdpp Require Import base gmap strings.

Import ListNotations.
Open Scope string_scope.
Open Scope Z_scope.

(** ** Python primitives *)

Module Py.

(** An exception instance: its class name and its message. *)
Record exn := Exn { exn_class : string; exn_msg : string }.

Inductive result (A : Type) : Type :=
| Ok (a : A)
| Raise (e : exn).
Arguments Ok {A} a.
Arguments Raise {A} e.

Definition bind {A B} (m : result A) (k : A -> result B) : result B :=
  match m with
  | Ok a => k a
  | Raise e => Raise e
  end.

(** [try: body  except Exception: handler]. *)
Definition try_except {A} (body : result A) (handler : exn -> result A)
  : result A :=
  match body with
  | Ok a => Ok a
  | Raise e => handler e
  end.

Definition returns {A} (m : result A) : Prop := exists a, m = Ok a.

(** [for x in l: acc = step(acc, x)], stopping at the first exception. *)
Fixpoint for_each {A S} (l : list A) (acc : S) (step : S -> A -> result S)
  : result S :=
  match l with
  | [] => Ok acc
  | x :: l' => bind (step acc x) (fun acc' => for_each l' acc' step)
  end.

(** [x or y] on integers. *)
Definition int_or (x y : Z) : Z := if x =? 0 then y else x.

(** [bool(l)] of a list. *)
Definition nonempty {A} (l : list A) : bool :=
  match l with
  | [] => false
  | _ :: _ => true
  end.

(** [len(l)]. *)
Definition len {A} (l : list A) : Z := Z.of_nat (length l).

(** [l[:n]]: a negative bound counts from the end. *)
Definition slice_to {A} (l : list A) (n : Z) : list A :=
  if n <? 0 then firstn (Z.to_nat (len l + n)) l
  else firstn (Z.to_nat n) l.

(** [needle in s] on strings. *)
Fixpoint contains (needle s : string) : bool :=
  String.prefix needle s ||
  match s with
  | EmptyString => false
  | String _ s' => contains needle s'
  end.


Definition code (c : ascii) : N := N_of_ascii c.

Definition in_range (lo hi : N) (c : ascii) : bool :=
  (lo <=? code c)%N && (code c <=? hi)%N.

(** [c.isupper()] below U+0100: A-Z, and the Latin-1 capitals U+00C0..U+00DE
    except the multiplication sign U+00D7. *)
Definition is_upper (c : ascii) : bool :=
  in_range 65 90 c || in_range 192 214 c || in_range 216 222 c.

(** [c.lower()]: below U+0100 every capital has its small letter 32 code
    points higher. *)
Definition lower_char (c : ascii) : ascii :=
  if is_upper c then ascii_of_N (code c + 32) else c.

(** [s.lower()]. *)
Fixpoint lower (s : string) : string :=
  match s with
  | EmptyString => EmptyString
  | String c s' => String (lower_char c) (lower s')
  end.

(** [str(z)] on integers. *)
Definition str_of_int (z : Z) : string :=
  NilZero.string_of_int (Z.to_int z).

(** [s.split(sep)[-1]] for a one-character separator: what follows the last
    separator, the whole string when there is none. *)
Fixpoint split_last (sep : ascii) (s : string) : string :=
  match s with
  | EmptyString => EmptyString
  | String c s' =>
      if contains (String sep EmptyString) s' then split_last sep s'
      else if Ascii.eqb c sep then s'
      else s
  end.

(** [s.split(sep)[0]] for a one-character separator. *)
Fixpoint split_first (sep : ascii) (s : string) : string :=
  match s with
  | EmptyString => EmptyString
  | String c s' =>
      if Ascii.eqb c sep then EmptyString else String c (split_first sep s')
  end.

End Py.

Export Py.

Declare Scope py_scope.
Delimit Scope py_scope with py.
Notation "'let*' x ':=' m 'in' k" := (Py.bind m (fun x => k))
  (at level 10, x name, m at level 100, k at level 200) : py_scope.
Open Scope py_scope.

(** ** JSON values: what [response.json()] yields and what [to_dict] builds *)

#[warnings="-register-all"]
Inductive json : Type :=
| JNull
| JBool (b : bool)
| JInt (z : Z)
| JStr (s : string)
| JList (l : list json)
| JDict (d : list (string * json)).

Module Json.

(** A Python dict keeps its items in insertion order and has one item per
    key. *)
Fixpoint lookup (k : string) (d : list (string * json)) : option json :=
  match d with
  | [] => None
  | (k', v) :: d' => if String.eqb k k' then Some v else lookup k d'
  end.

(** Truth value of an object, as tested by [if v:]. *)
Definition truthy (v : json) : bool :=
  match v with
  | JNull => false
  | JBool b => b
  | JInt z => negb (z =? 0)
  | JStr s => negb (String.eqb s "")
  | JList l => match l with [] => false | _ => true end
  | JDict d => match d with [] => false | _ => true end
  end.

Definition eqb_str (k : string) (v : json) : bool :=
  match v with
  | JStr s => String.eqb k s
  | _ => false
  end.

Definition TypeError (msg : string) : exn := Exn "TypeError" msg.
Definition AttributeError (msg : string) : exn := Exn "AttributeError" msg.
Definition KeyError (msg : string) : exn := Exn "KeyError" msg.

(** [k in v] for a string [k]: key of a dict, element of a list, substring
    of a string; the other objects are not containers. *)
Definition has (k : string) (v : json) : result bool :=
  match v with
  | JDict d => Ok (match lookup k d with Some _ => true | None => false end)
  | JList l => Ok (existsb (eqb_str k) l)
  | JStr s => Ok (Py.contains k s)
  | _ => Raise (TypeError "argument is not iterable")
  end.

(** [v[k]] for a string [k]. *)
Definition item (v : json) (k : string) : result json :=
  match v with
  | JDict d =>
      match lookup k d with
      | Some x => Ok x
      | None => Raise (KeyError k)
      end
  | _ => Raise (TypeError "indices must be integers")
  end.

(** [v.get(k, default)]: only a dict has the method. *)
Definition get (v : json) (k : string) (default : json) : result json :=
  match v with
  | JDict d => Ok (match lookup k d with Some x => x | None => default end)
  | _ => Raise (AttributeError "get")
  end.

(** The elements visited by [for x in v]. *)
Definition iter (v : json) : result (list json) :=
  match v with
  | JList l => Ok l
  | JDict d => Ok (map (fun kv => JStr (fst kv)) d)
  | JStr s =>
      Ok (map (fun c => JStr (String c EmptyString)) (list_ascii_of_string s))
  | _ => Raise (TypeError "object is not iterable")
  end.

(** [v[:n]]: lists and strings can be sliced. *)
Definition slice_to (v : json) (n : Z) : result json :=
  match v with
  | JList l => Ok (JList (Py.slice_to l n))
  | JStr s =>
      Ok (JStr (string_of_list_ascii
                  (Py.slice_to (list_ascii_of_string s) n)))
  | _ => Raise (TypeError "object is not subscriptable")
  end.

Definition of_str_dict (d : list (string * string)) : json :=
  JDict (map (fun kv => (fst kv, JStr (snd kv))) d).

End Json.

(** ** scrapers/base_scraper.py: the normalized data model *)

Module VideoQuality.
Inductive t :=
| SD_360P | SD_480P | HD_720P | HD_1080P | FHD_1440P | UHD_4K | UNKNOWN.

Definition value (q : t) : string :=
  match q with
  | SD_360P => "360p"
  | SD_480P => "480p"
  | HD_720P => "720p"
  | HD_1080P => "1080p"
  | FHD_1440P => "1440p"
  | UHD_4K => "4k"
  | UNKNOWN => "unknown"
  end.

Definition all : list t :=
  [SD_360P; SD_480P; HD_720P; HD_1080P; FHD_1440P; UHD_4K; UNKNOWN].

(** [VideoQuality(s) if s in [q.value for q in VideoQuality] else UNKNOWN]. *)
Definition of_value (s : string) : t :=
  match List.find (fun q => String.eqb s (value q)) all with
  | Some q => q
  | None => UNKNOWN
  end.
End VideoQuality.

Module SourceType.
Inductive t :=
| DIRECT | HLS | DASH | IFRAME | STREAMTAPE | DOODSTREAM | MIXDROP
| UPSTREAM | VIDCLOUD | MP4UPLOAD | FILEMOON | EMBED.

Definition value (k : t) : string :=
  match k with
  | DIRECT => "direct"
  | HLS => "hls"
  | DASH => "dash"
  | IFRAME => "iframe"
  | STREAMTAPE => "streamtape"
  | DOODSTREAM => "doodstream"
  | MIXDROP => "mixdrop"
  | UPSTREAM => "upstream"
  | VIDCLOUD => "vidcloud"
  | MP4UPLOAD => "mp4upload"
  | FILEMOON => "filemoon"
  | EMBED => "embed"
  end.
End SourceType.

Module VideoSource.
Record t := mk {
  url : string;
  type : SourceType.t;
  quality : VideoQuality.t;
  language : string;
  is_m3u8 : bool;
  headers : list (string * string);
  subtitles : list (list (string * string));
  referer : string
}.

(** The dataclass constructor as the adapters call it: [language],
    [headers] and [subtitles] are always left to their defaults. *)
Definition new (url : string) (type : SourceType.t)
    (quality : VideoQuality.t) (is_m3u8 : bool) (referer : string) : t :=
  mk url type quality "en" is_m3u8 [] [] referer.

Definition to_dict (s : t) : json :=
  JDict [
    ("url", JStr (url s));
    ("type", JStr (SourceType.value (type s)));
    ("quality", JStr (VideoQuality.value (quality s)));
    ("language", JStr (language s));
    ("is_m3u8", JBool (is_m3u8 s));
    ("headers", Json.of_str_dict (headers s));
    ("subtitles", JList (map Json.of_str_dict (subtitles s)));
    ("referer", JStr (referer s))
  ].
End VideoSource.

Module Episode.
Record t := mk {
  number : Z;
  title : string;
  id : string;
  sources : list VideoSource.t;
  thumbnail : string;
  description : string;
  duration : string;
  release_date : string;
  download_links : list (list (string * string))
}.

Definition to_dict (e : t) : json :=
  JDict [
    ("number", JInt (number e));
    ("title", JStr (title e));
    ("id", JStr (id e));
    ("sources", JList (map VideoSource.to_dict (sources e)));
    ("thumbnail", JStr (thumbnail e));
    ("description", JStr (description e));
    ("duration", JStr (duration e));
    ("release_date", JStr (release_date e));
    ("download_links", JList (map Json.of_str_dict (download_links e)))
  ].
End Episode.

Module Season.
Record t := mk {
  number : Z;
  title : string;
  id : string;
  episodes : list Episode.t;
  episode_count : Z
}.

Definition to_dict (s : t) : json :=
  JDict [
    ("number", JInt (number s));
    ("title", JStr (title s));
    ("id", JStr (id s));
    ("episodes", JList (map Episode.to_dict (episodes s)));
    ("episode_count", JInt (Py.int_or (Py.len (episodes s)) (episode_count s)))
  ].
End Season.

Module ScraperResult.
Record t := mk {
  title : string;
  original_title : string;
  id : string;
  type : string;
  description : string;
  poster : string;
  banner : string;
  rating : string;
  release_year : string;
  genres : list string;
  status : string;
  duration : string;
  country : string;
  language : string;
  episodes : list Episode.t;
  episode_count : Z;
  seasons : list Season.t;
  season_count : Z;
  sources : list VideoSource.t;
  alternative_titles : list string;
  cast : list string;
  director : string;
  studio : string;
  download_links : list json;
  source_site : string;
  source_url : string;
  scraped_at : string
}.

(** [len(xs) if xs else count]: a list is true when it is not empty. *)
Definition len_if_any {A} (xs : list A) (count : Z) : Z :=
  match xs with
  | [] => count
  | _ :: _ => Py.len xs
  end.

Definition to_dict (r : t) : json :=
  JDict [
    ("title", JStr (title r));
    ("original_title", JStr (original_title r));
    ("id", JStr (id r));
    ("type", JStr (type r));
    ("description", JStr (description r));
    ("poster", JStr (poster r));
    ("banner", JStr (banner r));
    ("rating", JStr (rating r));
    ("release_year", JStr (release_year r));
    ("genres", JList (map JStr (genres r)));
    ("status", JStr (status r));
    ("duration", JStr (duration r));
    ("country", JStr (country r));
    ("language", JStr (language r));
    ("episode_count", JInt (len_if_any (episodes r) (episode_count r)));
    ("episodes", JList (map Episode.to_dict (episodes r)));
    ("season_count", JInt (len_if_any (seasons r) (season_count r)));
    ("seasons", JList (map Season.to_dict (seasons r)));
    ("sources", JList (map VideoSource.to_dict (sources r)));
    ("alternative_titles", JList (map JStr (alternative_titles r)));
    ("cast", JList (map JStr (cast r)));
    ("director", JStr (director r));
    ("studio", JStr (studio r));
    ("download_links", JList (download_links r));
    ("source_site", JStr (source_site r));
    ("source_url", JStr (source_url r));
    ("scraped_at", JStr (scraped_at r))
  ].
End ScraperResult.

(** The value serialised under a key of a [to_dict] result. *)
Definition serialized (k : string) (v : json) : option json :=
  match v with
  | JDict d => Json.lookup k d
  | _ => None
  end.

(** ** The outside world: HTTP clients and the libraries left abstract *)

Module Http.

Definition headers := list (string * string).

(** A response: its status, its body read as text ([response.text]) and
    parsed as JSON ([response.json()]); reading the body may raise. *)
Record response := mk_response {
  status : Z;
  text : result string;
  json_body : result json
}.

(** What a GET comes to: an exception (connection error, timeout) or a
    response. *)
Inductive reply :=
| Failed (e : exn)
| Responded (r : response).

(** The three clients of [utils.py], each a function of the url, the
    headers and the timeout it is given; and the user agent drawn when the
    module is loaded. *)
Class Net := {
  DEFAULT_USER_AGENT : string;
  aiohttp_get : string -> headers -> option Z -> reply;
  requests_get : string -> headers -> Z -> reply;
  cloudscraper_get : string -> headers -> Z -> reply
}.

(** [d[k] = v] on a dict kept as its list of items. *)
Fixpoint dict_set (k v : string) (d : headers) : headers :=
  match d with
  | [] => [(k, v)]
  | (k', v') :: d' =>
      if String.eqb k k' then (k, v) :: d' else (k', v') :: dict_set k v d'
  end.

End Http.

Export Http.

(** ** The regular expressions of the embed registry

    Every pattern of the registry has the shape [items(\w+)]: characters and
    greedy repetitions, then one capturing group at its end.  The matcher
    is the backtracking search of Python's [re]: the leftmost start, and at
    each repetition the longest run first. *)

Module Re.

Inductive cls :=
| NotSlash   (* [^/] *)
| Word.      (* \w *)

(** [\w] on a [str] pattern: the characters for which [isalnum()] holds,
    and the underscore.  Below U+0100 these are the digits, the letters,
    and in Latin-1 the ordinal indicators, the superscript digits, the
    micro sign, the vulgar fractions and the accented letters. *)
Definition is_word (c : ascii) : bool :=
  Py.in_range 48 57 c || Py.in_range 65 90 c || Py.in_range 97 122 c
  || Py.in_range 95 95 c
  || Py.in_range 170 170 c || Py.in_range 178 179 c || Py.in_range 181 181 c
  || Py.in_range 185 186 c || Py.in_range 188 190 c
  || Py.in_range 192 214 c || Py.in_range 216 246 c || Py.in_range 248 255 c.

Definition accepts (k : cls) (c : ascii) : bool :=
  match k with
  | NotSlash => negb (Ascii.eqb c "/")
  | Word => is_word c
  end.

Inductive item :=
| Char (c : ascii)   (* the character itself *)
| Plus (k : cls).    (* k+ *)

(** [before(group+)]. *)
Record regex := mk { before : list item; group : cls }.

Definition lit (s : string) : list item :=
  map Char (list_ascii_of_string s).

(** The longest run of [k] at the head of [s], and what follows it. *)
Fixpoint span (k : cls) (s : list ascii) : list ascii * list ascii :=
  match s with
  | [] => ([], [])
  | c :: s' =>
      if accepts k c
      then let (run, rest) := span k s' in (c :: run, rest)
      else ([], s)
  end.

(** A match starting exactly at the head of [s]: the text of group 1. *)
Fixpoint match_here (p : list item) (g : cls) (s : list ascii)
    {struct p} : option (list ascii) :=
  match p with
  | [] =>
      match fst (span g s) with
      | [] => None
      | run => Some run
      end
  | Char c :: p' =>
      match s with
      | x :: s' => if Ascii.eqb x c then match_here p' g s' else None
      | [] => None
      end
  | Plus k :: p' =>
      (fix plus (s : list ascii) : option (list ascii) :=
         match s with
         | x :: s' =>
             if accepts k x
             then match plus s' with
                  | Some m => Some m
                  | None => match_here p' g s'
                  end
             else None
         | [] => None
         end) s
  end.

Fixpoint search_from (r : regex) (s : list ascii) : option (list ascii) :=
  match match_here (before r) (group r) s with
  | Some m => Some m
  | None =>
      match s with
      | [] => None
      | _ :: s' => search_from r s'
      end
  end.

(** [re.search(r, s)], reduced to [match.group(1)]. *)
Definition search (r : regex) (s : string) : option string :=
  option_map string_of_list_ascii (search_from r (list_ascii_of_string s)).

End Re.

(** ** [base64.b64decode] and [bytes.decode('utf-8')]

    Bytes and code points are numbers.  [b64decode] is called with its
    defaults, which is the lenient mode of [binascii.a2b_base64]: a
    character outside the alphabet is skipped, not refused. *)

Module Base64.

Definition Error (msg : string) : exn := Exn "binascii.Error" msg.
Definition ValueError (msg : string) : exn := Exn "ValueError" msg.

(** [table_a2b_base64]. *)
Definition digit (c : ascii) : option N :=
  let n := Py.code c in
  if Py.in_range 65 90 c then Some (n - 65)%N
  else if Py.in_range 97 122 c then Some (n - 97 + 26)%N
  else if Py.in_range 48 57 c then Some (n - 48 + 52)%N
  else if Ascii.eqb c "+" then Some 62%N
  else if Ascii.eqb c "/" then Some 63%N
  else None.

(** The loop of [a2b_base64]: [quad_pos] counts the digits of the quad
    read so far, [leftchar] holds its bits not yet written out, [pads]
    counts the padding signs seen since the last digit. *)
Fixpoint a2b_loop (data : list ascii) (quad_pos leftchar pads : N)
    : result (list N) :=
  match data with
  | [] =>
      if (quad_pos =? 0)%N then Ok []
      else if (quad_pos =? 1)%N
      then Raise (Error "number of data characters cannot be 1 more than a multiple of 4")
      else Raise (Error "Incorrect padding")
  | c :: rest =>
      if Ascii.eqb c "="
      then
        if (2 <=? quad_pos)%N
        then if (4 <=? quad_pos + (pads + 1))%N
             then Ok []
             else a2b_loop rest quad_pos leftchar (pads + 1)%N
        else a2b_loop rest quad_pos leftchar pads
      else
        match digit c with
        | None => a2b_loop rest quad_pos leftchar pads
        | Some d =>
            if (quad_pos =? 0)%N then a2b_loop rest 1%N d 0%N
            else if (quad_pos =? 1)%N then
              let* tl := a2b_loop rest 2%N (N.land d 15) 0%N in
              Ok (N.lor (N.shiftl leftchar 2) (N.shiftr d 4) :: tl)
            else if (quad_pos =? 2)%N then
              let* tl := a2b_loop rest 3%N (N.land d 3) 0%N in
              Ok (N.lor (N.shiftl leftchar 4) (N.shiftr d 2) :: tl)
            else
              let* tl := a2b_loop rest 0%N 0%N 0%N in
              Ok (N.lor (N.shiftl leftchar 6) d :: tl)
        end
  end.

(** [s.encode('ascii')], then the loop. *)
Definition b64decode (s : string) : result (list N) :=
  let data := list_ascii_of_string s in
  if forallb (fun c => (Py.code c <? 128)%N) data
  then a2b_loop data 0%N 0%N 0%N
  else Raise (ValueError "string argument should contain only ASCII characters").

End Base64.

Module Utf8.

Definition UnicodeDecodeError : exn :=
  Exn "UnicodeDecodeError" "'utf-8' codec can't decode bytes".

Definition between (lo hi b : N) : bool := (lo <=? b)%N && (b <=? hi)%N.
Definition cont (b : N) : bool := between 128 191 b.
Definition low6 (b : N) : N := N.land b 63.

(** [bytes.decode('utf-8')], errors strict: shortest forms only, no
    surrogates, nothing above U+10FFFF. *)
Fixpoint decode (bs : list N) : result (list N) :=
  match bs with
  | [] => Ok []
  | b0 :: r0 =>
      if (b0 <? 128)%N then
        let* tl := decode r0 in Ok (b0 :: tl)
      else if between 194 223 b0 then
        match r0 with
        | b1 :: r1 =>
            if cont b1 then
              let* tl := decode r1 in
              Ok ((N.land b0 31 * 64 + low6 b1)%N :: tl)
            else Raise UnicodeDecodeError
        | _ => Raise UnicodeDecodeError
        end
      else if between 224 239 b0 then
        match r0 with
        | b1 :: b2 :: r2 =>
            if between (if (b0 =? 224)%N then 160 else 128)
                       (if (b0 =? 237)%N then 159 else 191) b1
               && cont b2
            then
              let* tl := decode r2 in
              Ok (((N.land b0 15 * 64 + low6 b1) * 64 + low6 b2)%N :: tl)
            else Raise UnicodeDecodeError
        | _ => Raise UnicodeDecodeError
        end
      else if between 240 244 b0 then
        match r0 with
        | b1 :: b2 :: b3 :: r3 =>
            if between (if (b0 =? 240)%N then 144 else 128)
                       (if (b0 =? 244)%N then 143 else 191) b1
               && cont b2 && cont b3
            then
              let* tl := decode r3 in
              Ok ((((N.land b0 7 * 64 + low6 b1) * 64 + low6 b2) * 64
                   + low6 b3)%N :: tl)
            else Raise UnicodeDecodeError
        | _ => Raise UnicodeDecodeError
        end
      else Raise UnicodeDecodeError
  end.

End Utf8.

(** ** scrapers/utils.py *)

Module Utils.

Section Fetch.
Context `{Net}.

Definition get_random_headers : headers := [
  ("User-Agent", DEFAULT_USER_AGENT);
  ("Accept",
   "text/html,application/xhtml+xml,application/xml;q=0.9,image/webp,*/*;q=0.8");
  ("Accept-Language", "en-US,en;q=0.5");
  ("Accept-Encoding", "gzip, deflate");
  ("DNT", "1");
  ("Connection", "keep-alive");
  ("Upgrade-Insecure-Requests", "1")
].

Definition or_random_headers (h : option headers) : headers :=
  match h with
  | None => get_random_headers
  | Some h => h
  end.

(** [headers] is an [Optional]: None stands for the random headers. *)
Definition fetch_page_sync (url : string) (hdrs : option headers)
    (timeout : Z) : result (option string) :=
  let hdrs := or_random_headers hdrs in
  try_except
    (match requests_get url hdrs timeout with
     | Failed e => Raise e
     | Responded response =>
         if status response =? 200
         then let* body := text response in Ok (Some body)
         else Ok None
     end)
    (fun _ => Ok None).

(** The value returned is the parsed body, or None: the JSON null and
    None are the same object, [JNull]. *)
Definition fetch_json_sync (url : string) (hdrs : option headers)
    (timeout : Z) : result json :=
  let hdrs :=
    match hdrs with
    | None => dict_set "Accept" "application/json" get_random_headers
    | Some h => h
    end in
  try_except
    (match requests_get url hdrs timeout with
     | Failed e => Raise e
     | Responded response =>
         if status response =? 200 then json_body response else Ok JNull
     end)
    (fun _ => Ok JNull).

(** The aiohttp request; when it raises, the same request through
    [requests]. *)
Definition fetch_page (url : string) (hdrs : option headers)
    (timeout : Z) : result (option string) :=
  let hdrs := or_random_headers hdrs in
  try_except
    (match aiohttp_get url hdrs (Some timeout) with
     | Failed e => Raise e
     | Responded response =>
         if status response =? 200
         then let* body := text response in Ok (Some body)
         else Ok None
     end)
    (fun _ => fetch_page_sync url (Some hdrs) timeout).

(** The aiohttp request is made without a timeout. *)
Definition fetch_json (url : string) (hdrs : option headers)
    (timeout : Z) : result json :=
  let hdrs :=
    match hdrs with
    | None => dict_set "Accept" "application/json" get_random_headers
    | Some h => h
    end in
  try_except
    (match aiohttp_get url hdrs None with
     | Failed e => Raise e
     | Responded response =>
         if status response =? 200 then json_body response else Ok JNull
     end)
    (fun _ => fetch_json_sync url (Some hdrs) timeout).

(** [headers or get_random_headers()]: an empty dict is false. *)
Definition bypass_cloudflare (url : string) (hdrs : option headers)
    : result (option string) :=
  let hdrs :=
    match hdrs with
    | None | Some [] => get_random_headers
    | Some h => h
    end in
  try_except
    (match cloudscraper_get url hdrs 30 with
     | Failed e => Raise e
     | Responded response =>
         if status response =? 200
         then let* body := text response in Ok (Some body)
         else Ok None
     end)
    (fun _ => Ok None).

End Fetch.

(** *** Embed classification *)

(** The [patterns] dict, in its insertion order. *)
Definition patterns : list (string * Re.regex) := [
  ("streamtape", Re.mk (Re.lit "streamtape.com/e/") Re.Word);
  ("doodstream",
   Re.mk (Re.lit "dood." ++ [Re.Plus Re.NotSlash] ++ Re.lit "/e/") Re.Word);
  ("mixdrop",
   Re.mk (Re.lit "mixdrop." ++ [Re.Plus Re.NotSlash] ++ Re.lit "/e/") Re.Word);
  ("upstream", Re.mk (Re.lit "upstream.to/e/") Re.Word);
  ("vidcloud",
   Re.mk (Re.lit "vidcloud." ++ [Re.Plus Re.NotSlash] ++ Re.lit "/e/") Re.Word);
  ("mp4upload", Re.mk (Re.lit "mp4upload.com/embed-") Re.Word);
  ("yourupload", Re.mk (Re.lit "yourupload.com/embed/") Re.Word);
  ("sbembed", Re.mk (Re.lit "sbembed.com/embed/") Re.Word);
  ("filemoon", Re.mk (Re.lit "filemoon.sx/e/") Re.Word);
  ("voe", Re.mk (Re.lit "voe.sx/e/") Re.Word)
].

(** The dict returned for a recognised embed. *)
Record embed := mk_embed {
  host : string;
  video_id : string;
  embed_url : string;
  direct_url : option string
}.

(** [for host, pattern in ps: ...  return None]. *)
Fixpoint first_match (ps : list (string * Re.regex)) (url : string)
    : option embed :=
  match ps with
  | [] => None
  | (h, pattern) :: ps' =>
      match Re.search pattern url with
      | Some m => Some (mk_embed h m url None)
      | None => first_match ps' url
      end
  end.

Definition extract_video_url (embed_url : string) : option embed :=
  first_match patterns embed_url.

(** *** Base64 *)

(** The text handed to [b64decode]: the input, completed with padding
    signs when its length is not a multiple of 4. *)
Definition padded (encoded : string) : string :=
  let padding := 4 - Z.of_nat (String.length encoded) mod 4 in
  if padding =? 4 then encoded
  else encoded ++ string_of_list_ascii (repeat "="%char (Z.to_nat padding)).

(** The bare [except:] catches whatever is raised. *)
Definition decode_base64_url (encoded : string) : result (list N) :=
  try_except
    (let* raw := Base64.b64decode (padded encoded) in Utf8.decode raw)
    (fun _ => Ok []).

End Utils.

(** ** Libraries left abstract: BeautifulSoup, urllib, [repr] *)

Module Lib.

Class Libs := {
  (** a parsed document, and a tag inside it *)
  node : Type;
  (** [BeautifulSoup(html, 'lxml')] *)
  BeautifulSoup : string -> node;
  (** [n.find_all(tag, class_=c)] *)
  find_all : node -> string -> option string -> list node;
  (** [n.find(tag, class_=c)] *)
  find : node -> string -> option string -> option node;
  (** the attribute [k] of a tag, when it has one *)
  attr : node -> string -> option string;
  (** [n.get_text(strip=True)] *)
  get_text : node -> string;
  (** [urllib.parse.quote] and [urllib.parse.urljoin] *)
  quote : string -> string;
  urljoin : string -> string -> string;
  (** [str(v)] of a list or of a dict *)
  repr : json -> string
}.

(** [n.get(k, default)]. *)
Definition get `{Libs} (n : node) (k default : string) : string :=
  match attr n k with
  | Some v => v
  | None => default
  end.

(** [str(v)]; an f-string formats a value the same way. *)
Definition str `{Libs} (v : json) : string :=
  match v with
  | JNull => "None"
  | JBool true => "True"
  | JBool false => "False"
  | JInt z => Py.str_of_int z
  | JStr s => s
  | _ => repr v
  end.

End Lib.

Export Lib.

(** A search result: the dict an adapter builds for one hit. *)
Abbreviation item := (gmap string json).

(** [d[k] = v]. *)
Definition set_item (k : string) (v : json) (d : item) : item := <[k := v]> d.

(** [d.get(k, default)]. *)
Definition get_item (d : item) (k : string) (default : json) : json :=
  match d !! k with
  | Some v => v
  | None => default
  end.

(** A method of [str] called on an object that may not be one. *)
Definition as_str (v : json) (method : string) : result string :=
  match v with
  | JStr s => Ok s
  | _ => Raise (Json.AttributeError method)
  end.

(** [VideoSource.url] is declared [str]: the model carries no source whose
    url is another kind of object and stops with a [TypeError] there. *)
Definition as_url (v : json) : result string :=
  match v with
  | JStr s => Ok s
  | _ => Raise (Json.TypeError "url is not a str")
  end.

(** [if not html:] on an [Optional[str]]. *)
Definition no_page (html : option string) : bool :=
  match html with
  | None => true
  | Some s => String.eqb s ""
  end.

Definition page (html : option string) : string :=
  match html with
  | None => ""
  | Some s => s
  end.

(** ** scrapers/base_scraper.py: [BaseScraper] *)

Module BaseScraper.

Record t := mk {
  base_url : string;
  site_name : string;
  language : string;
  headers : Http.headers
}.

Fixpoint lstrip_slash (s : list ascii) : list ascii :=
  match s with
  | c :: s' => if Ascii.eqb c "/" then lstrip_slash s' else s
  | [] => []
  end.

(** [s.rstrip('/')]. *)
Definition rstrip_slash (s : string) : string :=
  string_of_list_ascii (rev (lstrip_slash (rev (list_ascii_of_string s)))).

Definition init (base_url site_name language : string) : t :=
  mk (rstrip_slash base_url) site_name language [
    ("User-Agent",
     "Mozilla/5.0 (Windows NT 10.0; Win64; x64) AppleWebKit/537.36 (KHTML, like Gecko) Chrome/120.0.0.0 Safari/537.36");
    ("Accept",
     "text/html,application/xhtml+xml,application/xml;q=0.9,image/webp,*/*;q=0.8");
    ("Accept-Language", "en-US,en;q=0.5");
    ("Accept-Encoding", "gzip, deflate, br");
    ("DNT", "1");
    ("Connection", "keep-alive");
    ("Upgrade-Insecure-Requests", "1")
  ].

(** [href.split('/')[-1] if '/' in href else href]. *)
Definition last_segment (href : string) : string :=
  if Py.contains "/" href then Py.split_last "/" href else href.

(** [href.split('/')[-1].split('?')[0] if '/' in href else href]. *)
Definition last_segment_no_query (href : string) : string :=
  if Py.contains "/" href
  then Py.split_first "?" (Py.split_last "/" href)
  else href.

End BaseScraper.

(** ** scrapers/anime_scrapers.py *)

Section Adapters.
Context `{Net} `{Libs}.

Import BaseScraper.

(** [data and k in data]. *)
Definition truthy_and_has (data : json) (k : string) : result bool :=
  if Json.truthy data then Json.has k data else Ok false.


(** *** GogoanimeScraper *)

Definition GogoanimeScraper : BaseScraper.t :=
  BaseScraper.init "https://anitaku.to" "Gogoanime" "en".

Definition GogoanimeScraper_search_item (it : node) : list item :=
  match find it "a" None with
  | None => []
  | Some link =>
      let title_elem := find link "img" None in
      let title :=
        match title_elem with
        | Some t => get t "alt" ""
        | None => get link "title" ""
        end in
      let href := get link "href" "" in
      if String.eqb href "" then []
      else [list_to_map [
              ("id", JStr (last_segment href));
              ("title", JStr title);
              ("url", JStr (urljoin (base_url GogoanimeScraper) href));
              ("poster", JStr match title_elem with
                              | Some t => get t "src" ""
                              | None => ""
                              end);
              ("type", JStr "anime");
              ("source", JStr (site_name GogoanimeScraper))]]
  end.

Definition GogoanimeScraper_search_url (query : string) : string :=
  base_url GogoanimeScraper ++ "/search.html?keyword=" ++ quote query.

Definition GogoanimeScraper_search (query : string) (limit : Z)
    : result (list item) :=
  let search_url := GogoanimeScraper_search_url query in
  let* html := Utils.fetch_page search_url (Some (headers GogoanimeScraper)) 30 in
  if no_page html then Ok []
  else
    let soup := BeautifulSoup (page html) in
    let items := find_all soup "div" (Some "img") in
    Ok (flat_map GogoanimeScraper_search_item (Py.slice_to items limit)).

(** *** ZoroScraper *)

Definition ZoroScraper : BaseScraper.t :=
  BaseScraper.init "https://aniwatch.to" "AniWatch" "en".


(** The title and the poster read off a [flw-item] card. *)
Definition card_title (title_elem img : option node) : string :=
  match title_elem with
  | Some t => get_text t
  | None => match img with Some i => get i "alt" "" | None => "" end
  end.

Definition card_poster (img : option node) : string :=
  match img with
  | Some i => get i "data-src" (get i "src" "")
  | None => ""
  end.

Definition ZoroScraper_search_item (it : node) : list item :=
  let link := find it "a" (Some "film-poster-ahref") in
  let img := find it "img" None in
  let title_elem := find it "h3" (Some "film-name") in
  match link with
  | None => []
  | Some link =>
      let href := get link "href" "" in
      [list_to_map [
         ("id", JStr (last_segment_no_query href));
         ("title", JStr (card_title title_elem img));
         ("url", JStr (urljoin (base_url ZoroScraper) href));
         ("poster", JStr (card_poster img));
         ("type", JStr "anime");
         ("source", JStr (site_name ZoroScraper))]]
  end.

Definition ZoroScraper_search_url (query : string) : string :=
  base_url ZoroScraper ++ "/search?keyword=" ++ quote query.

Definition ZoroScraper_search (query : string) (limit : Z) : result (list item) :=
  let search_url := ZoroScraper_search_url query in
  let* html := Utils.fetch_page search_url (Some (headers ZoroScraper)) 30 in
  if no_page html then Ok []
  else
    let soup := BeautifulSoup (page html) in
    let items := find_all soup "div" (Some "flw-item") in
    Ok (flat_map ZoroScraper_search_item (Py.slice_to items limit)).




(** *** AnimeHeavenScraper *)

Definition AnimeHeavenScraper : BaseScraper.t :=
  BaseScraper.init "https://animeheaven.me" "AnimeHeaven" "en".

Definition AnimeHeavenScraper_search_item (it : node) : list item :=
  match find it "a" None with
  | None => []
  | Some link =>
      let href := get link "href" "" in
      let title_elem := find link "div" (Some "condd") in
      let title :=
        match title_elem with
        | Some t => get_text t
        | None => href
        end in
      [list_to_map [
         ("id", JStr (last_segment href));
         ("title", JStr title);
         ("url", JStr (urljoin (base_url AnimeHeavenScraper) href));
         ("type", JStr "anime");
         ("source", JStr (site_name AnimeHeavenScraper))]]
  end.

Definition AnimeHeavenScraper_search_url (query : string) : string :=
  base_url AnimeHeavenScraper ++ "/search?q=" ++ quote query.

Definition AnimeHeavenScraper_search (query : string) (limit : Z)
    : result (list item) :=
  let search_url := AnimeHeavenScraper_search_url query in
  let* html := Utils.fetch_page search_url (Some (headers AnimeHeavenScraper)) 30 in
  if no_page html then Ok []
  else
    let soup := BeautifulSoup (page html) in
    let items := find_all soup "div" (Some "condd") in
    Ok (flat_map AnimeHeavenScraper_search_item (Py.slice_to items limit)).



(** *** AnimeSamaScraper *)

Definition AnimeSamaScraper : BaseScraper.t :=
  BaseScraper.init "https://anime-sama.fr" "AnimeSama" "fr".

Definition AnimeSamaScraper_search_item (results : list item) (it : json)
    : result (list item) :=
  let* url := Json.get it "url" (JStr "") in
  let* url := as_str url "split" in
  let* title := Json.get it "title" (JStr "") in
  let* image := Json.get it "image" (JStr "") in
  Ok (results ++ [list_to_map [
        ("id", JStr (Py.split_last "/" url));
        ("title", title);
        ("url", JStr (urljoin (base_url AnimeSamaScraper) url));
        ("poster", image);
        ("type", JStr "anime");
        ("source", JStr (site_name AnimeSamaScraper))]])%list.

(** The request is made without a [try]: what it raises, the search
    raises. *)
Definition AnimeSamaScraper_search_url (query : string) : string :=
  base_url AnimeSamaScraper ++ "/template-php/defaut/fetch.php?search="
  ++ quote query.

Definition AnimeSamaScraper_search (query : string) (limit : Z)
    : result (list item) :=
  let search_url := AnimeSamaScraper_search_url query in
  match aiohttp_get search_url (headers AnimeSamaScraper) None with
  | Failed e => Raise e
  | Responded response =>
      if status response =? 200 then
        let* data := json_body response in
        let* first := Json.slice_to data limit in
        let* items := Json.iter first in
        Py.for_each items [] AnimeSamaScraper_search_item
      else Ok []
  end.

(** ** scrapers/movie_scrapers.py *)


(** ['movie' if '/movie/' in href else 'series']. *)
Definition kind_of_href (href : string) : string :=
  if Py.contains "/movie/" href then "movie" else "series".

(** *** SFlixScraper *)

Definition SFlixScraper : BaseScraper.t :=
  BaseScraper.init "https://sflix.to" "SFlix" "en".


Definition SFlixScraper_search_item (it : node) : list item :=
  let link := find it "a" (Some "film-poster-ahref") in
  let img := find it "img" None in
  let title_elem := find it "h2" (Some "film-name") in
  match link with
  | None => []
  | Some link =>
      let href := get link "href" "" in
      [list_to_map [
         ("id", JStr (last_segment_no_query href));
         ("title", JStr (card_title title_elem img));
         ("url", JStr (urljoin (base_url SFlixScraper) href));
         ("poster", JStr (card_poster img));
         ("type", JStr (kind_of_href href));
         ("source", JStr (site_name SFlixScraper))]]
  end.

Definition SFlixScraper_search_url (query : string) : string :=
  base_url SFlixScraper ++ "/search/" ++ quote query.

Definition SFlixScraper_search (query : string) (limit : Z) : result (list item) :=
  let search_url := SFlixScraper_search_url query in
  let* html := Utils.fetch_page search_url (Some (headers SFlixScraper)) 30 in
  if no_page html then Ok []
  else
    let soup := BeautifulSoup (page html) in
    let items := find_all soup "div" (Some "flw-item") in
    Ok (flat_map SFlixScraper_search_item (Py.slice_to items limit)).






(** *** FMoviesScraper *)

Definition FMoviesScraper : BaseScraper.t :=
  BaseScraper.init "https://fmovies.to" "FMovies" "en".

Definition FMoviesScraper_search_item (it : node) : list item :=
  match find it "a" (Some "poster") with
  | None => []
  | Some link =>
      let href := get link "href" "" in
      let title := get link "title" "" in
      let img := find link "img" None in
      let poster :=
        match img with
        | Some i => get i "src" ""
        | None => ""
        end in
      [list_to_map [
         ("id", JStr (last_segment_no_query href));
         ("title", JStr title);
         ("url", JStr (urljoin (base_url FMoviesScraper) href));
         ("poster", JStr poster);
         ("type", JStr (kind_of_href href));
         ("source", JStr (site_name FMoviesScraper))]]
  end.

Definition FMoviesScraper_search_url (query : string) : string :=
  base_url FMoviesScraper ++ "/search?keyword=" ++ quote query.

(** The page [search] works on: the one fetched or, failing that, the one
    obtained through [bypass_cloudflare]. *)
Definition FMoviesScraper_search_page (query : string) : result (option string) :=
  let search_url := FMoviesScraper_search_url query in
  let* html := Utils.fetch_page search_url (Some (headers FMoviesScraper)) 30 in
  if no_page html
  then Utils.bypass_cloudflare search_url (Some (headers FMoviesScraper))
  else Ok html.

Definition FMoviesScraper_search (query : string) (limit : Z)
    : result (list item) :=
  let* html := FMoviesScraper_search_page query in
  if no_page html then Ok []
  else
    let soup := BeautifulSoup (page html) in
    let items := find_all soup "div" (Some "item") in
    Ok (flat_map FMoviesScraper_search_item (Py.slice_to items limit)).

(** *** LookMovieScraper *)

Definition LookMovieScraper : BaseScraper.t :=
  BaseScraper.init "https://lookmovie2.to" "LookMovie" "en".

Definition LookMovieScraper_search_item (view kind : string)
    (results : list item) (it : json) : result (list item) :=
  let* ident := Json.get it "id" (JStr "") in
  let* title := Json.get it "title" (JStr "") in
  let* slug := Json.get it "slug" (JStr "") in
  let* poster := Json.get it "poster" (JStr "") in
  let* year := Json.get it "year" (JStr "") in
  Ok (results ++ [list_to_map [
        ("id", JStr (Lib.str ident));
        ("title", title);
        ("url", JStr (base_url LookMovieScraper ++ view ++ Lib.str slug));
        ("poster", poster);
        ("year", JStr (Lib.str year));
        ("type", JStr kind);
        ("source", JStr (site_name LookMovieScraper))]])%list.

Definition LookMovieScraper_search_url (api query : string) : string :=
  base_url LookMovieScraper ++ api ++ quote query.

(** One of the two catalogue queries of [search]. *)
Definition LookMovieScraper_search_in (api view kind query : string) (limit : Z)
    (results : list item) : result (list item) :=
  let url := LookMovieScraper_search_url api query in
  let* data := Utils.fetch_json url (Some (headers LookMovieScraper)) 30 in
  let* found := truthy_and_has data "results" in
  if found then
    let* hits := Json.item data "results" in
    let* first := Json.slice_to hits limit in
    let* items := Json.iter first in
    Py.for_each items results (LookMovieScraper_search_item view kind)
  else Ok results.

Definition LookMovieScraper_search (query : string) (limit : Z)
    : result (list item) :=
  let* results :=
    LookMovieScraper_search_in "/api/v1/movies/search/?q=" "/movies/view/" "movie"
      query limit [] in
  let* results :=
    LookMovieScraper_search_in "/api/v1/shows/search/?q=" "/shows/view/" "series"
      query limit results in
  Ok (Py.slice_to results limit).

(** [VideoQuality(quality) if quality in [q.value for q in VideoQuality]
    else VideoQuality.UNKNOWN]. *)
Definition quality_of (quality : json) : VideoQuality.t :=
  match quality with
  | JStr s => VideoQuality.of_value s
  | _ => VideoQuality.UNKNOWN
  end.

Definition LookMovieScraper_stream_source (sources : list VideoSource.t)
    (stream : json) : result (list VideoSource.t) :=
  let* stream_url := Json.get stream "url" (JStr "") in
  let* quality := Json.get stream "quality" (JStr "unknown") in
  if Json.truthy stream_url then
    let* url := as_url stream_url in
    Ok (sources ++ [VideoSource.new url SourceType.HLS (quality_of quality)
                      true (base_url LookMovieScraper)])%list
  else Ok sources.

Definition LookMovieScraper_get_lookmovie_sources (content_id content_type : string)
    : result (list VideoSource.t) :=
  let access_url :=
    base_url LookMovieScraper ++ "/api/v1/" ++ content_type ++ "/access/"
    ++ content_id in
  let* data := Utils.fetch_json access_url (Some (headers LookMovieScraper)) 30 in
  let* found := truthy_and_has data "data" in
  if found then
    let* inner := Json.item data "data" in
    let* streams := Json.get inner "streams" (JList []) in
    let* streams := Json.iter streams in
    Py.for_each streams [] LookMovieScraper_stream_source
  else Ok [].

Definition LookMovieScraper_get_episode_sources (content_id episode_id : string)
    : result (list VideoSource.t) :=
  LookMovieScraper_get_lookmovie_sources episode_id "episode".

(** *** VidSrcScraper *)

Definition VidSrcScraper : BaseScraper.t :=
  BaseScraper.init "https://vidsrc.to" "VidSrc" "multi".

Definition VidSrcScraper_search_item (results : list item) (it : json)
    : result (list item) :=
  let* content_type := Json.get it "type" (JStr "movie") in
  let* ident := Json.get it "id" (JStr "") in
  let* title := Json.get it "title" (JStr "") in
  let* poster := Json.get it "poster" (JStr "") in
  let* year := Json.get it "year" (JStr "") in
  Ok (results ++ [list_to_map [
        ("id", ident);
        ("title", title);
        ("url", JStr (base_url VidSrcScraper ++ "/" ++ Lib.str content_type ++ "/"
                      ++ Lib.str ident));
        ("poster", poster);
        ("year", JStr (Lib.str year));
        ("type", content_type);
        ("source", JStr (site_name VidSrcScraper))]])%list.

Definition VidSrcScraper_search_url (query : string) : string :=
  base_url VidSrcScraper ++ "/api/search/" ++ quote query.

Definition VidSrcScraper_search (query : string) (limit : Z)
    : result (list item) :=
  let search_url := VidSrcScraper_search_url query in
  let* data := Utils.fetch_json search_url (Some (headers VidSrcScraper)) 30 in
  let* found := truthy_and_has data "result" in
  if found then
    let* hits := Json.item data "result" in
    let* first := Json.slice_to hits limit in
    let* items := Json.iter first in
    Py.for_each items [] VidSrcScraper_search_item
  else Ok [].



End Adapters.

(** ** main.py: the aggregated searches *)

Module Main.

(** The keys of the [scrapers] dict, in its insertion order. *)
Inductive site :=
| gogoanime | zoro | animeheaven | animesama
| sflix | fmovies | lookmovie | vidsrc.

Definition key (s : site) : string :=
  match s with
  | gogoanime => "gogoanime"
  | zoro => "zoro"
  | animeheaven => "animeheaven"
  | animesama => "animesama"
  | sflix => "sflix"
  | fmovies => "fmovies"
  | lookmovie => "lookmovie"
  | vidsrc => "vidsrc"
  end.

Definition sites : list site :=
  [gogoanime; zoro; animeheaven; animesama; sflix; fmovies; lookmovie; vidsrc].

(** [k in scrapers], with the entry found. *)
Definition site_of_key (k : string) : option site :=
  List.find (fun s => String.eqb k (key s)) sites.

(** What the orchestrator uses of a scraper: [scraper.search(q, limit)]. *)
Definition adapter := string -> Z -> result (list item).

(** The [scrapers] dict of the module. *)
Definition scrapers `{Net} `{Libs} (s : site) : adapter :=
  match s with
  | gogoanime => GogoanimeScraper_search
  | zoro => ZoroScraper_search
  | animeheaven => AnimeHeavenScraper_search
  | animesama => AnimeSamaScraper_search
  | sflix => SFlixScraper_search
  | fmovies => FMoviesScraper_search
  | lookmovie => LookMovieScraper_search
  | vidsrc => VidSrcScraper_search
  end.

Record ApiResponse := mk_api_response {
  success : bool;
  message : string;
  data : list item;
  sources_used : list string
}.

(** U+00E9. *)
Definition e_acute : string := String (ascii_of_N 233) EmptyString.

(** [for item in result: item['source'] = name]. *)
Definition tag (name : string) (result : list item) : list item :=
  map (set_item "source" (JStr name)) result.

(** [asyncio.gather( *tasks, return_exceptions=True)]: one slot per task,
    holding what it returned or the exception it raised. *)
Definition gather_return_exceptions {A} (tasks : list (result A))
    : result (list (result A)) :=
  Ok tasks.

(** [asyncio.gather( *tasks)]: the first exception is raised. *)
Fixpoint gather {A} (tasks : list (result A)) : result (list A) :=
  match tasks with
  | [] => Ok []
  | t :: ts =>
      let* x := t in
      let* xs := gather ts in
      Ok (x :: xs)
  end.

Section Orchestrator.
Variable scrapers : site -> adapter.

(** *** [search_content] *)

Definition default_scrapers (type : string) : list site :=
  ((if String.eqb type "anime" || String.eqb type "all"
    then [gogoanime; animeheaven; animesama] else [])
   ++
   (if String.eqb type "movie" || String.eqb type "series"
       || String.eqb type "all"
    then [sflix; lookmovie; vidsrc] else []))%list.

(** [if source and source in scrapers: ... else: ...]. *)
Definition scrapers_to_use (type : string) (source : option string)
    : list site :=
  match source with
  | Some src =>
      if String.eqb src "" then default_scrapers type
      else match site_of_key src with
           | Some s => [s]
           | None => default_scrapers type
           end
  | None => default_scrapers type
  end.

Definition search_with_scraper (q : string) (limit : Z) (s : site)
    : result (list item) :=
  try_except (scrapers s q limit) (fun _ => Ok []).

(** The loop over [zip(scrapers_to_use, search_results)]: a slot that
    holds a list is tagged and appended, and its adapter is recorded
    when the list is not empty. *)
Fixpoint collect (slots : list (site * result (list item)))
    : list item * list string :=
  match slots with
  | [] => ([], [])
  | (s, slot) :: rest =>
      let (results, sources_used) := collect rest in
      match slot with
      | Ok found =>
          ((tag (key s) found ++ results)%list,
           if nonempty found then key s :: sources_used
           else sources_used)
      | Raise _ => (results, sources_used)
      end
  end.

Definition search_content (q type : string) (limit : Z)
    (source : option string) : result ApiResponse :=
  let to_use := scrapers_to_use type source in
  let tasks := map (search_with_scraper q limit) to_use in
  let* search_results := gather_return_exceptions tasks in
  let (results, sources_used) := collect (combine to_use search_results) in
  let results := Py.slice_to results limit in
  Ok {| success := 0 <? Py.len results;
        message :=
          if nonempty results
          then Py.str_of_int (Py.len results) ++ " r" ++ e_acute
               ++ "sultats trouv" ++ e_acute ++ "s"
          else "Aucun r" ++ e_acute ++ "sultat";
        data := results;
        sources_used := sources_used |}.

(** *** [multi_search] *)

Definition search_single (q : string) (limit : Z) (s : site)
    : result (string * list item) :=
  try_except
    (let* results := scrapers s q limit in
     Ok (key s, tag (key s) results))
    (fun _ => Ok (key s, [])).

(** [for name, result_list in results: if result_list: ...]. *)
Fixpoint collect_all (results : list (string * list item))
    : list item * list string :=
  match results with
  | [] => ([], [])
  | (name, result_list) :: rest =>
      let (all_results, sources_used) := collect_all rest in
      if nonempty result_list
      then ((result_list ++ all_results)%list, name :: sources_used)
      else (all_results, sources_used)
  end.

(** The sort key [(0 if query_lower in title.lower() else 1, title)]. *)
Definition rank := (Z * string)%type.

Definition sort_key (query_lower : string) (x : item) : result rank :=
  let* title := as_str (get_item x "title" (JStr "")) "lower" in
  Ok (if Py.contains query_lower (Py.lower title) then 0 else 1, title).

(** [a < b] on two keys: tuples compare item by item. *)
Definition rank_lt (a b : rank) : bool :=
  if fst a =? fst b then String.ltb (snd a) (snd b)
  else fst a <? fst b.

(** [list.sort] is stable.  Each element carries its key; an element
    is put in front of the sorted rest of the list, behind those of it
    with a smaller key. *)
Fixpoint insert_by_key (x : rank * item) (l : list (rank * item))
    : list (rank * item) :=
  match l with
  | [] => [x]
  | y :: l' =>
      if rank_lt (fst y) (fst x) then y :: insert_by_key x l'
      else x :: y :: l'
  end.

Fixpoint sort_by_key (l : list (rank * item)) : list (rank * item) :=
  match l with
  | [] => []
  | x :: l' => insert_by_key x (sort_by_key l')
  end.

(** [l.sort(key=f)]: every key is computed first. *)
Definition sort_with (f : item -> result rank) (l : list item)
    : result (list item) :=
  let* keys := gather (map f l) in
  Ok (map snd (sort_by_key (combine keys l))).

Definition multi_search (q type : string) (limit : Z)
    : result ApiResponse :=
  let tasks := map (search_single q limit) sites in
  let* results := gather tasks in
  let (all_results, sources_used) := collect_all results in
  let query_lower := Py.lower q in
  let* all_results := sort_with (sort_key query_lower) all_results in
  Ok {| success := 0 <? Py.len all_results;
        message :=
          Py.str_of_int (Py.len all_results) ++ " r" ++ e_acute
          ++ "sultats de " ++ Py.str_of_int (Py.len sources_used)
          ++ " sources";
        data := Py.slice_to all_results (limit * 3);
        sources_used := sources_used |}.

End Orchestrator.

End Main.

(** ** More of the code: [str] methods and the whitespace of [re] *)

Module Text.

(** [c.isspace()], which is also [\s] of a [str] pattern, below U+0100. *)
Definition is_space (c : ascii) : bool :=
  Py.in_range 9 13 c || Py.in_range 28 32 c || Py.in_range 133 133 c
  || Py.in_range 160 160 c.

(** [s.lstrip(chars)], [s.rstrip(chars)] and [s.strip(chars)], the
    characters to drop given as a set. *)
Fixpoint lstrip (drop : ascii -> bool) (s : list ascii) : list ascii :=
  match s with
  | c :: s' => if drop c then lstrip drop s' else s
  | [] => []
  end.

Fixpoint rstrip (drop : ascii -> bool) (s : list ascii) : list ascii :=
  match s with
  | c :: s' =>
      match rstrip drop s' with
      | [] => if drop c then [] else [c]
      | kept => c :: kept
      end
  | [] => []
  end.

Definition strip (drop : ascii -> bool) (s : list ascii) : list ascii :=
  rstrip drop (lstrip drop s).

(** [re.sub(r'\s+', repl, s)]: [in_run] tells that the character before
    was already a space of the run being replaced. *)
Fixpoint sub_spaces (repl : list ascii) (in_run : bool) (s : list ascii)
    : list ascii :=
  match s with
  | [] => []
  | c :: s' =>
      if is_space c
      then if in_run then sub_spaces repl true s'
           else (repl ++ sub_spaces repl true s')%list
      else c :: sub_spaces repl false s'
  end.

(** [s.split()]: the words between the runs of spaces. *)
Fixpoint split (s : list ascii) : list (list ascii) :=
  match s with
  | [] => []
  | c :: s' =>
      if is_space c then split s'
      else match s' with
           | [] => [[c]]
           | c' :: _ =>
               if is_space c' then [c] :: split s'
               else match split s' with
                    | w :: ws => (c :: w) :: ws
                    | [] => [[c]]
                    end
           end
  end.

(** [' '.join(words)]. *)
Fixpoint join (words : list (list ascii)) : list ascii :=
  match words with
  | [] => []
  | [w] => w
  | w :: ws => (w ++ " "%char :: join ws)%list
  end.

(** [s.replace(a, b)] for two characters. *)
Definition replace_char (a b : ascii) (s : list ascii) : list ascii :=
  map (fun c => if Ascii.eqb c a then b else c) s.

End Text.

(** ** scrapers/utils.py: the text helpers and the retry wrapper *)

Module UtilsText.

(** The characters of [' -:|•'] that a [str] of the model can hold. *)
Definition is_separator (c : ascii) : bool :=
  Ascii.eqb c " " || Ascii.eqb c "-" || Ascii.eqb c ":" || Ascii.eqb c "|".

Definition clean_title (title : string) : string :=
  if String.eqb title "" then ""
  else
    let title := Text.sub_spaces [" "%char] false (list_ascii_of_string title) in
    let title := Text.strip is_separator title in
    string_of_list_ascii (Text.strip Text.is_space title).



End UtilsText.

Module Retry.

Section Wrapper.
Context {A : Type}.
(** [bool(result)]. *)
Variable truthy : A -> bool.
(** What the wrapped function does at its n-th call, n counted from 0. *)
Variable func : nat -> result A.

(** The loop [for attempt in range(max_retries)] from [attempt] on, with
    [todo] rounds left.  The sleeps are recorded by their factor: a sleep
    lasts [delay] times the number recorded. *)
Fixpoint attempts (max_retries : Z) (attempt todo : nat)
    : result (option A * list Z) :=
  match todo with
  | O => Ok (None, [])
  | S todo' =>
      let* found :=
        try_except
          (let* r := func attempt in
           Ok (if truthy r then Some r else None))
          (fun _ => Ok None) in
      match found with
      | Some r => Ok (Some r, [])
      | None =>
          let slept :=
            if Z.of_nat attempt <? max_retries - 1
            then [Z.of_nat attempt + 1] else [] in
          let* rest := attempts max_retries (S attempt) todo' in
          Ok (fst rest, (slept ++ snd rest)%list)
      end
  end.

(** [retry_request(func, max_retries, delay)(...)]: what the wrapper
    returns, and the sleeps it made on the way. *)
Definition retry_request (max_retries : Z) : result (option A * list Z) :=
  attempts max_retries 0 (Z.to_nat max_retries).

End Wrapper.

End Retry.

(** ** scrapers/base_scraper.py: the text methods of [BaseScraper] *)

Module BaseScraperText.

Definition clean_text (text : string) : string :=
  if String.eqb text "" then ""
  else
    let text := list_ascii_of_string text in
    let text := Text.replace_char "010" " " text in
    let text := Text.replace_char "009" " " text in
    string_of_list_ascii (Text.join (Text.split text)).

Definition get_quality_from_text (text : string) : VideoQuality.t :=
  let text_lower := Py.lower text in
  if Py.contains "4k" text_lower || Py.contains "2160p" text_lower
  then VideoQuality.UHD_4K
  else if Py.contains "1440p" text_lower || Py.contains "2k" text_lower
  then VideoQuality.FHD_1440P
  else if Py.contains "1080p" text_lower || Py.contains "full hd" text_lower
          || Py.contains "fhd" text_lower
  then VideoQuality.HD_1080P
  else if Py.contains "720p" text_lower || Py.contains "hd" text_lower
  then VideoQuality.HD_720P
  else if Py.contains "480p" text_lower then VideoQuality.SD_480P
  else if Py.contains "360p" text_lower then VideoQuality.SD_360P
  else VideoQuality.UNKNOWN.

End BaseScraperText.

(** ** [re.search] on the patterns of the text methods *)

Module Rx.

(** A piece of a pattern. *)
Inductive piece :=
| One (k : ascii -> bool)      (* one character of a class *)
| Plus (k : ascii -> bool)     (* k+, greedy *)
| Star (k : ascii -> bool)     (* k*, greedy *)
| Either (a b : list ascii)    (* a|b for two literal texts *)
| Boundary.                    (* \b *)

(** A pattern: its pieces in sequence, each with a flag that tells
    whether it stands inside the parentheses of group 1. *)
Definition pattern := list (piece * bool).

(** A match: [group(0)] and [group(1)]. *)
Definition found := (list ascii * list ascii)%type.

(** The characters [cs] were consumed in front of the match [m]. *)
Definition took (in_group : bool) (cs : list ascii) (m : found) : found :=
  ((cs ++ fst m)%list, if in_group then (cs ++ snd m)%list else snd m).

Definition is_word_at (c : option ascii) : bool :=
  match c with
  | Some c => Re.is_word c
  | None => false
  end.

(** [\b]: a word character on one side only; [prev] is the character
    before the position, [s] the text from the position on. *)
Definition at_boundary (prev : option ascii) (s : list ascii) : bool :=
  negb (Bool.eqb (is_word_at prev) (is_word_at (head s))).

(** [s] without its prefix [a], and the character then before. *)
Fixpoint after_prefix (a : list ascii) (prev : option ascii) (s : list ascii)
    : option (option ascii * list ascii) :=
  match a with
  | [] => Some (prev, s)
  | c :: a' =>
      match s with
      | x :: s' => if Ascii.eqb x c then after_prefix a' (Some x) s' else None
      | [] => None
      end
  end.

(** A match of [p] that starts at the head of [s]: the first one in the
    order of a backtracking matcher, a greedy repetition trying its
    longest run first. *)
Fixpoint match_here (p : pattern) (prev : option ascii) (s : list ascii)
    {struct p} : option found :=
  match p with
  | [] => Some ([], [])
  | (One k, g) :: p' =>
      match s with
      | x :: s' =>
          if k x then option_map (took g [x]) (match_here p' (Some x) s')
          else None
      | [] => None
      end
  | (Plus k, g) :: p' =>
      (fix plus (s : list ascii) : option found :=
         match s with
         | x :: s' =>
             if k x
             then match plus s' with
                  | Some m => Some (took g [x] m)
                  | None =>
                      option_map (took g [x]) (match_here p' (Some x) s')
                  end
             else None
         | [] => None
         end) s
  | (Star k, g) :: p' =>
      match
        (fix plus (s : list ascii) : option found :=
           match s with
           | x :: s' =>
               if k x
               then match plus s' with
                    | Some m => Some (took g [x] m)
                    | None =>
                        option_map (took g [x]) (match_here p' (Some x) s')
                    end
               else None
           | [] => None
           end) s
      with
      | Some m => Some m
      | None => match_here p' prev s
      end
  | (Either a b, g) :: p' =>
      let continue c :=
        match after_prefix c prev s with
        | Some (prev', s') => option_map (took g c) (match_here p' prev' s')
        | None => None
        end in
      match continue a with
      | Some m => Some m
      | None => continue b
      end
  | (Boundary, _) :: p' =>
      if at_boundary prev s then match_here p' prev s else None
  end.

(** The leftmost match from the position on. *)
Fixpoint search_from (p : pattern) (prev : option ascii) (s : list ascii)
    : option found :=
  match match_here p prev s with
  | Some m => Some m
  | None =>
      match s with
      | [] => None
      | x :: s' => search_from p (Some x) s'
      end
  end.

(** [re.search(p, s)]. *)
Definition search (p : pattern) (s : string) : option found :=
  search_from p None (list_ascii_of_string s).

Definition lit (s : string) : pattern :=
  map (fun c => (One (Ascii.eqb c), false)) (list_ascii_of_string s).

(** [\d] on a [str]: below U+0100 the decimal digits are 0 to 9. *)
Definition digit (c : ascii) : bool := Py.in_range 48 57 c.

End Rx.

Module BaseScraperRe.

(** [r'\b(19|20)\d{2}\b']. *)
Definition year : Rx.pattern :=
  [(Rx.Boundary, false);
   (Rx.Either ["1"; "9"]%char ["2"; "0"]%char, true);
   (Rx.One Rx.digit, false); (Rx.One Rx.digit, false);
   (Rx.Boundary, false)].

Definition extract_year (text : string) : string :=
  match Rx.search year text with
  | Some m => string_of_list_ascii (fst m)
  | None => ""
  end.

(** [r'(\d+)\s*min'] and [r'(\d+)\s*h']. *)
Definition minutes : Rx.pattern :=
  ((Rx.Plus Rx.digit, true) :: (Rx.Star Text.is_space, false)
   :: Rx.lit "min")%list.

Definition hours : Rx.pattern :=
  ((Rx.Plus Rx.digit, true) :: (Rx.Star Text.is_space, false)
   :: Rx.lit "h")%list.

Definition parse_duration (text : string) : string :=
  match Rx.search minutes (Py.lower text) with
  | Some m => string_of_list_ascii (snd m) ++ " min"
  | None =>
      match Rx.search hours (Py.lower text) with
      | Some m => string_of_list_ascii (snd m) ++ "h"
      | None => text
      end
  end.

End BaseScraperRe.

(** ** main.py: the endpoints on one source *)

Module Api.

Record ApiResponse := mk_response {
  success : bool;
  message : string;
  data : json;
  sources_used : list string
}.

(** What a request comes to: the response, or the [HTTPException] raised. *)
Inductive answer :=
| Respond (r : ApiResponse)
| HTTPException (status_code : Z) (detail : string).

(** What the endpoints call on a scraper.  [scraper_get_details] is given the
    content type or not ([None]: the argument is left out); a type given
    is the [Optional[str]] of the query. *)
Record scraper := mk_scraper {
  scraper_get_details :
    string -> option (option string) -> result (option ScraperResult.t);
  scraper_get_episode_sources : string -> string -> result (list VideoSource.t);
  scraper_get_download_links : string -> option string -> result (list json)
}.

(** U+00E8. *)
Definition e_grave : string := String (ascii_of_N 232) EmptyString.

(** [f"{list(scrapers.keys())}"]. *)
Definition keys_repr : string :=
  "['gogoanime', 'zoro', 'animeheaven', 'animesama', 'sflix', 'fmovies', 'lookmovie', 'vidsrc']".

Definition unsupported (source : string) : string :=
  "Source '" ++ source ++ "' non support" ++ Main.e_acute ++ "e".

(** [raise HTTPException(status_code=500, detail=f"Erreur: {str(e)}")];
    the message of an exception is what [str] gives of it. *)
Definition internal_error (e : exn) : answer :=
  HTTPException 500 ("Erreur: " ++ exn_msg e).

(** [source in ["sflix", "fmovies"]]. *)
Definition takes_type (source : string) : bool :=
  String.eqb source "sflix" || String.eqb source "fmovies".

(** [if episode_id:] on an [Optional[str]]. *)
Definition given (episode_id : option string) : option string :=
  match episode_id with
  | Some e => if String.eqb e "" then None else Some e
  | None => None
  end.

Section Endpoints.
Variable scrapers : Main.site -> scraper.

Definition get_details (source content_id : string)
    (type : option string) : answer :=
  match Main.site_of_key source with
  | None => HTTPException 400 (unsupported source ++ ". Sources: " ++ keys_repr)
  | Some s =>
      let scraper := scrapers s in
      match
        (if takes_type source
         then scraper_get_details scraper content_id (Some type)
         else scraper_get_details scraper content_id None)
      with
      | Ok (Some result) =>
          Respond {| success := true;
                     message := "D" ++ Main.e_acute ++ "tails r" ++ Main.e_acute
                                ++ "cup" ++ Main.e_acute ++ "r" ++ Main.e_acute
                                ++ "s avec succ" ++ e_grave ++ "s";
                     data := ScraperResult.to_dict result;
                     sources_used := [source] |}
      | Ok None =>
          Respond {| success := false;
                     message := "Contenu non trouv" ++ Main.e_acute;
                     data := JNull;
                     sources_used := [source] |}
      | Raise e => internal_error e
      end
  end.

(** The response made of a list of sources. *)
Definition sources_response (source : string) (sources : list VideoSource.t)
    : ApiResponse :=
  {| success := 0 <? Py.len sources;
     message :=
       if Py.nonempty sources
       then Py.str_of_int (Py.len sources) ++ " sources trouv" ++ Main.e_acute
            ++ "es"
       else "Aucune source";
     data := JList (map VideoSource.to_dict sources);
     sources_used := [source] |}.

Definition get_sources (source content_id : string)
    (episode_id type : option string) : answer :=
  match Main.site_of_key source with
  | None => HTTPException 400 (unsupported source)
  | Some s =>
      let scraper := scrapers s in
      match given episode_id with
      | Some episode =>
          match scraper_get_episode_sources scraper content_id episode with
          | Ok sources => Respond (sources_response source sources)
          | Raise e => internal_error e
          end
      | None =>
          if match type with Some t => String.eqb t "movie" | None => false end
          then
            match
              (if takes_type source
               then scraper_get_details scraper content_id (Some (Some "movie"))
               else scraper_get_details scraper content_id None)
            with
            | Ok details =>
                Respond (sources_response source
                           match details with
                           | Some d => ScraperResult.sources d
                           | None => []
                           end)
            | Raise e => internal_error e
            end
          else
            Respond {| success := false;
                       message := "episode_id requis pour les s" ++ Main.e_acute
                                  ++ "ries/animes";
                       data := JNull;
                       sources_used := [source] |}
      end
  end.

Definition get_episode (source content_id episode_id : string) : answer :=
  match Main.site_of_key source with
  | None => HTTPException 400 (unsupported source)
  | Some s =>
      match scraper_get_episode_sources (scrapers s) content_id episode_id with
      | Ok sources => Respond (sources_response source sources)
      | Raise e => internal_error e
      end
  end.

(** Every scraper has the method: [hasattr] holds. *)
Definition get_download_links (source content_id : string)
    (episode_id : option string) : answer :=
  match Main.site_of_key source with
  | None => HTTPException 400 (unsupported source)
  | Some s =>
      match scraper_get_download_links (scrapers s) content_id episode_id with
      | Ok links =>
          Respond {| success := 0 <? Py.len links;
                     message :=
                       if Py.nonempty links
                       then Py.str_of_int (Py.len links) ++ " liens trouv"
                            ++ Main.e_acute ++ "s"
                       else "Aucun lien";
                     data := JList links;
                     sources_used := [source] |}
      | Raise e => internal_error e
      end
  end.

End Endpoints.

Definition get_trending (source : string) (type : option string) : answer :=
  match Main.site_of_key source with
  | None => HTTPException 400 (unsupported source)
  | Some _ =>
      Respond {| success := true;
                 message := "Utilisez /api/search pour rechercher du contenu";
                 data := JList [];
                 sources_used := [source] |}
  end.

End Api.

(** ** The adapters, continued: seasons, episodes and details *)

(** [datetime.now().isoformat()], read when a [ScraperResult] is built. *)
Class Clock := { now_isoformat : string }.

Module Int.

Definition ValueError (s : string) : exn :=
  Exn "ValueError" ("invalid literal for int() with base 10: " ++ s).







End Int.

Section Adapters2.
Context `{Net} `{Libs} `{Clock}.

Import BaseScraper.

(** [Episode(number=..., title=..., id=...)], the other fields at their
    defaults. *)
Definition new_episode (number : Z) (title id : string) : Episode.t :=
  Episode.mk number title id [] "" "" "" "" [].

(** *** FMoviesScraper._get_episodes *)



(** *** SFlixScraper._get_episodes and _get_seasons *)





(** *** AnimeSamaScraper.get_details *)

(** The body of [for i, ep in enumerate(ep_list, 1)]. *)
Definition AnimeSamaScraper_episode (episodes : list Episode.t) (ep : node)
    : list Episode.t :=
  let i := Py.len episodes + 1 in
  let ep_href := get ep "href" "" in
  let ep_title := get_text ep in
  let ep_id :=
    if Py.contains "/" ep_href then Py.split_last "/" ep_href
    else Py.str_of_int i in
  (episodes ++ [new_episode i ep_title ep_id])%list.

Definition AnimeSamaScraper_get_details (content_id : string)
    : result (option ScraperResult.t) :=
  let detail_url := base_url AnimeSamaScraper ++ "/anime/" ++ content_id in
  let* html := Utils.fetch_page detail_url (Some (headers AnimeSamaScraper)) 30 in
  if no_page html then Ok None
  else
    let soup := BeautifulSoup (page html) in
    let title :=
      match find soup "h1" None with
      | Some t => get_text t
      | None => ""
      end in
    let description :=
      match find soup "div" (Some "synopsis") with
      | Some d => get_text d
      | None => ""
      end in
    let poster :=
      match find soup "img" (Some "cover") with
      | Some img => get img "src" ""
      | None => ""
      end in
    let genres :=
      match find soup "div" (Some "genres") with
      | Some genre_div => map get_text (find_all genre_div "a" None)
      | None => []
      end in
    let ep_list := find_all soup "a" (Some "episode") in
    let episodes := fold_left AnimeSamaScraper_episode ep_list [] in
    Ok (Some {|
      ScraperResult.title := title;
      ScraperResult.original_title := "";
      ScraperResult.id := content_id;
      ScraperResult.type := "anime";
      ScraperResult.description := description;
      ScraperResult.poster := poster;
      ScraperResult.banner := "";
      ScraperResult.rating := "";
      ScraperResult.release_year := "";
      ScraperResult.genres := genres;
      ScraperResult.status := "";
      ScraperResult.duration := "";
      ScraperResult.country := "";
      ScraperResult.language := "";
      ScraperResult.episodes := episodes;
      ScraperResult.episode_count := Py.len episodes;
      ScraperResult.seasons := [];
      ScraperResult.season_count := 0;
      ScraperResult.sources := [];
      ScraperResult.alternative_titles := [];
      ScraperResult.cast := [];
      ScraperResult.director := "";
      ScraperResult.studio := "";
      ScraperResult.download_links := [];
      ScraperResult.source_site := site_name AnimeSamaScraper;
      ScraperResult.source_url := detail_url;
      ScraperResult.scraped_at := now_isoformat
    |}).

(** *** AsyncRequestPool.fetch_multiple *)

(** One task per url, each behind the semaphore; [asyncio.gather] gives
    their results in the order of the urls. *)
Definition fetch_multiple (urls : list string) (hdrs : option Http.headers)
    : result (list (option string)) :=
  Main.gather (map (fun url => Utils.fetch_page url hdrs 30) urls).

End Adapters2.

(** ** Vocabulary of the statements *)

(** A GET that ends in status 200 with a readable body. *)
Definition served (answer : reply) (body : string) : Prop :=
  exists r, answer = Responded r /\ status r = 200 /\ text r = Ok body.

(** A GET that raises: the request itself, or the reading of a 200 body. *)
Definition broke (answer : reply) : Prop :=
  (exists e, answer = Failed e)
  \/ (exists r e, answer = Responded r /\ status r = 200 /\ text r = Raise e).

(** A character that counts in a base64 text: a digit of the alphabet or
    the padding sign. *)
Definition significant (c : ascii) : bool :=
  match Base64.digit c with
  | Some _ => true
  | None => Ascii.eqb c "="
  end.

(** A text made of such characters only; a valid base64 text is one. *)
Definition base64_chars_only (s : string) : bool :=
  forallb significant (list_ascii_of_string s).

(** No registry pattern is found in the url. *)
Definition unmatched (ps : list (string * Re.regex)) (url : string) : Prop :=
  Forall (fun hp => Re.search (snd hp) url = None) ps.


(** The page has no element of the tag and class searched for. *)
Definition page_without `{Libs} (tag : string) (cls : option string)
    (html : option string) : Prop :=
  no_page html = true \/ find_all (BeautifulSoup (page html)) tag cls = [].

(** The JSON answer holds no hit under the key [k]. *)
Definition json_without (k : string) (data : json) : Prop :=
  Json.truthy data = false
  \/ exists d, data = JDict d
               /\ (Json.lookup k d = None \/ Json.lookup k d = Some (JList [])).

(** What an adapter found for a query: nothing when its search raised. *)
Definition found (scrapers : Main.site -> Main.adapter) (q : string)
    (limit : Z) (s : Main.site) : list item :=
  match scrapers s q limit with
  | Ok l => l
  | Raise _ => []
  end.

Definition succeeded (scrapers : Main.site -> Main.adapter) (q : string)
    (limit : Z) (s : Main.site) : bool :=
  match scrapers s q limit with
  | Ok _ => true
  | Raise _ => false
  end.

(** The tagged results of the adapters [l], one adapter after the other. *)
Definition merged (scrapers : Main.site -> Main.adapter) (q : string)
    (limit : Z) (l : list Main.site) : list item :=
  flat_map (fun s => Main.tag (Main.key s) (found scrapers q limit s)) l.

(** The title of a hit is a string (or the hit has no title). *)
Definition has_title (x : item) : Prop :=
  exists t, get_item x "title" (JStr "") = JStr t.

(** [not (b < a)] on sort keys. *)
Definition rank_le (a b : Main.rank) : Prop := Main.rank_lt b a = false.

Definition rank_eqb (a b : Main.rank) : bool :=
  (fst a =? fst b) && String.eqb (snd a) (snd b).

(** The order of the decorated list that [list.sort] works on. *)
Definition by_rank (a b : Main.rank * item) : Prop :=
  rank_le (fst a) (fst b).

(** The key an element carries is the key computed for it. *)
Definition keyed (f : item -> result Main.rank) (p : Main.rank * item)
    : Prop :=
  f (snd p) = Ok (fst p).

(** The hit has the sort key [k] for the query. *)
Definition has_rank (q : string) (k : Main.rank) (x : item) : bool :=
  match Main.sort_key (Py.lower q) x with
  | Ok k' => rank_eqb k' k
  | Raise _ => false
  end.

(** ** Fixtures: concrete worlds on which the statements are run *)

Module Fixture.

Definition no_json : result json :=
  Raise (Exn "ContentTypeError" "unexpected mimetype").

(** A world in which the three clients give the same answer, a function
    of the url. *)
Definition net_of (answer : string -> reply) : Net := {|
  DEFAULT_USER_AGENT := "Mozilla/5.0";
  aiohttp_get := fun url _ _ => answer url;
  requests_get := fun url _ _ => answer url;
  cloudscraper_get := fun url _ _ => answer url
|}.

(** A server that answers 201 Created with a body. *)
Definition created : Net :=
  net_of (fun _ => Responded (mk_response 201 (Ok "created") no_json)).

(** Libraries for a world without markup: every document is empty. *)
Definition plain_libs : Libs := {|
  node := unit;
  BeautifulSoup := fun _ => tt;
  find_all := fun _ _ _ => [];
  find := fun _ _ _ => None;
  attr := fun _ _ => None;
  get_text := fun _ => "";
  quote := fun s => s;
  urljoin := fun base url => base ++ url;
  repr := fun _ => "..."
|}.

Fixpoint answer_of (table : list (string * json)) (url : string) : reply :=
  match table with
  | [] => Responded (mk_response 404 (Ok "Not Found") no_json)
  | (u, j) :: table' =>
      if String.eqb url u
      then Responded (mk_response 200 (Ok "<html></html>") (Ok j))
      else answer_of table' url
  end.

(** A world of JSON endpoints, each url with its answer. *)
Definition api (table : list (string * json)) : Net :=
  net_of (answer_of table).



(** A world in which no site has a hit for "zzzz": the pages are empty and
    the JSON endpoints answer with empty lists. *)
Definition no_hits : Net :=
  net_of (fun url =>
    if String.eqb url
         "https://anime-sama.fr/template-php/defaut/fetch.php?search=zzzz"
    then Responded (mk_response 200 (Ok "[]") (Ok (JList [])))
    else Responded (mk_response 200 (Ok "<html></html>")
                      (Ok (JDict [("results", JList []);
                                  ("result", JList [])])))).

(** A hit with a title. *)
Definition hit (title : string) : item :=
  list_to_map [("id", JStr title); ("title", JStr title);
               ("type", JStr "movie")].

(** What each site holds; the AnimeSama site is out of reach. *)
Definition shelf (s : Main.site) : list item :=
  match s with
  | Main.gogoanime => [hit "Naruto"; hit "Boruto"; hit "Animatrix"]
  | Main.animeheaven => [hit "Naruto"; hit "Bleach"; hit "One Piece"]
  | Main.sflix => [hit "Zed"; hit "The Matrix"]
  | Main.lookmovie => [hit "The Matrix Reloaded"; hit "Zed"]
  | _ => []
  end.

Definition catalogue : Main.site -> Main.adapter :=
  fun s q limit =>
    match s with
    | Main.animesama => Raise (Exn "TimeoutError" "")
    | _ => Ok (Py.slice_to (shelf s) limit)
    end.

End Fixture.

(** ** Vocabulary and fixtures of the further properties *)

(** The n-th call of a retried function gives a true value. *)
Definition succeeds {A} (truthy : A -> bool) (func : nat -> result A)
    (n : nat) : bool :=
  match func n with
  | Ok r => truthy r
  | Raise _ => false
  end.

(** The sleep factors 1, 2, ..., n. *)
Definition factors (n : nat) : list Z := map Z.of_nat (seq 1 n).

(** A GET that ends in status 200 with a body that parses as [j]. *)
Definition served_json (answer : reply) (j : json) : Prop :=
  exists r, answer = Responded r /\ status r = 200 /\ json_body r = Ok j.

(** A GET that raises: the request itself, or the parsing of a 200 body. *)
Definition broke_json (answer : reply) : Prop :=
  (exists e, answer = Failed e)
  \/ (exists r e,
        answer = Responded r /\ status r = 200 /\ json_body r = Raise e).

(** The headers [fetch_json] sends when it is given none. *)
Definition json_headers `{Net} : Http.headers := [
  ("User-Agent", DEFAULT_USER_AGENT);
  ("Accept", "application/json");
  ("Accept-Language", "en-US,en;q=0.5");
  ("Accept-Encoding", "gzip, deflate");
  ("DNT", "1");
  ("Connection", "keep-alive");
  ("Upgrade-Insecure-Requests", "1")
].

Module Fixture2.

(** A function that fails twice, returns an empty value, then succeeds. *)
Definition flaky (n : nat) : result string :=
  match n with
  | 0%nat => Raise (Exn "ConnectionError" "reset")
  | 1%nat => Raise (Exn "Timeout" "timed out")
  | 2%nat => Ok ""
  | _ => Ok "page"
  end.

(** A function that never succeeds. *)
Definition down (n : nat) : result string :=
  Raise (Exn "ConnectionError" "refused").

Definition nonblank (s : string) : bool := negb (String.eqb s "").

(** Scrapers that fail on every call. *)
Definition broken : Main.site -> Api.scraper :=
  fun _ =>
    Api.mk_scraper
      (fun _ _ => Raise (Exn "KeyError" "'data'"))
      (fun _ _ => Raise (Exn "KeyError" "'data'"))
      (fun _ _ => Raise (Exn "KeyError" "'data'")).

End Fixture2.

(** Every whitespace character of the text is one space, the character
    " ", that no whitespace follows; [after_space] tells that the text
    comes behind a space. *)
Fixpoint single_spaced (after_space : bool) (s : list ascii) : bool :=
  match s with
  | [] => true
  | c :: s' =>
      if Text.is_space c
      then negb after_space && Ascii.eqb c " " && single_spaced true s'
      else single_spaced false s'
  end.

(** The text neither begins nor ends with a character of the set. *)
Definition trimmed (drop : ascii -> bool) (s : list ascii) : bool :=
  match s with
  | [] => true
  | c :: _ => negb (drop c)
  end
  &&
  match rev s with
  | [] => true
  | c :: _ => negb (drop c)
  end.

(** A character that [clean_title] leaves at neither end of a title. *)
Definition is_edge (c : ascii) : bool :=
  UtilsText.is_separator c || Text.is_space c.


(** A word: a text that is not empty and holds no whitespace. *)
Definition is_a_word (w : list ascii) : bool :=
  Py.nonempty w && forallb (fun c => negb (Text.is_space c)) w.




(** The numbers 1, 2, ..., n. *)
Definition numbers (n : nat) : list Z := map Z.of_nat (seq 1 n).

(** The text is a year: four digits, the first two 19 or 20. *)
Definition is_year (y : list ascii) : bool :=
  match y with
  | [a; b; c; d] =>
      ((Ascii.eqb a "1" && Ascii.eqb b "9")
       || (Ascii.eqb a "2" && Ascii.eqb b "0"))
      && Rx.digit c && Rx.digit d
  | _ => false
  end.

(** The character that ends [pre], when the text before [pre] ends with
    [prev]. *)
Definition last_from (prev : option ascii) (pre : list ascii) : option ascii :=
  List.last (map Some pre) prev.

(** [y] stands in a text between [pre] and [post] with no word character
    next to it. *)
Definition year_between (pre y post : list ascii) : Prop :=
  is_year y = true
  /\ Rx.is_word_at (last_from None pre) = false
  /\ Rx.is_word_at (head post) = false.

(** A number: a text of decimal digits that is not empty. *)
Definition is_number (n : list ascii) : bool :=
  Py.nonempty n && forallb Rx.digit n.

(** The text [s] holds the number [n], then whitespace or none, then the
    unit. *)
Definition holds_duration (unit : string) (s n : list ascii) : Prop :=
  exists pre sp post,
    s = (pre ++ n ++ sp ++ list_ascii_of_string unit ++ post)%list
    /\ is_number n = true /\ forallb Text.is_space sp = true.

(** Pages with markup, for the scrapers that read seasons and episodes. *)

Module FixtureDom.











End FixtureDom.

(** A JSON catalogue, for the searches. *)

Module FixtureApi.

Definition film (ident title : string) : json :=
  JDict [("id", JStr ident); ("title", JStr title); ("year", JInt 1999)].

(** The VidSrc catalogue has three films for "matrix". *)
Definition vidsrc_three : Net :=
  Fixture.api
    [("https://vidsrc.to/api/search/matrix",
      JDict [("result",
              JList [film "tt0133093" "The Matrix";
                     film "tt0234215" "The Matrix Reloaded";
                     film "tt0242653" "The Matrix Revolutions"])])].

End FixtureApi.

(** * Properties *)

(** ** The data model *)

Lemma len_pos_of_cons {A} (x : A) (l : list A) : 0 < Py.len (x :: l).
Proof. unfold Py.len. simpl length. lia. Qed.

Lemma int_or_len {A} (l : list A) (count : Z) :
  Py.int_or (Py.len l) count =
  if Py.nonempty l then Py.len l else count.
Proof.
  destruct l as [|x l]; [reflexivity|].
  unfold Py.int_or. simpl Py.nonempty.
  pose proof (len_pos_of_cons x l) as Hpos.
  destruct (Z.eqb_spec (Py.len (x :: l)) 0); [lia|reflexivity].
Qed.

(** C3.  The serialised [episode_count] of a Season and of a ScraperResult
    is the number of episodes when there are episodes, and the declared
    [episode_count] field when there are none; a season nested in a
    ScraperResult is serialised by the same rule. *)
Theorem episode_count_serialized (s : Season.t) (r : ScraperResult.t) :
  serialized "episode_count" (Season.to_dict s)
  = Some (JInt (if Py.nonempty (Season.episodes s)
                then Py.len (Season.episodes s)
                else Season.episode_count s))
  /\ serialized "episode_count" (ScraperResult.to_dict r)
     = Some (JInt (if Py.nonempty (ScraperResult.episodes r)
                   then Py.len (ScraperResult.episodes r)
                   else ScraperResult.episode_count r))
  /\ serialized "seasons" (ScraperResult.to_dict r)
     = Some (JList (map Season.to_dict (ScraperResult.seasons r))).
Proof.
  repeat split.
  - cbn. now rewrite int_or_len.
  - cbn. now destruct (ScraperResult.episodes r).
Qed.

(** ** Fetching *)

Section FetchFacts.
Context `{Net}.

Lemma fetch_page_sync_returns url hdrs timeout :
  returns (Utils.fetch_page_sync url hdrs timeout).
Proof.
  unfold Utils.fetch_page_sync, returns, try_except.
  destruct (requests_get _ _ _) as [e|r]; [eauto|].
  destruct (status r =? 200); [|eauto].
  destruct (text r); cbn; eauto.
Qed.

Lemma fetch_page_sync_some url hdrs timeout body :
  Utils.fetch_page_sync url (Some hdrs) timeout = Ok (Some body)
  <-> served (requests_get url hdrs timeout) body.
Proof.
  unfold Utils.fetch_page_sync, served, try_except. cbn.
  destruct (requests_get url hdrs timeout) as [e|r].
  - split; [discriminate|]. intros (r & Hr & _). discriminate.
  - destruct (Z.eqb_spec (status r) 200) as [H200|H200].
    + destruct (text r) as [b|e] eqn:Htext; cbn; split.
      * intros [= <-]. eauto.
      * intros (r' & [= <-] & _ & Hb). congruence.
      * discriminate.
      * intros (r' & [= <-] & _ & Hb). congruence.
    + split; [discriminate|]. intros (r' & [= <-] & Hs & _). contradiction.
Qed.

Lemma fetch_page_returns url hdrs timeout :
  returns (Utils.fetch_page url hdrs timeout).
Proof.
  unfold Utils.fetch_page, try_except.
  destruct (aiohttp_get _ _ _) as [e|r];
    [apply fetch_page_sync_returns|].
  destruct (status r =? 200); [|red; eauto].
  destruct (text r); cbn; [red; eauto|apply fetch_page_sync_returns].
Qed.

Lemma fetch_json_sync_returns url hdrs timeout :
  returns (Utils.fetch_json_sync url hdrs timeout).
Proof.
  unfold Utils.fetch_json_sync, returns, try_except.
  destruct (requests_get _ _ _) as [e|r]; [eauto|].
  destruct (status r =? 200); [|eauto].
  destruct (json_body r); eauto.
Qed.

Lemma fetch_json_returns url hdrs timeout :
  returns (Utils.fetch_json url hdrs timeout).
Proof.
  unfold Utils.fetch_json, try_except.
  destruct (aiohttp_get _ _ _) as [e|r];
    [apply fetch_json_sync_returns|].
  destruct (status r =? 200); [|red; eauto].
  destruct (json_body r); [red; eauto|apply fetch_json_sync_returns].
Qed.

Lemma bypass_cloudflare_returns url hdrs :
  returns (Utils.bypass_cloudflare url hdrs).
Proof.
  unfold Utils.bypass_cloudflare, returns, try_except.
  destruct (cloudscraper_get _ _ _) as [e|r]; [eauto|].
  destruct (status r =? 200); [|eauto].
  destruct (text r); cbn; eauto.
Qed.

(** C4, amended.  [fetch_page] never raises.  It returns a body exactly
    when the aiohttp request ends in status 200 with that body, or when
    the aiohttp request raises and the [requests] fallback ends in status
    200 with that body; in every other case it returns None. *)
Theorem fetch_page_status_200 (url : string) (hdrs : option headers)
    (timeout : Z) :
  let h := Utils.or_random_headers hdrs in
  returns (Utils.fetch_page url hdrs timeout)
  /\ (forall body,
        Utils.fetch_page url hdrs timeout = Ok (Some body)
        <-> served (aiohttp_get url h (Some timeout)) body
            \/ (broke (aiohttp_get url h (Some timeout))
                /\ served (requests_get url h timeout) body))
  /\ (Utils.fetch_page url hdrs timeout = Ok None
      \/ exists body, Utils.fetch_page url hdrs timeout = Ok (Some body)).
Proof.
  intros h. split; [apply fetch_page_returns|]. split.
  - intros body. unfold Utils.fetch_page, try_except. fold h.
    rewrite <- fetch_page_sync_some.
    unfold served, broke.
    destruct (aiohttp_get url h (Some timeout)) as [e|r].
    + split.
      * intros Hsync. right. split; [left; eauto|exact Hsync].
      * intros [(r & Hr & _)|[_ Hsync]]; [discriminate|exact Hsync].
    + destruct (Z.eqb_spec (status r) 200) as [H200|H200].
      * destruct (text r) as [b|e] eqn:Htext; cbn.
        -- split.
           ++ intros [= <-]. left. eauto.
           ++ intros [(r' & [= <-] & _ & Hb)|[Hbroke _]]; [congruence|].
              destruct Hbroke as [(e & He)|(r' & e & [= <-] & _ & Hb)];
                [discriminate|congruence].
        -- split.
           ++ intros Hsync. right. split; [right; eauto|exact Hsync].
           ++ intros [(r' & [= <-] & _ & Hb)|[_ Hsync]];
                [congruence|exact Hsync].
      * split; [discriminate|].
        intros [(r' & [= <-] & Hs & _)|[Hbroke _]]; [contradiction|].
        destruct Hbroke as [(e & He)|(r' & e & [= <-] & Hs & _)];
          [discriminate|contradiction].
  - destruct (fetch_page_returns url hdrs timeout) as [[body|] Hr];
      [right; eauto|left; exact Hr].
Qed.

End FetchFacts.

(** C4, as stated, fails: a 201 answer is in the 2xx range and its body is
    not returned. *)
Lemma fetch_page_2xx_refuted :
  ~ (forall (net : Net) (url : string) (hdrs : option headers) (timeout : Z)
            (r : response) (body : string),
        aiohttp_get url (Utils.or_random_headers hdrs) (Some timeout)
        = Responded r ->
        200 <= status r < 300 ->
        text r = Ok body ->
        Utils.fetch_page url hdrs timeout = Ok (Some body)).
Proof.
  intros claim.
  specialize (claim Fixture.created "https://anitaku.to/search.html" None 30
                (mk_response 201 (Ok "created") Fixture.no_json) "created"
                eq_refl ltac:(cbn; lia) eq_refl).
  vm_compute in claim. discriminate.
Qed.

(** ** Embed classification *)

Lemma first_match_cases (ps : list (string * Re.regex)) (url : string) :
  (unmatched ps url /\ Utils.first_match ps url = None)
  \/ (exists before h p after m,
        ps = (before ++ (h, p) :: after)%list
        /\ unmatched before url
        /\ Re.search p url = Some m
        /\ Utils.first_match ps url = Some (Utils.mk_embed h m url None)).
Proof.
  induction ps as [|[h p] ps IH]; cbn.
  - left. split; [constructor|reflexivity].
  - destruct (Re.search p url) as [m|] eqn:Hp.
    + right. exists [], h, p, ps, m. repeat split; [constructor|exact Hp].
    + destruct IH as [[Hno Hnone]|(before & h' & p' & after & m & -> & Hno & Hm & Hfirst)].
      * left. split; [constructor; [exact Hp|exact Hno]|exact Hnone].
      * right. exists ((h, p) :: before), h', p', after, m.
        repeat split; [constructor; [exact Hp|exact Hno]|exact Hm|exact Hfirst].
Qed.

(** C6, amended.  [extract_video_url] returns None when no pattern of the
    registry is found in the url; otherwise the first entry of the registry
    whose pattern is found gives the host and the video id. *)
Theorem extract_video_url_first_match (embed_url : string) :
  (unmatched Utils.patterns embed_url
   /\ Utils.extract_video_url embed_url = None)
  \/ (exists before h p after m,
        Utils.patterns = (before ++ (h, p) :: after)%list
        /\ unmatched before embed_url
        /\ Re.search p embed_url = Some m
        /\ Utils.extract_video_url embed_url
           = Some (Utils.mk_embed h m embed_url None)).
Proof. apply first_match_cases. Qed.

(** C6, as stated, fails: a url that matches no pattern gets no
    classification at all, not the host "iframe". *)
Lemma extract_video_url_iframe_refuted :
  ~ (forall url : string,
        unmatched Utils.patterns url ->
        exists e, Utils.extract_video_url url = Some e
                  /\ Utils.host e = "iframe").
Proof.
  intros claim.
  destruct (claim "https://example.com/embed/1") as (e & He & _).
  - unfold unmatched, Utils.patterns.
    repeat (constructor; [vm_compute; reflexivity|]). constructor.
  - vm_compute in He. discriminate.
Qed.

(** C9.  The url https://mixdrop.co/e/abc123 is classified with host
    "mixdrop": the patterns before mixdrop's are not found in it, mixdrop's
    is, and its group is the video id "abc123". *)
Theorem mixdrop_url_classified :
  let url := "https://mixdrop.co/e/abc123" in
  Utils.extract_video_url url
  = Some {| Utils.host := "mixdrop"; Utils.video_id := "abc123";
            Utils.embed_url := url; Utils.direct_url := None |}
  /\ unmatched (firstn 2 Utils.patterns) url
  /\ option_map fst (nth_error Utils.patterns 2) = Some "mixdrop"
  /\ option_map (fun hp => Re.search (snd hp) url) (nth_error Utils.patterns 2)
     = Some (Some "abc123").
Proof.
  cbv zeta. split; [vm_compute; reflexivity|]. split.
  - unfold unmatched, Utils.patterns. cbn [firstn].
    repeat (constructor; [vm_compute; reflexivity|]). constructor.
  - split; vm_compute; reflexivity.
Qed.

(** ** Base64 *)

Lemma string_length_app (s1 s2 : string) :
  String.length (s1 ++ s2) = (String.length s1 + String.length s2)%nat.
Proof.
  induction s1 as [|c s1 IH]; [reflexivity|].
  change (S (String.length (s1 ++ s2))
          = S (String.length s1 + String.length s2)).
  now rewrite IH.
Qed.

Lemma string_length_of_list (l : list ascii) :
  String.length (string_of_list_ascii l) = length l.
Proof. induction l as [|c l IH]; simpl; [reflexivity|f_equal; exact IH]. Qed.

Lemma string_app_empty (s : string) : s ++ "" = s.
Proof.
  induction s as [|c s IH]; [reflexivity|].
  change (String c (s ++ "") = String c s). now rewrite IH.
Qed.

Lemma padded_spec (encoded : string) :
  exists k : nat,
    (k < 4)%nat
    /\ Utils.padded encoded
       = encoded ++ string_of_list_ascii (repeat "="%char k)
    /\ (String.length (Utils.padded encoded) mod 4 = 0)%nat.
Proof.
  unfold Utils.padded.
  set (n := String.length encoded).
  pose proof (Z.mod_pos_bound (Z.of_nat n) 4 ltac:(lia)) as Hr.
  assert (Hmod : Z.of_nat (n mod 4) = Z.of_nat n mod 4)
    by (rewrite Nat2Z.inj_mod; reflexivity).
  destruct (Z.eqb_spec (4 - Z.of_nat n mod 4) 4) as [H4|H4].
  - exists 0%nat. repeat split; [lia| |].
    + simpl. symmetry. apply string_app_empty.
    + fold n. lia.
  - exists (Z.to_nat (4 - Z.of_nat n mod 4)).
    split; [lia|]. split; [reflexivity|].
    rewrite string_length_app, string_length_of_list, repeat_length. fold n.
    apply Nat2Z.inj. rewrite Nat2Z.inj_mod, Nat2Z.inj_add, Z2Nat.id by lia.
    replace (Z.of_nat n + (4 - Z.of_nat n mod 4))
      with (0 + (Z.of_nat n / 4 + 1) * 4)
      by (pose proof (Z.div_mod (Z.of_nat n) 4 ltac:(lia)); lia).
    rewrite Z.mod_add by lia. reflexivity.
Qed.

Lemma a2b_loop_skips (data : list ascii) :
  forall quad_pos leftchar pads,
    Base64.a2b_loop data quad_pos leftchar pads
    = Base64.a2b_loop (List.filter significant data) quad_pos leftchar pads.
Proof.
  induction data as [|c data IH]; intros q l p; [reflexivity|].
  cbn [List.filter]. unfold significant at 1.
  destruct (Ascii.eqb_spec c "=") as [->|Hc].
  - change (Base64.digit "=") with (@None N). cbv iota.
    change (Ascii.eqb "=" "=") with true. cbv iota.
    cbn [Base64.a2b_loop]. change (Ascii.eqb "=" "=") with true. cbv iota.
    destruct (2 <=? q)%N; [destruct (4 <=? q + (p + 1))%N|]; auto.
  - destruct (Base64.digit c) as [d|] eqn:Hd.
    + cbn [Base64.a2b_loop].
      destruct (Ascii.eqb_spec c "=") as [Heq|_]; [contradiction|].
      rewrite Hd.
      destruct (q =? 0)%N; [apply IH|].
      destruct (q =? 1)%N; [now rewrite IH|].
      destruct (q =? 2)%N; now rewrite IH.
    + destruct (Ascii.eqb_spec c "=") as [Heq|_]; [contradiction|].
      cbn [Base64.a2b_loop].
      destruct (Ascii.eqb_spec c "=") as [Heq|_]; [contradiction|].
      rewrite Hd. apply IH.
Qed.

(** C10, amended.  [decode_base64_url] never raises.  It completes its
    input with at most three padding signs to a length that is a multiple
    of 4, and returns the text decoded from it, or the empty string when
    [b64decode] or the UTF-8 decoding raises.  [b64decode] skips the
    characters outside the base64 alphabet: an input that holds some is
    decoded as if they were not there. *)
Theorem decode_base64_url_total (encoded : string) :
  returns (Utils.decode_base64_url encoded)
  /\ (exists k : nat,
        (k < 4)%nat
        /\ Utils.padded encoded
           = encoded ++ string_of_list_ascii (repeat "="%char k)
        /\ (String.length (Utils.padded encoded) mod 4 = 0)%nat)
  /\ Utils.decode_base64_url encoded
     = Ok match (let* raw := Base64.b64decode (Utils.padded encoded) in
                 Utf8.decode raw) with
          | Ok text => text
          | Raise _ => []
          end
  /\ Base64.a2b_loop (list_ascii_of_string (Utils.padded encoded)) 0 0 0
     = Base64.a2b_loop
         (List.filter significant (list_ascii_of_string (Utils.padded encoded)))
         0 0 0.
Proof.
  assert (Heq : Utils.decode_base64_url encoded
                = Ok match (let* raw := Base64.b64decode (Utils.padded encoded) in
                            Utf8.decode raw) with
                     | Ok text => text
                     | Raise _ => []
                     end).
  { unfold Utils.decode_base64_url, try_except.
    destruct (let* raw := Base64.b64decode (Utils.padded encoded) in
              Utf8.decode raw); reflexivity. }
  split; [rewrite Heq; red; eauto|].
  split; [apply padded_spec|].
  split; [exact Heq|apply a2b_loop_skips].
Qed.

(** C10, as stated, fails: the input aGVs! is no valid base64 text (its
    last character is outside the alphabet), and the result is the string
    "hel", not the empty string. *)
Lemma decode_base64_url_invalid_refuted :
  ~ (forall s : string,
        base64_chars_only s = false -> Utils.decode_base64_url s = Ok []).
Proof.
  intros claim. specialize (claim "aGVs!" eq_refl).
  vm_compute in claim. discriminate.
Qed.

(** ** Slices *)

Lemma slice_to_firstn {A} (l : list A) (n : Z) :
  0 <= n -> Py.slice_to l n = firstn (Z.to_nat n) l.
Proof.
  intros Hn. unfold Py.slice_to.
  destruct (Z.ltb_spec n 0); [lia|reflexivity].
Qed.

Lemma slice_to_len {A} (l : list A) (n : Z) :
  0 <= n -> Py.len (Py.slice_to l n) = Z.min n (Py.len l).
Proof.
  intros Hn. rewrite slice_to_firstn by exact Hn.
  unfold Py.len. rewrite length_firstn. lia.
Qed.

(** ** The order of the sort keys *)

Lemma string_ltb_irrefl (s : string) : String.ltb s s = false.
Proof.
  unfold String.ltb.
  assert (H : String.compare s s = Eq) by (now apply String_as_OT.cmp_eq).
  now rewrite H.
Qed.

Lemma string_ltb_asym (a b : string) :
  String.ltb a b = true -> String.ltb b a = false.
Proof.
  unfold String.ltb. rewrite (String.compare_antisym b a).
  destruct (String.compare a b); cbn; congruence.
Qed.

(** [not (b < a)] is transitive on strings. *)
Lemma string_not_ltb_trans (a b c : string) :
  String.ltb b a = false -> String.ltb c b = false -> String.ltb c a = false.
Proof.
  unfold String.ltb. intros Hab Hbc.
  destruct (String.compare c a) eqn:Hca; try reflexivity.
  apply String_as_OT.cmp_lt in Hca.
  destruct (String.compare b a) eqn:Hba; try discriminate.
  - apply String_as_OT.cmp_eq in Hba. subst b.
    apply String_as_OT.cmp_lt in Hca. unfold String_as_OT.cmp in Hca.
    now rewrite Hca in Hbc.
  - assert (Hab' : String_as_OT.lt a b).
    { apply String_as_OT.cmp_lt. unfold String_as_OT.cmp.
      rewrite String.compare_antisym, Hba. reflexivity. }
    pose proof (String_as_OT.lt_trans _ _ _ Hca Hab') as Hcb.
    apply String_as_OT.cmp_lt in Hcb. unfold String_as_OT.cmp in Hcb.
    now rewrite Hcb in Hbc.
Qed.

Lemma rank_lt_irrefl (k : Main.rank) : Main.rank_lt k k = false.
Proof.
  unfold Main.rank_lt. rewrite Z.eqb_refl. apply string_ltb_irrefl.
Qed.

Lemma rank_lt_asym (a b : Main.rank) :
  Main.rank_lt a b = true -> rank_le a b.
Proof.
  unfold rank_le, Main.rank_lt. rewrite (Z.eqb_sym (fst b)).
  destruct (Z.eqb_spec (fst a) (fst b)); [apply string_ltb_asym|].
  intros Hlt. apply Z.ltb_lt in Hlt. apply Z.ltb_ge. lia.
Qed.

Lemma rank_le_trans (a b c : Main.rank) :
  rank_le a b -> rank_le b c -> rank_le a c.
Proof.
  unfold rank_le, Main.rank_lt. intros Hab Hbc.
  destruct (Z.eqb_spec (fst b) (fst a)) as [Eba|Nba];
    destruct (Z.eqb_spec (fst c) (fst b)) as [Ecb|Ncb];
    destruct (Z.eqb_spec (fst c) (fst a)) as [Eca|Nca];
    try (apply Z.ltb_ge in Hab); try (apply Z.ltb_ge in Hbc);
    try (apply Z.ltb_ge); try lia.
  exact (string_not_ltb_trans _ _ _ Hab Hbc).
Qed.

Lemma rank_eqb_eq (a b : Main.rank) : rank_eqb a b = true <-> a = b.
Proof.
  unfold rank_eqb. destruct a as [a1 a2], b as [b1 b2]. cbn.
  rewrite andb_true_iff, Z.eqb_eq, String.eqb_eq.
  split; [intros [-> ->]; reflexivity|intros [= -> ->]; auto].
Qed.

Lemma rank_lt_not_eqb (a b : Main.rank) :
  Main.rank_lt a b = true -> rank_eqb a b = false.
Proof.
  intros Hlt. destruct (rank_eqb a b) eqn:Heq; [|reflexivity].
  apply rank_eqb_eq in Heq. subst b.
  rewrite rank_lt_irrefl in Hlt. discriminate.
Qed.

(** ** The stable sort *)

Lemma insert_by_key_perm (x : Main.rank * item) (l : list (Main.rank * item)) :
  Permutation (x :: l) (Main.insert_by_key x l).
Proof.
  induction l as [|y l IH]; cbn; [reflexivity|].
  destruct (Main.rank_lt (fst y) (fst x)); [|reflexivity].
  rewrite perm_swap. now constructor.
Qed.

Lemma sort_by_key_perm (l : list (Main.rank * item)) :
  Permutation l (Main.sort_by_key l).
Proof.
  induction l as [|x l IH]; cbn; [constructor|].
  rewrite <- insert_by_key_perm. now constructor.
Qed.

Lemma insert_by_key_sorted (x : Main.rank * item) l :
  StronglySorted by_rank l -> StronglySorted by_rank (Main.insert_by_key x l).
Proof.
  induction 1 as [|y l Hsorted IH Hall]; cbn.
  - repeat constructor.
  - destruct (Main.rank_lt (fst y) (fst x)) eqn:Hlt.
    + constructor; [exact IH|].
      apply (Permutation_Forall (insert_by_key_perm x l)).
      constructor; [apply rank_lt_asym, Hlt|exact Hall].
    + constructor; [constructor; assumption|].
      constructor; [exact Hlt|].
      eapply List.Forall_impl; [|exact Hall].
      intros z Hyz. unfold by_rank in *.
      eapply rank_le_trans; [exact Hlt|exact Hyz].
Qed.

Lemma sort_by_key_sorted (l : list (Main.rank * item)) :
  StronglySorted by_rank (Main.sort_by_key l).
Proof.
  induction l as [|x l IH]; cbn; [constructor|].
  now apply insert_by_key_sorted.
Qed.

(** Elements with the same key keep their order. *)
Lemma insert_by_key_stable (k : Main.rank) x l :
  List.filter (fun y => rank_eqb (fst y) k) (Main.insert_by_key x l)
  = List.filter (fun y => rank_eqb (fst y) k) (x :: l).
Proof.
  induction l as [|y l IH]; [reflexivity|].
  cbn [Main.insert_by_key].
  destruct (Main.rank_lt (fst y) (fst x)) eqn:Hlt; [|reflexivity].
  cbn [List.filter] in *. rewrite IH.
  destruct (rank_eqb (fst y) k) eqn:Hy; [|reflexivity].
  destruct (rank_eqb (fst x) k) eqn:Hx; [|reflexivity].
  apply rank_eqb_eq in Hy, Hx.
  apply rank_lt_not_eqb in Hlt.
  assert (Heq : rank_eqb (fst y) (fst x) = true)
    by (apply rank_eqb_eq; congruence).
  congruence.
Qed.

Lemma sort_by_key_stable (k : Main.rank) l :
  List.filter (fun y => rank_eqb (fst y) k) (Main.sort_by_key l)
  = List.filter (fun y => rank_eqb (fst y) k) l.
Proof.
  induction l as [|x l IH]; [reflexivity|].
  cbn [Main.sort_by_key]. rewrite insert_by_key_stable.
  cbn [List.filter]. now rewrite IH.
Qed.

Lemma gather_map_keyed (f : item -> result Main.rank) (l : list item) :
  forall keys,
    Main.gather (map f l) = Ok keys ->
    Forall (keyed f) (combine keys l) /\ map snd (combine keys l) = l.
Proof.
  induction l as [|x l IH]; intros keys; cbn.
  - intros [= <-]. split; [constructor|reflexivity].
  - destruct (f x) as [k|e] eqn:Hx; cbn; [|discriminate].
    destruct (Main.gather (map f l)) as [ks|e] eqn:Hl; cbn; [|discriminate].
    intros [= <-]. destruct (IH ks eq_refl) as [Hall Hsnd].
    cbn. split; [constructor; [exact Hx|exact Hall]|now rewrite Hsnd].
Qed.

Lemma gather_of_keyed (f : item -> result Main.rank) dl :
  Forall (keyed f) dl -> Main.gather (map f (map snd dl)) = Ok (map fst dl).
Proof.
  induction 1 as [|p dl Hp _ IH]; cbn; [reflexivity|].
  rewrite Hp. cbn. now rewrite IH.
Qed.

Lemma filter_keyed (f : item -> result Main.rank) (k : Main.rank) dl :
  Forall (keyed f) dl ->
  List.filter (fun x => match f x with
                        | Ok k' => rank_eqb k' k
                        | Raise _ => false
                        end) (map snd dl)
  = map snd (List.filter (fun y => rank_eqb (fst y) k) dl).
Proof.
  induction 1 as [|p dl Hp _ IH]; cbn; [reflexivity|].
  rewrite Hp, IH. now destruct (rank_eqb (fst p) k).
Qed.

Lemma sorted_keys dl :
  StronglySorted by_rank dl -> StronglySorted rank_le (map fst dl).
Proof.
  induction 1 as [|p dl _ IH Hall]; cbn; constructor; [exact IH|].
  apply List.Forall_map. exact Hall.
Qed.

(** What [l.sort(key=f)] leaves in [l], when no key raises. *)
Lemma sort_with_spec (f : item -> result Main.rank) (l sorted : list item) :
  Main.sort_with f l = Ok sorted ->
  Permutation l sorted
  /\ (exists keys, Main.gather (map f sorted) = Ok keys
                   /\ StronglySorted rank_le keys)
  /\ (forall k,
        List.filter (fun x => match f x with
                              | Ok k' => rank_eqb k' k
                              | Raise _ => false
                              end) sorted
        = List.filter (fun x => match f x with
                                | Ok k' => rank_eqb k' k
                                | Raise _ => false
                                end) l).
Proof.
  unfold Main.sort_with.
  destruct (Main.gather (map f l)) as [keys|e] eqn:Hkeys; cbn; [|discriminate].
  intros [= <-].
  destruct (gather_map_keyed f l keys Hkeys) as [Hall Hsnd].
  set (dl := combine keys l) in *.
  assert (Hsorted_all : Forall (keyed f) (Main.sort_by_key dl))
    by (apply (Permutation_Forall (sort_by_key_perm dl)), Hall).
  split; [|split].
  - rewrite <- Hsnd at 1. apply Permutation_map, sort_by_key_perm.
  - exists (map fst (Main.sort_by_key dl)).
    split; [now apply gather_of_keyed|apply sorted_keys, sort_by_key_sorted].
  - intros k. rewrite (filter_keyed f k _ Hsorted_all), sort_by_key_stable.
    rewrite <- (filter_keyed f k _ Hall). now rewrite Hsnd.
Qed.

Lemma sort_key_of_title (ql : string) (x : item) :
  has_title x -> returns (Main.sort_key ql x).
Proof.
  intros [t Ht]. unfold Main.sort_key. rewrite Ht. cbn. red; eauto.
Qed.

Lemma gather_returns {A B} (f : A -> result B) (l : list A) :
  Forall (fun x => returns (f x)) l -> returns (Main.gather (map f l)).
Proof.
  induction 1 as [|x l [k Hk] _ [ks Hks]]; cbn; [red; eauto|].
  rewrite Hk. cbn. rewrite Hks. cbn. red; eauto.
Qed.

Lemma sort_with_returns (ql : string) (l : list item) :
  Forall has_title l -> returns (Main.sort_with (Main.sort_key ql) l).
Proof.
  intros Hall. unfold Main.sort_with.
  destruct (gather_returns (Main.sort_key ql) l) as [keys Hkeys].
  - eapply List.Forall_impl; [|exact Hall]. intros x. apply sort_key_of_title.
  - rewrite Hkeys. cbn. red; eauto.
Qed.

(** ** The aggregated searches *)

Lemma key_inj (s1 s2 : Main.site) : Main.key s1 = Main.key s2 -> s1 = s2.
Proof. destruct s1, s2; cbn; intros Heq; try reflexivity; discriminate. Qed.

Lemma site_of_key_key (k : string) (s : Main.site) :
  Main.site_of_key k = Some s -> Main.key s = k.
Proof.
  unfold Main.site_of_key. intros Hfind.
  apply List.find_some in Hfind as [_ Heq].
  apply String.eqb_eq in Heq. now symmetry.
Qed.

Lemma nonempty_tag (name : string) (l : list item) :
  Py.nonempty (Main.tag name l) = Py.nonempty l.
Proof. now destruct l. Qed.

Lemma has_title_tag (name : string) (x : item) :
  has_title x -> has_title (set_item "source" (JStr name) x).
Proof.
  intros [t Ht]. exists t. unfold get_item, set_item in *.
  now rewrite lookup_insert_ne.
Qed.

Section OrchestratorFacts.
Variable scrapers : Main.site -> Main.adapter.
Variables (q : string) (limit : Z).

Lemma search_with_scraper_found (s : Main.site) :
  Main.search_with_scraper scrapers q limit s = Ok (found scrapers q limit s).
Proof.
  unfold Main.search_with_scraper, found, try_except.
  now destruct (scrapers s q limit).
Qed.

Lemma collect_spec (l : list Main.site) :
  Main.collect (combine l (map (Main.search_with_scraper scrapers q limit) l))
  = (merged scrapers q limit l,
     map Main.key
       (List.filter (fun s => Py.nonempty (found scrapers q limit s)) l)).
Proof.
  induction l as [|s l IH]; [reflexivity|].
  cbn [map combine Main.collect]. rewrite IH, search_with_scraper_found.
  cbn [merged flat_map List.filter].
  now destruct (Py.nonempty (found scrapers q limit s)).
Qed.

Lemma merged_of_succeeded (l : list Main.site) :
  merged scrapers q limit (List.filter (succeeded scrapers q limit) l)
  = merged scrapers q limit l.
Proof.
  induction l as [|s l IH]; [reflexivity|].
  cbn [List.filter]. unfold succeeded at 1.
  destruct (scrapers s q limit) as [found_s|e] eqn:Hs.
  - unfold merged in *. cbn [flat_map]. now rewrite IH.
  - rewrite IH. unfold merged, found. cbn [flat_map]. now rewrite Hs.
Qed.

Lemma used_of_succeeded (l : list Main.site) :
  List.filter (fun s => succeeded scrapers q limit s
                        && Py.nonempty (found scrapers q limit s)) l
  = List.filter (fun s => Py.nonempty (found scrapers q limit s)) l.
Proof.
  apply List.filter_ext. intros s. unfold succeeded, found.
  now destruct (scrapers s q limit).
Qed.

Lemma search_content_eq (type : string) (source : option string) :
  let to_use := Main.scrapers_to_use type source in
  exists resp,
    Main.search_content scrapers q type limit source = Ok resp
    /\ Main.data resp = Py.slice_to (merged scrapers q limit to_use) limit
    /\ Main.sources_used resp
       = map Main.key
           (List.filter (fun s => Py.nonempty (found scrapers q limit s))
                        to_use).
Proof.
  intros to_use. unfold Main.search_content, Main.gather_return_exceptions.
  fold to_use. cbn [bind]. rewrite collect_spec.
  eexists. split; [reflexivity|]. split; reflexivity.
Qed.

Lemma search_single_found (s : Main.site) :
  Main.search_single scrapers q limit s
  = Ok (Main.key s, Main.tag (Main.key s) (found scrapers q limit s)).
Proof.
  unfold Main.search_single, found, try_except.
  now destruct (scrapers s q limit).
Qed.

Lemma gather_search_single (l : list Main.site) :
  Main.gather (map (Main.search_single scrapers q limit) l)
  = Ok (map (fun s => (Main.key s,
                       Main.tag (Main.key s) (found scrapers q limit s))) l).
Proof.
  induction l as [|s l IH]; [reflexivity|].
  cbn [map Main.gather]. rewrite search_single_found, IH. reflexivity.
Qed.

Lemma collect_all_spec (l : list Main.site) :
  Main.collect_all
    (map (fun s => (Main.key s,
                    Main.tag (Main.key s) (found scrapers q limit s))) l)
  = (merged scrapers q limit l,
     map Main.key
       (List.filter (fun s => Py.nonempty (found scrapers q limit s)) l)).
Proof.
  induction l as [|s l IH]; [reflexivity|].
  cbn [map Main.collect_all]. rewrite IH, nonempty_tag.
  cbn [merged flat_map List.filter].
  destruct (found scrapers q limit s); reflexivity.
Qed.

Lemma multi_search_eq (type : string) :
  Main.multi_search scrapers q type limit
  = (let* sorted :=
       Main.sort_with (Main.sort_key (Py.lower q))
                      (merged scrapers q limit Main.sites) in
     Ok {| Main.success := 0 <? Py.len sorted;
           Main.message :=
             Py.str_of_int (Py.len sorted) ++ " r" ++ Main.e_acute
             ++ "sultats de "
             ++ Py.str_of_int
                  (Py.len (map Main.key
                             (List.filter
                                (fun s => Py.nonempty (found scrapers q limit s))
                                Main.sites)))
             ++ " sources";
           Main.data := Py.slice_to sorted (limit * 3);
           Main.sources_used :=
             map Main.key
               (List.filter (fun s => Py.nonempty (found scrapers q limit s))
                            Main.sites) |}).
Proof.
  unfold Main.multi_search. rewrite gather_search_single. cbn [bind].
  rewrite collect_all_spec. reflexivity.
Qed.

Lemma merged_has_title (l : list Main.site) :
  (forall s found_s,
      scrapers s q limit = Ok found_s -> Forall has_title found_s) ->
  Forall has_title (merged scrapers q limit l).
Proof.
  intros Htitles. induction l as [|s l IH]; [constructor|].
  unfold merged in *. cbn [flat_map]. apply Forall_app. split; [|exact IH].
  unfold found. destruct (scrapers s q limit) as [found_s|e] eqn:Hs;
    [|constructor].
  unfold Main.tag. apply List.Forall_map.
  eapply List.Forall_impl; [|exact (Htitles s found_s Hs)].
  intros x. apply has_title_tag.
Qed.

End OrchestratorFacts.

(** C1.  In [search_content] an adapter whose search raises contributes
    no result and is not in [sources_used]; the response is built from the
    results of the adapters that did not raise, taken in their order and
    cut at the limit; the search itself returns whatever the adapters do. *)
Theorem search_content_isolates_failures
    (scrapers : Main.site -> Main.adapter) (q type : string) (limit : Z)
    (source : option string) :
  let to_use := Main.scrapers_to_use type source in
  exists resp,
    Main.search_content scrapers q type limit source = Ok resp
    /\ Main.data resp
       = Py.slice_to
           (merged scrapers q limit
              (List.filter (succeeded scrapers q limit) to_use))
           limit
    /\ Main.sources_used resp
       = map Main.key
           (List.filter
              (fun s => succeeded scrapers q limit s
                        && Py.nonempty (found scrapers q limit s))
              to_use)
    /\ (forall s e,
          scrapers s q limit = Raise e ->
          found scrapers q limit s = []
          /\ ~ In (Main.key s) (Main.sources_used resp)).
Proof.
  intros to_use.
  destruct (search_content_eq scrapers q limit type source)
    as (resp & Hresp & Hdata & Hused).
  fold to_use in Hdata, Hused.
  exists resp. split; [exact Hresp|].
  split; [now rewrite merged_of_succeeded|].
  split; [now rewrite used_of_succeeded|].
  intros s e Hs.
  assert (Hnone : found scrapers q limit s = [])
    by (unfold found; now rewrite Hs).
  split; [exact Hnone|].
  rewrite Hused. intros Hin.
  apply in_map_iff in Hin as (s' & Hkey & Hin).
  apply key_inj in Hkey. subst s'.
  apply List.filter_In in Hin as [_ Hfound].
  rewrite Hnone in Hfound. discriminate.
Qed.

(** Three adapters are asked for an anime and one of them fails: the hits of
    the other two are returned and make up [sources_used]. *)
Lemma search_content_isolates_failures_witness :
  exists resp,
    Main.search_content Fixture.catalogue "naruto" "anime" 10 None = Ok resp
    /\ Fixture.catalogue Main.animesama "naruto" 10
       = Raise (Exn "TimeoutError" "")
    /\ Main.data resp
       = (Main.tag "gogoanime" (Fixture.shelf Main.gogoanime)
          ++ Main.tag "animeheaven" (Fixture.shelf Main.animeheaven))%list
    /\ Main.sources_used resp = ["gogoanime"; "animeheaven"].
Proof.
  destruct (search_content_isolates_failures Fixture.catalogue
              "naruto" "anime" 10 None) as (resp & Hresp & Hdata & Hused & _).
  exists resp. split; [exact Hresp|]. split; [reflexivity|].
  split; [rewrite Hdata|rewrite Hused]; vm_compute; reflexivity.
Defined.

(** With the adapters of the repository in the registry, whatever the
    network and the pages are, [search_content] returns. *)
Lemma search_content_returns `{Net} `{Libs} (q type : string) (limit : Z)
    (source : option string) :
  returns (Main.search_content Main.scrapers q type limit source).
Proof.
  destruct (search_content_eq Main.scrapers q limit type source)
    as (resp & Hresp & _).
  red; eauto.
Qed.

(** C2, amended.  In [multi_search], when the titles of the hits are
    strings, the search returns; the merged hits are sorted by the key
    (0 when the title holds the query in lower case and 1 otherwise, then
    the title), hits of equal key staying in their merged order, and the
    sorted sequence is then cut.  Sorting the candidates "Zed" and "The
    Matrix" for the query "matrix" puts "The Matrix" first. *)
Theorem multi_search_ranked (scrapers : Main.site -> Main.adapter)
    (q type : string) (limit : Z)
    (Htitles : forall s found_s,
        scrapers s q limit = Ok found_s -> Forall has_title found_s) :
  exists resp sorted keys,
    Main.multi_search scrapers q type limit = Ok resp
    /\ Permutation (merged scrapers q limit Main.sites) sorted
    /\ Main.gather (map (Main.sort_key (Py.lower q)) sorted) = Ok keys
    /\ StronglySorted rank_le keys
    /\ (forall k,
          List.filter (has_rank q k) sorted
          = List.filter (has_rank q k) (merged scrapers q limit Main.sites))
    /\ Main.data resp = Py.slice_to sorted (limit * 3)
    /\ Main.sort_with (Main.sort_key (Py.lower "matrix"))
         [Fixture.hit "Zed"; Fixture.hit "The Matrix"]
       = Ok [Fixture.hit "The Matrix"; Fixture.hit "Zed"].
Proof.
  pose proof (merged_has_title scrapers q limit Main.sites Htitles) as Hall.
  destruct (sort_with_returns (Py.lower q) _ Hall) as [sorted Hsorted].
  destruct (sort_with_spec _ _ _ Hsorted)
    as (Hperm & (keys & Hkeys & Hord) & Hstable).
  eexists _, sorted, keys.
  split; [rewrite multi_search_eq, Hsorted; reflexivity|].
  split; [exact Hperm|]. split; [exact Hkeys|]. split; [exact Hord|].
  split; [exact Hstable|].
  split; [reflexivity|vm_compute; reflexivity].
Qed.

(** The hypothesis of [multi_search_ranked] holds of the fixture
    catalogue, whose hits all have string titles. *)
Lemma multi_search_ranked_witness :
  exists resp sorted keys,
    Main.multi_search Fixture.catalogue "matrix" "all" 3 = Ok resp
    /\ Permutation (merged Fixture.catalogue "matrix" 3 Main.sites) sorted
    /\ Main.gather (map (Main.sort_key (Py.lower "matrix")) sorted) = Ok keys
    /\ StronglySorted rank_le keys
    /\ (forall k,
          List.filter (has_rank "matrix" k) sorted
          = List.filter (has_rank "matrix" k)
              (merged Fixture.catalogue "matrix" 3 Main.sites))
    /\ Main.data resp = Py.slice_to sorted (3 * 3)
    /\ Main.sort_with (Main.sort_key (Py.lower "matrix"))
         [Fixture.hit "Zed"; Fixture.hit "The Matrix"]
       = Ok [Fixture.hit "The Matrix"; Fixture.hit "Zed"].
Proof.
  apply (multi_search_ranked Fixture.catalogue "matrix" "all" 3).
  intros s found_s.
  destruct s; cbn; intros [= <-];
    repeat (constructor; [eexists; vm_compute; reflexivity|]); constructor.
Defined.

(** C2, as stated, fails in [search_content]: the merged hits are
    returned in the order of the adapters, here "Zed" before "The Matrix"
    for the query "matrix". *)
Lemma search_content_unranked :
  (exists resp,
      Main.search_content Fixture.catalogue "matrix" "movie" 10 None = Ok resp
      /\ map (fun x => get_item x "title" JNull) (Main.data resp)
         = [JStr "Zed"; JStr "The Matrix"; JStr "The Matrix Reloaded";
            JStr "Zed"])
  /\ ~ (forall scrapers q type limit source resp,
           Main.search_content scrapers q type limit source = Ok resp ->
           exists keys,
             Main.gather (map (Main.sort_key (Py.lower q)) (Main.data resp))
             = Ok keys
             /\ StronglySorted rank_le keys).
Proof.
  split.
  - eexists. split; [vm_compute; reflexivity|vm_compute; reflexivity].
  - intros claim.
    destruct (search_content_eq Fixture.catalogue "matrix" 10 "movie" None)
      as (resp & Hresp & Hdata & _).
    destruct (claim _ _ _ _ _ _ Hresp) as (keys & Hkeys & Hord).
    rewrite Hdata in Hkeys. vm_compute in Hkeys.
    injection Hkeys as <-.
    inversion Hord as [|k ks _ Hfirst]; subst.
    inversion Hfirst as [|k' ks' Hle _]; subst.
    vm_compute in Hle. discriminate.
Qed.



(** ** The playlist flag of the sources *)

Lemma bind_ok {A B} (m : result A) (k : A -> result B) (r : B) :
  Py.bind m k = Ok r -> exists a, m = Ok a /\ k a = Ok r.
Proof. destruct m as [a|e]; cbn; [eauto|discriminate]. Qed.

Ltac unbind H x :=
  apply bind_ok in H as (x & _ & H); cbv beta zeta in H.

Ltac unbind_eq H x Hx :=
  apply bind_ok in H as (x & Hx & H); cbv beta zeta in H.



Section SourceFacts.
Context `{Net} `{Libs}.











End SourceFacts.



(** ** Searches without a hit *)

Lemma slice_to_nil {A} (n : Z) : Py.slice_to (@nil A) n = [].
Proof. unfold Py.slice_to. destruct (n <? 0); apply firstn_nil. Qed.

Lemma no_hits_under_key (k : string) (data : json) (limit : Z) :
  json_without k data ->
  truthy_and_has data k = Ok false
  \/ (truthy_and_has data k = Ok true
      /\ Json.item data k = Ok (JList [])).
Proof.
  unfold truthy_and_has.
  intros [Hfalse|(d & -> & [Hnone|Hempty])].
  - left. now rewrite Hfalse.
  - left. destruct (Json.truthy (JDict d)); [|reflexivity].
    cbn. now rewrite Hnone.
  - destruct (Json.truthy (JDict d)) eqn:Htruthy.
    + right. cbn. rewrite Hempty. split; reflexivity.
    + destruct d; [discriminate Hempty|discriminate Htruthy].
Qed.

Section SearchFacts.
Context `{Net} `{Libs}.

(** The body shared by the searches that read a page: nothing is found on
    a page without the element searched for. *)
Lemma page_search_empty (to_item : node -> list item) (tag : string)
    (cls : option string) (html : option string) (limit : Z) :
  page_without tag cls html ->
  (if no_page html then Ok []
   else Ok (flat_map to_item
              (Py.slice_to (find_all (BeautifulSoup (page html)) tag cls)
                           limit)))
  = Ok ([] : list item).
Proof.
  intros [Hnone|Hfind]; [now rewrite Hnone|].
  destruct (no_page html); [reflexivity|].
  now rewrite Hfind, slice_to_nil.
Qed.

Lemma LookMovieScraper_search_in_empty api view kind query limit results data :
  Utils.fetch_json (LookMovieScraper_search_url api query)
    (Some (BaseScraper.headers LookMovieScraper)) 30 = Ok data ->
  json_without "results" data ->
  LookMovieScraper_search_in api view kind query limit results = Ok results.
Proof.
  intros Hfetch Hnone. unfold LookMovieScraper_search_in. cbv zeta.
  rewrite Hfetch. cbn [bind].
  destruct (no_hits_under_key _ _ limit Hnone) as [Hno|[Hyes Hitem]].
  - now rewrite Hno.
  - rewrite Hyes. cbn [bind]. rewrite Hitem. cbn [bind Json.slice_to].
    now rewrite slice_to_nil.
Qed.

(** The searches that read a page never raise: the fetch does not, and
    what follows only reads the document. *)
Lemma page_searches_return (query : string) (limit : Z) :
  returns (GogoanimeScraper_search query limit)
  /\ returns (ZoroScraper_search query limit)
  /\ returns (AnimeHeavenScraper_search query limit)
  /\ returns (SFlixScraper_search query limit)
  /\ returns (FMoviesScraper_search query limit).
Proof.
  unfold GogoanimeScraper_search, ZoroScraper_search, AnimeHeavenScraper_search, SFlixScraper_search,
    FMoviesScraper_search, FMoviesScraper_search_page.
  cbv zeta.
  repeat split;
    match goal with
    | |- context [Utils.fetch_page ?u ?h ?t] =>
        destruct (fetch_page_returns u h t) as [html ->]
    end;
    cbn [bind];
    try (destruct (no_page html) eqn:Hpage; cbn [bind];
         try (destruct (bypass_cloudflare_returns
                          (FMoviesScraper_search_url query)
                          (Some (BaseScraper.headers FMoviesScraper)))
                as [html' ->]; cbn [bind]; destruct (no_page html'));
         try rewrite Hpage; red; eauto).
Qed.

(** C7.  A search over an answer that holds no matching item returns the
    empty list: for the adapters that read a page, a page without the
    element they look for; for AnimeSamaScraper, a JSON answer that is the
    empty list (or a status other than 200); for LookMovieScraper and
    VidSrcScraper, JSON
    answers without hits under their key. *)
Theorem search_without_hits_is_empty (query : string) (limit : Z) :
  (forall html,
      Utils.fetch_page (GogoanimeScraper_search_url query)
        (Some (BaseScraper.headers GogoanimeScraper)) 30 = Ok html ->
      page_without "div" (Some "img") html ->
      GogoanimeScraper_search query limit = Ok [])
  /\ (forall html,
        Utils.fetch_page (ZoroScraper_search_url query)
          (Some (BaseScraper.headers ZoroScraper)) 30 = Ok html ->
        page_without "div" (Some "flw-item") html ->
        ZoroScraper_search query limit = Ok [])
  /\ (forall html,
        Utils.fetch_page (AnimeHeavenScraper_search_url query)
          (Some (BaseScraper.headers AnimeHeavenScraper)) 30 = Ok html ->
        page_without "div" (Some "condd") html ->
        AnimeHeavenScraper_search query limit = Ok [])
  /\ (forall r,
        aiohttp_get (AnimeSamaScraper_search_url query)
          (BaseScraper.headers AnimeSamaScraper) None = Responded r ->
        status r <> 200 \/ json_body r = Ok (JList []) ->
        AnimeSamaScraper_search query limit = Ok [])
  /\ (forall html,
        Utils.fetch_page (SFlixScraper_search_url query)
          (Some (BaseScraper.headers SFlixScraper)) 30 = Ok html ->
        page_without "div" (Some "flw-item") html ->
        SFlixScraper_search query limit = Ok [])
  /\ (forall html,
        FMoviesScraper_search_page query = Ok html ->
        page_without "div" (Some "item") html ->
        FMoviesScraper_search query limit = Ok [])
  /\ (forall movies shows,
        Utils.fetch_json (LookMovieScraper_search_url "/api/v1/movies/search/?q=" query)
          (Some (BaseScraper.headers LookMovieScraper)) 30 = Ok movies ->
        json_without "results" movies ->
        Utils.fetch_json (LookMovieScraper_search_url "/api/v1/shows/search/?q=" query)
          (Some (BaseScraper.headers LookMovieScraper)) 30 = Ok shows ->
        json_without "results" shows ->
        LookMovieScraper_search query limit = Ok [])
  /\ (forall data,
        Utils.fetch_json (VidSrcScraper_search_url query)
          (Some (BaseScraper.headers VidSrcScraper)) 30 = Ok data ->
        json_without "result" data ->
        VidSrcScraper_search query limit = Ok []).
Proof.
  repeat split.
  - intros html Hfetch Hnone. unfold GogoanimeScraper_search. cbv zeta.
    rewrite Hfetch. cbn [bind]. now apply page_search_empty.
  - intros html Hfetch Hnone. unfold ZoroScraper_search. cbv zeta.
    rewrite Hfetch. cbn [bind]. now apply page_search_empty.
  - intros html Hfetch Hnone. unfold AnimeHeavenScraper_search. cbv zeta.
    rewrite Hfetch. cbn [bind]. now apply page_search_empty.
  - intros r Hget Hbody. unfold AnimeSamaScraper_search. cbv zeta. rewrite Hget.
    destruct (Z.eqb_spec (status r) 200) as [H200|H200]; [|reflexivity].
    destruct Hbody as [Hstatus|Hbody]; [contradiction|].
    rewrite Hbody. cbn [bind Json.slice_to]. now rewrite slice_to_nil.
  - intros html Hfetch Hnone. unfold SFlixScraper_search. cbv zeta.
    rewrite Hfetch. cbn [bind]. now apply page_search_empty.
  - intros html Hpage Hnone. unfold FMoviesScraper_search.
    rewrite Hpage. cbn [bind]. now apply page_search_empty.
  - intros movies shows Hmovies Hno_movies Hshows Hno_shows.
    unfold LookMovieScraper_search.
    rewrite (LookMovieScraper_search_in_empty _ _ _ _ _ _ _ Hmovies Hno_movies).
    cbn [bind].
    rewrite (LookMovieScraper_search_in_empty _ _ _ _ _ _ _ Hshows Hno_shows).
    cbn [bind]. now rewrite slice_to_nil.
  - intros data Hfetch Hnone. unfold VidSrcScraper_search. cbv zeta.
    rewrite Hfetch. cbn [bind].
    destruct (no_hits_under_key _ _ limit Hnone) as [Hno|[Hyes Hitem]].
    + now rewrite Hno.
    + rewrite Hyes. cbn [bind]. rewrite Hitem. cbn [bind Json.slice_to].
      now rewrite slice_to_nil.
Qed.

End SearchFacts.

(** In the fixture world without hits, the eight searches for "zzzz"
    return the empty list. *)
Lemma search_without_hits_is_empty_witness :
  @GogoanimeScraper_search Fixture.no_hits Fixture.plain_libs "zzzz" 10 = Ok []
  /\ @ZoroScraper_search Fixture.no_hits Fixture.plain_libs "zzzz" 10 = Ok []
  /\ @AnimeHeavenScraper_search Fixture.no_hits Fixture.plain_libs "zzzz" 10 = Ok []
  /\ @AnimeSamaScraper_search Fixture.no_hits Fixture.plain_libs "zzzz" 10 = Ok []
  /\ @SFlixScraper_search Fixture.no_hits Fixture.plain_libs "zzzz" 10 = Ok []
  /\ @FMoviesScraper_search Fixture.no_hits Fixture.plain_libs "zzzz" 10 = Ok []
  /\ @LookMovieScraper_search Fixture.no_hits Fixture.plain_libs "zzzz" 10 = Ok []
  /\ @VidSrcScraper_search Fixture.no_hits Fixture.plain_libs "zzzz" 10 = Ok [].
Proof.
  pose (net := Fixture.no_hits). pose (libs := Fixture.plain_libs).
  fold net libs.
  destruct (@search_without_hits_is_empty net libs "zzzz" 10)
    as (Hgogo & Hzoro & Hheaven & Hsama & Hsflix & Hfmovies & Hlook & Hvid).
  pose (empty := JDict [("results", JList []); ("result", JList [])]).
  assert (Hpage : forall tag cls,
             @page_without libs tag cls (Some "<html></html>"))
    by (intros tag cls; right; reflexivity).
  split; [apply (Hgogo (Some "<html></html>")); [vm_compute; reflexivity|apply Hpage]|].
  split; [apply (Hzoro (Some "<html></html>")); [vm_compute; reflexivity|apply Hpage]|].
  split; [apply (Hheaven (Some "<html></html>")); [vm_compute; reflexivity|apply Hpage]|].
  split; [apply (Hsama (mk_response 200 (Ok "[]") (Ok (JList []))));
          [vm_compute; reflexivity|right; reflexivity]|].
  split; [apply (Hsflix (Some "<html></html>")); [vm_compute; reflexivity|apply Hpage]|].
  split; [apply (Hfmovies (Some "<html></html>")); [vm_compute; reflexivity|apply Hpage]|].
  split.
  - apply (Hlook empty empty); try (vm_compute; reflexivity);
      right; exists [("results", JList []); ("result", JList [])];
      (split; [reflexivity|right; reflexivity]).
  - apply (Hvid empty); [vm_compute; reflexivity|].
    right. exists [("results", JList []); ("result", JList [])].
    split; [reflexivity|right; reflexivity].
Defined.

(** * Further properties of the code *)

(** ** The retry wrapper *)

Section RetryFacts.
Context {A : Type}.
Variable truthy : A -> bool.
Variable func : nat -> result A.

Lemma attempt_found (n : nat) :
  try_except
    (let* r := func n in Ok (if truthy r then Some r else None))
    (fun _ => Ok None)
  = Ok (match func n with
        | Ok r => if truthy r then Some r else None
        | Raise _ => None
        end).
Proof. unfold try_except. now destruct (func n). Qed.

Lemma attempts_exhausted (max_retries : Z) :
  forall todo attempt,
    Z.of_nat (attempt + todo) = Z.max 0 max_retries ->
    (forall j, (attempt <= j < attempt + todo)%nat ->
               succeeds truthy func j = false) ->
    Retry.attempts truthy func max_retries attempt todo
    = Ok (None, map Z.of_nat (seq (S attempt) (todo - 1))).
Proof using Type.
  induction todo as [|todo IH]; intros attempt Hsum Hfail; [reflexivity|].
  cbn [Retry.attempts]. rewrite attempt_found.
  pose proof (Hfail attempt ltac:(lia)) as Hhere. unfold succeeds in Hhere.
  assert (Hnone : match func attempt with
                  | Ok r => if truthy r then Some r else None
                  | Raise _ => None
                  end = None).
  { destruct (func attempt) as [r|e]; [now rewrite Hhere|reflexivity]. }
  rewrite Hnone. cbn [bind].
  rewrite (IH (S attempt)) by (try intros j Hj; try apply Hfail; lia).
  cbn [bind fst snd]. do 2 f_equal.
  destruct todo as [|todo].
  - destruct (Z.ltb_spec (Z.of_nat attempt) (max_retries - 1)); [lia|].
    reflexivity.
  - destruct (Z.ltb_spec (Z.of_nat attempt) (max_retries - 1)); [|lia].
    cbn [Nat.sub seq map app]. rewrite Nat.sub_0_r.
    f_equal. lia.
Qed.

Lemma attempts_succeed (max_retries : Z) (k : nat) (v : A) :
  Z.of_nat k < max_retries ->
  func k = Ok v -> truthy v = true ->
  forall before attempt,
    (attempt + before = k)%nat ->
    (forall j, (attempt <= j < k)%nat -> succeeds truthy func j = false) ->
    Retry.attempts truthy func max_retries attempt
      (Z.to_nat max_retries - attempt)
    = Ok (Some v, map Z.of_nat (seq (S attempt) before)).
Proof using Type.
  intros Hk Hv Htrue.
  induction before as [|before IH]; intros attempt Hsum Hfail.
  - assert (attempt = k) by lia. subst attempt.
    destruct (Z.to_nat max_retries - k)%nat as [|todo] eqn:Htodo; [lia|].
    cbn [Retry.attempts]. rewrite attempt_found, Hv, Htrue. reflexivity.
  - destruct (Z.to_nat max_retries - attempt)%nat as [|todo] eqn:Htodo; [lia|].
    cbn [Retry.attempts]. rewrite attempt_found.
    pose proof (Hfail attempt ltac:(lia)) as Hhere. unfold succeeds in Hhere.
    assert (Hnone : match func attempt with
                    | Ok r => if truthy r then Some r else None
                    | Raise _ => None
                    end = None).
    { destruct (func attempt) as [r|e]; [now rewrite Hhere|reflexivity]. }
    rewrite Hnone. cbn [bind].
    replace todo with (Z.to_nat max_retries - S attempt)%nat by lia.
    rewrite (IH (S attempt)) by (try intros j Hj; try apply Hfail; lia).
    cbn [bind fst snd].
    destruct (Z.ltb_spec (Z.of_nat attempt) (max_retries - 1)); [|lia].
    cbn [seq map app]. do 3 f_equal. lia.
Qed.

(** X1.  When the k-th call (k below [max_retries]) is the first to give
    a true value, the wrapper returns that value, after k sleeps of
    factors 1 to k; the exceptions and false values of the calls before
    are swallowed. *)
Theorem retry_request_first_success (max_retries : Z) (k : nat) :
  Z.of_nat k < max_retries ->
  succeeds truthy func k = true ->
  (forall j, (j < k)%nat -> succeeds truthy func j = false) ->
  exists v,
    func k = Ok v
    /\ Retry.retry_request truthy func max_retries = Ok (Some v, factors k).
Proof using Type.
  intros Hk Hsucc Hfail. unfold succeeds in Hsucc.
  destruct (func k) as [v|e] eqn:Hv; [|discriminate].
  exists v. split; [reflexivity|].
  unfold Retry.retry_request, factors.
  replace (Z.to_nat max_retries) with (Z.to_nat max_retries - 0)%nat by lia.
  apply (attempts_succeed max_retries k v Hk Hv Hsucc k 0%nat);
    [lia|intros j Hj; apply Hfail; lia].
Qed.

(** X2.  When none of the first [max_retries] calls gives a true value,
    the wrapper returns None, never raises, and has slept between the
    calls only: [max_retries - 1] times, not after the last call; with
    [max_retries] at most 0 it returns None without a sleep. *)
Theorem retry_request_exhausted (max_retries : Z) :
  (forall j, Z.of_nat j < max_retries -> succeeds truthy func j = false) ->
  Retry.retry_request truthy func max_retries
  = Ok (None, factors (Z.to_nat max_retries - 1)).
Proof using Type.
  intros Hfail. unfold Retry.retry_request, factors.
  apply attempts_exhausted; [lia|].
  intros j Hj. apply Hfail. lia.
Qed.

End RetryFacts.

Lemma retry_request_first_success_witness :
  exists v,
    Fixture2.flaky 3 = Ok v
    /\ Retry.retry_request Fixture2.nonblank Fixture2.flaky 5
       = Ok (Some v, [1; 2; 3]).
Proof.
  apply (retry_request_first_success Fixture2.nonblank Fixture2.flaky 5 3).
  - lia.
  - reflexivity.
  - intros j Hj. destruct j as [|[|[|j]]]; [reflexivity..|lia].
Defined.

Lemma retry_request_exhausted_witness :
  Retry.retry_request Fixture2.nonblank Fixture2.down 3 = Ok (None, [1; 2]).
Proof.
  apply (retry_request_exhausted Fixture2.nonblank Fixture2.down 3).
  intros j Hj. reflexivity.
Defined.

(** ** The JSON fetch and the Cloudflare bypass *)

Section FetchJsonFacts.
Context `{Net}.

Lemma fetch_json_sync_value url h timeout :
  Utils.fetch_json_sync url (Some h) timeout
  = Ok match requests_get url h timeout with
       | Responded r =>
           if status r =? 200
           then match json_body r with Ok j => j | Raise _ => JNull end
           else JNull
       | Failed _ => JNull
       end.
Proof.
  unfold Utils.fetch_json_sync, try_except.
  destruct (requests_get url h timeout) as [e|r]; [reflexivity|].
  destruct (status r =? 200); [|reflexivity].
  now destruct (json_body r).
Qed.

(** X3.  [fetch_json] never raises.  Given no headers it sends the default
    bundle with Accept set to application/json.  An aiohttp answer with a
    status other than 200 gives None at once, without the fallback.  A
    value other than None is the parsed body of a 200 answer: of the
    aiohttp request, or of the [requests] fallback made after the aiohttp
    request raised. *)
Theorem fetch_json_fallback (url : string) (hdrs : option headers)
    (timeout : Z) :
  let h := match hdrs with None => json_headers | Some h => h end in
  returns (Utils.fetch_json url hdrs timeout)
  /\ (forall r,
        aiohttp_get url h None = Responded r -> status r <> 200 ->
        Utils.fetch_json url hdrs timeout = Ok JNull)
  /\ (forall j,
        served_json (aiohttp_get url h None) j ->
        Utils.fetch_json url hdrs timeout = Ok j)
  /\ (forall j,
        Utils.fetch_json url hdrs timeout = Ok j -> j <> JNull ->
        served_json (aiohttp_get url h None) j
        \/ (broke_json (aiohttp_get url h None)
            /\ served_json (requests_get url h timeout) j)).
Proof.
  intros h.
  assert (Hh : match hdrs with
               | None => dict_set "Accept" "application/json"
                           Utils.get_random_headers
               | Some h => h
               end = h) by (destruct hdrs; reflexivity).
  unfold Utils.fetch_json. rewrite Hh. unfold try_except.
  rewrite fetch_json_sync_value.
  unfold served_json, broke_json.
  destruct (aiohttp_get url h None) as [e|r] eqn:Haio.
  - split; [red; eauto|]. split; [discriminate|].
    split; [intros j (r & Hr & _); discriminate|].
    intros j [= <-] Hj. right. split; [left; eauto|].
    destruct (requests_get url h timeout) as [e'|r']; [contradiction|].
    destruct (Z.eqb_spec (status r') 200); [|contradiction].
    destruct (json_body r') eqn:Hbody; [eauto|contradiction].
  - destruct (Z.eqb_spec (status r) 200) as [H200|H200].
    + destruct (json_body r) as [j0|e] eqn:Hbody.
      * split; [red; eauto|]. split; [intros r' [= <-]; contradiction|].
        split; [intros j (r' & [= <-] & _ & Hj); congruence|].
        intros j [= <-] _. left. eauto.
      * split; [red; eauto|]. split; [intros r' [= <-]; contradiction|].
        split; [intros j (r' & [= <-] & _ & Hj); congruence|].
        intros j [= <-] Hj. right. split; [right; eauto|].
        destruct (requests_get url h timeout) as [e'|r']; [contradiction|].
        destruct (Z.eqb_spec (status r') 200); [|contradiction].
        destruct (json_body r') eqn:Hbody'; [eauto|contradiction].
    + split; [red; eauto|]. split; [reflexivity|].
      split; [intros j (r' & [= <-] & Hs & _); contradiction|].
      intros j [= <-] Hj. contradiction.
Qed.

(** X4.  [bypass_cloudflare] never raises; it returns a body exactly when
    the cloudscraper request ends in status 200 with that body.  An empty
    dict of headers counts as no headers at all: the default bundle is
    sent. *)
Theorem bypass_cloudflare_status_200 (url : string) (hdrs : option headers) :
  let h := match hdrs with
           | None | Some [] => Utils.get_random_headers
           | Some h => h
           end in
  returns (Utils.bypass_cloudflare url hdrs)
  /\ (forall body,
        Utils.bypass_cloudflare url hdrs = Ok (Some body)
        <-> served (cloudscraper_get url h 30) body)
  /\ Utils.bypass_cloudflare url (Some []) = Utils.bypass_cloudflare url None.
Proof.
  intros h. unfold Utils.bypass_cloudflare. fold h.
  unfold try_except, served.
  split; [|split; [|reflexivity]].
  - destruct (cloudscraper_get url h 30) as [e|r]; [red; eauto|].
    destruct (status r =? 200); [|red; eauto].
    destruct (text r); cbn; red; eauto.
  - intros body. destruct (cloudscraper_get url h 30) as [e|r].
    + split; [discriminate|intros (r & Hr & _); discriminate].
    + destruct (Z.eqb_spec (status r) 200) as [H200|H200].
      * destruct (text r) as [b|e] eqn:Htext; cbn; split.
        -- intros [= <-]. eauto.
        -- intros (r' & [= <-] & _ & Hb). congruence.
        -- discriminate.
        -- intros (r' & [= <-] & _ & Hb). congruence.
      * split; [discriminate|].
        intros (r' & [= <-] & Hs & _). contradiction.
Qed.

End FetchJsonFacts.

(** ** The quality read off a text *)

(** X5.  The text of a quality is read back as that quality:
    [get_quality_from_text(q.value)] is [q], for every member of
    [VideoQuality]. *)
Theorem get_quality_from_text_of_value (q : VideoQuality.t) :
  BaseScraperText.get_quality_from_text (VideoQuality.value q) = q.
Proof. destruct q; vm_compute; reflexivity. Qed.

(** X6.  A text that holds "hd", in any letter case, is never given the
    quality 480p, 360p or unknown, even when it names one of them: the
    test of "hd" comes before theirs, so that "HDTV 480p" is 720p. *)
Theorem get_quality_from_text_hd (text : string) :
  Py.contains "hd" (Py.lower text) = true ->
  In (BaseScraperText.get_quality_from_text text)
     [VideoQuality.UHD_4K; VideoQuality.FHD_1440P; VideoQuality.HD_1080P;
      VideoQuality.HD_720P].
Proof.
  intros Hhd. unfold BaseScraperText.get_quality_from_text. rewrite Hhd.
  rewrite orb_true_r.
  destruct (_ || _); [cbn; tauto|].
  destruct (_ || _); [cbn; tauto|].
  destruct (_ || _); cbn; tauto.
Qed.

Lemma get_quality_from_text_hd_witness :
  Py.contains "480p" (Py.lower "HDTV 480p") = true
  /\ In (BaseScraperText.get_quality_from_text "HDTV 480p")
        [VideoQuality.UHD_4K; VideoQuality.FHD_1440P; VideoQuality.HD_1080P;
         VideoQuality.HD_720P].
Proof.
  split; [reflexivity|].
  apply (get_quality_from_text_hd "HDTV 480p"). reflexivity.
Defined.

(** ** The season count *)

(** X7.  The serialised [season_count] of a ScraperResult is the number
    of seasons when there are seasons and the declared [season_count]
    otherwise; and each serialised season carries the number of its
    episodes when it has some, its declared [episode_count] otherwise. *)
Theorem season_count_serialized (r : ScraperResult.t) :
  serialized "season_count" (ScraperResult.to_dict r)
  = Some (JInt (if Py.nonempty (ScraperResult.seasons r)
                then Py.len (ScraperResult.seasons r)
                else ScraperResult.season_count r))
  /\ exists l,
       serialized "seasons" (ScraperResult.to_dict r) = Some (JList l)
       /\ Forall2
            (fun s j =>
               serialized "episode_count" j
               = Some (JInt (if Py.nonempty (Season.episodes s)
                             then Py.len (Season.episodes s)
                             else Season.episode_count s)))
            (ScraperResult.seasons r) l.
Proof.
  split.
  - cbn. now destruct (ScraperResult.seasons r).
  - eexists. split; [reflexivity|].
    induction (ScraperResult.seasons r) as [|s l IH]; cbn [map];
      constructor; [|exact IH].
    cbn. now rewrite int_or_len.
Qed.

(** ** The endpoints on one source *)

Lemma site_of_key_of_site (s : Main.site) :
  Main.site_of_key (Main.key s) = Some s.
Proof. destruct s; reflexivity. Qed.

Lemma site_of_key_none (source : string) :
  ~ In source (map Main.key Main.sites) -> Main.site_of_key source = None.
Proof.
  intros Hout. destruct (Main.site_of_key source) as [s|] eqn:Hs;
    [|reflexivity].
  apply site_of_key_key in Hs. subst source.
  exfalso. apply Hout. apply in_map. destruct s; cbn; tauto.
Qed.

(** X8.  A source that is not a key of the registry is refused by the five
    endpoints with an [HTTPException] of status 400, whatever the other
    arguments are and before any scraper is called. *)
Theorem unknown_source_is_400 (scrapers : Main.site -> Api.scraper)
    (source content_id episode : string) (episode_id type : option string) :
  ~ In source (map Main.key Main.sites) ->
  Api.get_details scrapers source content_id type
  = Api.HTTPException 400
      (Api.unsupported source ++ ". Sources: " ++ Api.keys_repr)
  /\ Api.get_sources scrapers source content_id episode_id type
     = Api.HTTPException 400 (Api.unsupported source)
  /\ Api.get_episode scrapers source content_id episode
     = Api.HTTPException 400 (Api.unsupported source)
  /\ Api.get_download_links scrapers source content_id episode_id
     = Api.HTTPException 400 (Api.unsupported source)
  /\ Api.get_trending source type
     = Api.HTTPException 400 (Api.unsupported source).
Proof.
  intros Hout. apply site_of_key_none in Hout.
  unfold Api.get_details, Api.get_sources, Api.get_episode,
    Api.get_download_links, Api.get_trending.
  rewrite Hout. repeat split.
Qed.

Lemma unknown_source_is_400_witness :
  Api.get_episode Fixture2.broken "netflix" "tt0133093" "1"
  = Api.HTTPException 400 (Api.unsupported "netflix").
Proof.
  apply (unknown_source_is_400 Fixture2.broken "netflix" "tt0133093" "1"
           None None).
  cbn. intros [H|[H|[H|[H|[H|[H|[H|[H|[]]]]]]]]]; discriminate.
Defined.

(** X9.  For a source of the registry, [get_episode] answers in one of two
    ways.  When the scraper returns sources, the response lists them
    serialised in their order, names the source alone in [sources_used],
    and has [success] true exactly when there is a source.  When the
    scraper raises, the answer is an [HTTPException] of status 500 whose
    detail is "Erreur: " and the message of the exception. *)
Theorem get_episode_answers (scrapers : Main.site -> Api.scraper)
    (s : Main.site) (content_id episode_id : string) :
  match Api.scraper_get_episode_sources (scrapers s) content_id episode_id with
  | Ok sources =>
      exists r,
        Api.get_episode scrapers (Main.key s) content_id episode_id
        = Api.Respond r
        /\ Api.data r = JList (map VideoSource.to_dict sources)
        /\ Api.sources_used r = [Main.key s]
        /\ (Api.success r = true <-> sources <> [])
  | Raise e =>
      Api.get_episode scrapers (Main.key s) content_id episode_id
      = Api.HTTPException 500 ("Erreur: " ++ exn_msg e)
  end.
Proof.
  unfold Api.get_episode. rewrite site_of_key_of_site.
  destruct (Api.scraper_get_episode_sources _ _ _) as [sources|e];
    [|reflexivity].
  eexists. split; [reflexivity|]. cbn.
  split; [reflexivity|]. split; [reflexivity|].
  destruct sources as [|x l]; cbn; [split; [discriminate|congruence]|].
  split; [discriminate|]. intros _.
  apply Z.ltb_lt. apply len_pos_of_cons.
Qed.



(** X11.  Without an episode id, [get_sources] serves movies only: for
    any other type the response has [success] false and no data, and no
    scraper is asked.  An empty episode id counts as none. *)
Theorem get_sources_needs_episode (scrapers1 scrapers2 : Main.site -> Api.scraper)
    (s : Main.site) (content_id : string) (type : option string) :
  type <> Some "movie" ->
  (exists r,
      Api.get_sources scrapers1 (Main.key s) content_id None type
      = Api.Respond r
      /\ Api.success r = false /\ Api.data r = JNull
      /\ Api.sources_used r = [Main.key s])
  /\ Api.get_sources scrapers1 (Main.key s) content_id None type
     = Api.get_sources scrapers2 (Main.key s) content_id None type
  /\ Api.get_sources scrapers1 (Main.key s) content_id (Some "") type
     = Api.get_sources scrapers1 (Main.key s) content_id None type.
Proof.
  intros Htype. unfold Api.get_sources. rewrite site_of_key_of_site.
  cbn [Api.given]. change (String.eqb "" "") with true. cbv iota.
  assert (Hmovie : match type with
                   | Some t => String.eqb t "movie"
                   | None => false
                   end = false).
  { destruct type as [t|]; [|reflexivity].
    destruct (String.eqb_spec t "movie"); [congruence|reflexivity]. }
  rewrite Hmovie.
  split; [eexists; split; [reflexivity|repeat split]|].
  split; reflexivity.
Qed.

Lemma get_sources_needs_episode_witness :
  exists r,
    Api.get_sources Fixture2.broken "zoro" "one-piece-100" None (Some "anime")
    = Api.Respond r
    /\ Api.success r = false /\ Api.data r = JNull
    /\ Api.sources_used r = ["zoro"].
Proof.
  apply (get_sources_needs_episode Fixture2.broken Fixture2.broken
           Main.zoro "one-piece-100" (Some "anime")).
  discriminate.
Defined.

(** X12.  For a movie asked without an episode id, [get_sources] serves
    the sources of the details of the movie.  Details that are not found
    give a response with [success] false and an empty list, not an error;
    an exception of the scraper gives an [HTTPException] of status 500. *)
Theorem get_sources_of_movie (scrapers : Main.site -> Api.scraper)
    (s : Main.site) (content_id : string) :
  let asked :=
    if Api.takes_type (Main.key s)
    then Api.scraper_get_details (scrapers s) content_id (Some (Some "movie"))
    else Api.scraper_get_details (scrapers s) content_id None in
  match asked with
  | Ok (Some details) =>
      exists r,
        Api.get_sources scrapers (Main.key s) content_id None (Some "movie")
        = Api.Respond r
        /\ Api.data r
           = JList (map VideoSource.to_dict (ScraperResult.sources details))
        /\ (Api.success r = true <-> ScraperResult.sources details <> [])
  | Ok None =>
      exists r,
        Api.get_sources scrapers (Main.key s) content_id None (Some "movie")
        = Api.Respond r
        /\ Api.data r = JList [] /\ Api.success r = false
        /\ Api.message r = "Aucune source"
  | Raise e =>
      Api.get_sources scrapers (Main.key s) content_id None (Some "movie")
      = Api.HTTPException 500 ("Erreur: " ++ exn_msg e)
  end.
Proof.
  intros asked. unfold Api.get_sources. rewrite site_of_key_of_site.
  cbn [Api.given]. change (String.eqb "movie" "movie") with true. cbv iota.
  fold asked. destruct asked as [[details|]|e]; [| |reflexivity].
  - eexists. split; [reflexivity|]. cbn. split; [reflexivity|].
    destruct (ScraperResult.sources details) as [|x l]; cbn;
      [split; [discriminate|congruence]|].
    split; [discriminate|]. intros _. apply Z.ltb_lt, len_pos_of_cons.
  - eexists. split; [reflexivity|]. cbn. repeat split.
Qed.

(** ** The searches: choice of the sources, tags and failures *)

Lemma search_content_response (scrapers : Main.site -> Main.adapter)
    (q type : string) (limit : Z) (source : option string) :
  let results :=
    Py.slice_to (merged scrapers q limit (Main.scrapers_to_use type source))
                limit in
  Main.search_content scrapers q type limit source
  = Ok {| Main.success := 0 <? Py.len results;
          Main.message :=
            if Py.nonempty results
            then Py.str_of_int (Py.len results) ++ " r" ++ Main.e_acute
                 ++ "sultats trouv" ++ Main.e_acute ++ "s"
            else "Aucun r" ++ Main.e_acute ++ "sultat";
          Main.data := results;
          Main.sources_used :=
            map Main.key
              (List.filter (fun s => Py.nonempty (found scrapers q limit s))
                 (Main.scrapers_to_use type source)) |}.
Proof.
  intros results. unfold Main.search_content, Main.gather_return_exceptions.
  cbn [bind]. rewrite collect_spec. reflexivity.
Qed.

Lemma In_slice_to {A} (x : A) (l : list A) (n : Z) :
  In x (Py.slice_to l n) -> In x l.
Proof.
  assert (Hfirstn : forall k (l' : list A), In x (firstn k l') -> In x l').
  { induction k as [|k IH]; intros [|y l']; cbn; try tauto.
    intros [->|Hin]; [now left|right; now apply IH]. }
  unfold Py.slice_to. destruct (n <? 0); apply Hfirstn.
Qed.

(** X13.  [search_content] does not refuse a source it does not know: a
    source that is not a key of the registry (the empty string is one) is
    ignored, and the search is the one made without a source. *)
Theorem search_content_unknown_source
    (scrapers : Main.site -> Main.adapter) (q type source : string)
    (limit : Z) :
  ~ In source (map Main.key Main.sites) ->
  Main.search_content scrapers q type limit (Some source)
  = Main.search_content scrapers q type limit None.
Proof.
  intros Hout. rewrite !search_content_response.
  assert (Huse : Main.scrapers_to_use type (Some source)
                 = Main.scrapers_to_use type None).
  { unfold Main.scrapers_to_use. rewrite (site_of_key_none _ Hout).
    now destruct (String.eqb source ""). }
  now rewrite Huse.
Qed.

Lemma search_content_unknown_source_witness :
  Main.search_content Fixture.catalogue "naruto" "anime" 10 (Some "netflix")
  = Main.search_content Fixture.catalogue "naruto" "anime" 10 None.
Proof.
  apply (search_content_unknown_source Fixture.catalogue "naruto" "anime"
           "netflix" 10).
  cbn. intros [H|[H|[H|[H|[H|[H|[H|[H|[]]]]]]]]]; discriminate.
Defined.

(** X14.  A source of the registry named in [search_content] is the only
    one searched and overrides the type: the response is the same for every
    type, holds the hits of that source only, and does not list another
    source. *)
Theorem search_content_named_source
    (scrapers : Main.site -> Main.adapter) (q type1 type2 : string)
    (limit : Z) (s : Main.site) :
  Main.search_content scrapers q type1 limit (Some (Main.key s))
  = Main.search_content scrapers q type2 limit (Some (Main.key s))
  /\ exists resp,
       Main.search_content scrapers q type1 limit (Some (Main.key s))
       = Ok resp
       /\ Main.data resp
          = Py.slice_to (Main.tag (Main.key s) (found scrapers q limit s))
                        limit
       /\ Main.sources_used resp
          = if Py.nonempty (found scrapers q limit s) then [Main.key s]
            else [].
Proof.
  assert (Huse : forall type,
             Main.scrapers_to_use type (Some (Main.key s)) = [s]).
  { intros type. unfold Main.scrapers_to_use.
    rewrite site_of_key_of_site. now destruct s. }
  rewrite !search_content_response, !Huse.
  split; [reflexivity|].
  eexists. split; [reflexivity|]. cbn [Main.data Main.sources_used].
  unfold merged. cbn [flat_map List.filter]. rewrite app_nil_r.
  split; [reflexivity|].
  now destruct (Py.nonempty (found scrapers q limit s)).
Qed.

(** X15.  Every hit that [search_content] returns carries under "source"
    the key of a source listed in [sources_used], and [success] is true
    exactly when a hit is returned. *)
Theorem search_content_tagged
    (scrapers : Main.site -> Main.adapter) (q type : string) (limit : Z)
    (source : option string) :
  exists resp,
    Main.search_content scrapers q type limit source = Ok resp
    /\ Forall (fun x => exists k, x !! "source" = Some (JStr k)
                                  /\ In k (Main.sources_used resp))
              (Main.data resp)
    /\ (Main.success resp = true <-> Main.data resp <> []).
Proof.
  rewrite search_content_response. eexists. split; [reflexivity|].
  cbn [Main.data Main.sources_used Main.success]. split.
  - apply List.Forall_forall. intros x Hx. apply In_slice_to in Hx.
    unfold merged in Hx. apply in_flat_map in Hx as (s & Hs & Hx).
    unfold Main.tag in Hx. apply in_map_iff in Hx as (y & <- & Hy).
    exists (Main.key s). split.
    + unfold set_item. apply lookup_insert_eq.
    + apply in_map. apply List.filter_In. split; [exact Hs|].
      now destruct (found scrapers q limit s).
  - destruct (Py.slice_to _ limit) as [|x l].
    + cbn. split; [discriminate|congruence].
    + split; [discriminate|]. intros _. apply Z.ltb_lt, len_pos_of_cons.
Qed.

(** X16.  A type other than anime, movie, series and all selects no
    source: without a source of the registry, [search_content] calls no
    scraper and answers with [success] false, no hit and no source. *)
Theorem search_content_unknown_type
    (scrapers : Main.site -> Main.adapter) (q type : string) (limit : Z) :
  ~ In type ["anime"; "movie"; "series"; "all"] ->
  Main.search_content scrapers q type limit None
  = Ok {| Main.success := false;
          Main.message := "Aucun r" ++ Main.e_acute ++ "sultat";
          Main.data := [];
          Main.sources_used := [] |}.
Proof.
  intros Htype. rewrite search_content_response.
  assert (Huse : Main.scrapers_to_use type None = []).
  { unfold Main.scrapers_to_use, Main.default_scrapers.
    destruct (String.eqb_spec type "anime") as [->|_];
      [exfalso; apply Htype; cbn; tauto|].
    destruct (String.eqb_spec type "all") as [->|_];
      [exfalso; apply Htype; cbn; tauto|].
    destruct (String.eqb_spec type "movie") as [->|_];
      [exfalso; apply Htype; cbn; tauto|].
    destruct (String.eqb_spec type "series") as [->|_];
      [exfalso; apply Htype; cbn; tauto|].
    reflexivity. }
  rewrite Huse. unfold merged. cbn [flat_map List.filter map].
  rewrite slice_to_nil. reflexivity.
Qed.

Lemma search_content_unknown_type_witness :
  Main.search_content Fixture.catalogue "naruto" "Anime" 10 None
  = Ok {| Main.success := false;
          Main.message := "Aucun r" ++ Main.e_acute ++ "sultat";
          Main.data := [];
          Main.sources_used := [] |}.
Proof.
  apply (search_content_unknown_type Fixture.catalogue "naruto" "Anime" 10).
  cbn. intros [H|[H|[H|[H|[]]]]]; discriminate.
Defined.

Lemma sort_key_raises (ql : string) (x : item) (e : exn) :
  Main.sort_key ql x = Raise e ->
  e = Json.AttributeError "lower" /\ ~ has_title x.
Proof.
  unfold Main.sort_key, has_title.
  destruct (get_item x "title" (JStr "")) eqn:Ht; cbn; intros [= <-];
    (split; [reflexivity|intros [t [=]]]).
Qed.

Lemma sort_key_returns (ql : string) (x : item) (k : Main.rank) :
  Main.sort_key ql x = Ok k -> has_title x.
Proof.
  unfold Main.sort_key, has_title.
  destruct (get_item x "title" (JStr "")) eqn:Ht; cbn; try discriminate.
  intros _. eauto.
Qed.

Lemma gather_sort_keys (ql : string) (l : list item) :
  match Main.gather (map (Main.sort_key ql) l) with
  | Ok _ => Forall has_title l
  | Raise e => e = Json.AttributeError "lower"
               /\ Exists (fun x => ~ has_title x) l
  end.
Proof.
  induction l as [|x l IH]; cbn [map Main.gather]; [constructor|].
  destruct (Main.sort_key ql x) as [k|e] eqn:Hx; cbn [bind].
  - apply sort_key_returns in Hx.
    destruct (Main.gather (map (Main.sort_key ql) l)) as [ks|e]; cbn [bind].
    + constructor; assumption.
    + destruct IH as [-> Hex]. split; [reflexivity|].
      now apply Exists_cons_tl.
  - apply sort_key_raises in Hx as [-> Hx]. split; [reflexivity|].
    now apply Exists_cons_hd.
Qed.

(** X17.  [multi_search] asks the eight sources whatever the type is, and
    unlike [search_content] it can fail: it returns exactly when the title
    of every hit found is a string (or the hit has none), and one hit with
    another title makes the whole search raise the [AttributeError] of the
    sort key. *)
Theorem multi_search_fails_on_title
    (scrapers : Main.site -> Main.adapter) (q type : string) (limit : Z) :
  Main.multi_search scrapers q type limit
  = Main.multi_search scrapers q "all" limit
  /\ match Main.multi_search scrapers q type limit with
     | Ok resp =>
         Forall has_title (merged scrapers q limit Main.sites)
         /\ Main.sources_used resp
            = map Main.key
                (List.filter (fun s => Py.nonempty (found scrapers q limit s))
                             Main.sites)
     | Raise e =>
         e = Json.AttributeError "lower"
         /\ Exists (fun x => ~ has_title x)
                   (merged scrapers q limit Main.sites)
     end.
Proof.
  rewrite !multi_search_eq. split; [reflexivity|].
  unfold Main.sort_with.
  pose proof (gather_sort_keys (Py.lower q)
                (merged scrapers q limit Main.sites)) as Hkeys.
  destruct (Main.gather _) as [keys|e]; cbn [bind].
  - split; [exact Hkeys|reflexivity].
  - exact Hkeys.
Qed.

(** ** The text helpers *)

Lemma list_of_string_of_list (l : list ascii) :
  list_ascii_of_string (string_of_list_ascii l) = l.
Proof. apply list_ascii_of_string_of_list_ascii. Qed.

Lemma lstrip_head (drop : ascii -> bool) (s : list ascii) :
  match Text.lstrip drop s with
  | [] => True
  | c :: _ => drop c = false
  end.
Proof.
  induction s as [|c s IH]; cbn; [exact I|].
  destruct (drop c) eqn:Hc; [exact IH|exact Hc].
Qed.

Lemma lstrip_fixed (drop : ascii -> bool) (s : list ascii) :
  match s with
  | [] => True
  | c :: _ => drop c = false
  end ->
  Text.lstrip drop s = s.
Proof. destruct s as [|c s]; cbn; [reflexivity|]. now intros ->. Qed.

Lemma rstrip_cons (drop : ascii -> bool) (c : ascii) (s : list ascii) :
  drop c = false -> Text.rstrip drop (c :: s) = c :: Text.rstrip drop s.
Proof. intros Hc. cbn. rewrite Hc. now destruct (Text.rstrip drop s). Qed.

Lemma rstrip_last (drop : ascii -> bool) (s : list ascii) :
  match rev (Text.rstrip drop s) with
  | [] => True
  | c :: _ => drop c = false
  end.
Proof.
  induction s as [|c s IH]; cbn [Text.rstrip]; [exact I|].
  destruct (Text.rstrip drop s) as [|k kept] eqn:Hs.
  - destruct (drop c) eqn:Hc; cbn; [exact I|exact Hc].
  - change (rev (c :: k :: kept)) with (rev (k :: kept) ++ [c])%list.
    destruct (rev (k :: kept)) as [|x l] eqn:Hrev; [|exact IH].
    apply (f_equal (@rev ascii)) in Hrev. rewrite rev_involutive in Hrev.
    discriminate.
Qed.

Lemma rstrip_idem (drop : ascii -> bool) (s : list ascii) :
  Text.rstrip drop (Text.rstrip drop s) = Text.rstrip drop s.
Proof.
  induction s as [|c s IH]; cbn [Text.rstrip]; [reflexivity|].
  destruct (Text.rstrip drop s) as [|k kept] eqn:Hs.
  - destruct (drop c) eqn:Hc; cbn; [reflexivity|now rewrite Hc].
  - cbn [Text.rstrip] in *. now rewrite IH.
Qed.

(** A text that [rstrip] leaves as it is for one set of characters is left
    as it is for a set that holds no other character of the text. *)
Lemma rstrip_fixed (drop drop' : ascii -> bool) (s : list ascii) :
  (forall c, In c s -> drop' c = true -> drop c = true) ->
  Text.rstrip drop s = s -> Text.rstrip drop' s = s.
Proof.
  induction s as [|c s IH]; intros Hsub; cbn [Text.rstrip]; [reflexivity|].
  destruct (Text.rstrip drop s) as [|k kept] eqn:Hs.
  - destruct (drop c) eqn:Hc; [discriminate|]. intros [= <-]. cbn.
    destruct (drop' c) eqn:Hc'; [|reflexivity].
    rewrite (Hsub c (or_introl eq_refl) Hc') in Hc. discriminate.
  - intros [= Heq]. rewrite IH; [now rewrite <- Heq| |exact Heq].
    intros c' Hin. apply Hsub. now right.
Qed.

Lemma strip_head (drop : ascii -> bool) (s : list ascii) :
  match Text.strip drop s with
  | [] => True
  | c :: _ => drop c = false
  end.
Proof.
  unfold Text.strip. pose proof (lstrip_head drop s) as Hhead.
  destruct (Text.lstrip drop s) as [|c l]; [exact I|].
  now rewrite (rstrip_cons _ _ _ Hhead).
Qed.

Lemma strip_idem (drop : ascii -> bool) (s : list ascii) :
  Text.strip drop (Text.strip drop s) = Text.strip drop s.
Proof.
  pose proof (strip_head drop s) as Hhead. unfold Text.strip at 1.
  rewrite (lstrip_fixed _ _ Hhead). unfold Text.strip. apply rstrip_idem.
Qed.

Lemma strip_trimmed (drop : ascii -> bool) (s : list ascii) :
  trimmed drop (Text.strip drop s) = true.
Proof.
  unfold trimmed. pose proof (strip_head drop s) as Hhead.
  pose proof (rstrip_last drop (Text.lstrip drop s)) as Hlast.
  fold (Text.strip drop s) in Hlast.
  destruct (Text.strip drop s) as [|c l]; [reflexivity|].
  rewrite Hhead. cbn [negb andb].
  destruct (rev (c :: l)) as [|x l']; [reflexivity|now rewrite Hlast].
Qed.

Lemma sub_spaces_single_spaced (in_run : bool) (s : list ascii) :
  single_spaced in_run (Text.sub_spaces [" "%char] in_run s) = true.
Proof.
  revert in_run. induction s as [|c s IH]; intros in_run; cbn; [reflexivity|].
  destruct (Text.is_space c) eqn:Hc.
  - destruct in_run; [apply IH|]. cbn. apply IH.
  - cbn. rewrite Hc. apply IH.
Qed.

Lemma single_spaced_weaken (b : bool) (s : list ascii) :
  single_spaced b s = true -> single_spaced false s = true.
Proof.
  destruct s as [|c s]; cbn; [reflexivity|].
  destruct (Text.is_space c); [|exact id].
  destruct b; [discriminate|exact id].
Qed.

Lemma single_spaced_fixed (b : bool) (s : list ascii) :
  single_spaced b s = true -> Text.sub_spaces [" "%char] b s = s.
Proof.
  revert b. induction s as [|c s IH]; intros b; cbn; [reflexivity|].
  destruct (Text.is_space c).
  - destruct b; [discriminate|]. cbn.
    destruct (Ascii.eqb_spec c " ") as [->|]; [|discriminate].
    cbn. intros Hs. now rewrite IH.
  - intros Hs. now rewrite IH.
Qed.

Lemma single_spaced_tail (b : bool) (c : ascii) (s : list ascii) :
  single_spaced b (c :: s) = true -> single_spaced false s = true.
Proof.
  cbn. destruct (Text.is_space c); [|exact id].
  intros Hs. apply andb_prop in Hs as [_ Hs].
  now apply single_spaced_weaken in Hs.
Qed.

Lemma single_spaced_lstrip (drop : ascii -> bool) (b : bool) (s : list ascii) :
  single_spaced b s = true ->
  single_spaced false (Text.lstrip drop s) = true.
Proof.
  revert b. induction s as [|c s IH]; intros b Hs; [reflexivity|].
  cbn [Text.lstrip]. destruct (drop c).
  - apply (IH false). exact (single_spaced_tail _ _ _ Hs).
  - exact (single_spaced_weaken _ _ Hs).
Qed.

Lemma single_spaced_rstrip (drop : ascii -> bool) (b : bool) (s : list ascii) :
  single_spaced b s = true ->
  single_spaced b (Text.rstrip drop s) = true.
Proof.
  revert b. induction s as [|c s IH]; intros b Hs; [reflexivity|].
  cbn [Text.rstrip]. cbn in Hs.
  destruct (Text.is_space c) eqn:Hc.
  - apply andb_prop in Hs as [Hb Hs]. specialize (IH true Hs).
    destruct (Text.rstrip drop s) as [|k kept].
    + destruct (drop c); [reflexivity|]. cbn. now rewrite Hc, Hb.
    + cbn [single_spaced]. rewrite Hc, Hb. exact IH.
  - specialize (IH false Hs).
    destruct (Text.rstrip drop s) as [|k kept].
    + destruct (drop c); [reflexivity|]. cbn. now rewrite Hc.
    + cbn [single_spaced]. rewrite Hc. exact IH.
Qed.

Lemma single_spaced_spaces (b : bool) (s : list ascii) (c : ascii) :
  single_spaced b s = true -> In c s -> Text.is_space c = true ->
  UtilsText.is_separator c = true.
Proof.
  revert b. induction s as [|x s IH]; intros b Hs [].
  - subst x. cbn in Hs. intros Hc. rewrite Hc in Hs.
    apply andb_prop in Hs as [Hs _]. apply andb_prop in Hs as [_ Hs].
    apply Ascii.eqb_eq in Hs. now subst c.
  - apply (IH false); [|assumption]. exact (single_spaced_tail _ _ _ Hs).
Qed.

(** What [clean_title] returns: the last strip finds nothing to drop. *)
Lemma clean_title_eq (title : string) :
  let kept :=
    Text.strip UtilsText.is_separator
      (Text.sub_spaces [" "%char] false (list_ascii_of_string title)) in
  UtilsText.clean_title title = string_of_list_ascii kept
  /\ single_spaced false kept = true
  /\ Text.strip Text.is_space kept = kept.
Proof.
  intros kept.
  assert (Hsingle : single_spaced false kept = true).
  { unfold kept, Text.strip. apply single_spaced_rstrip.
    eapply single_spaced_lstrip. apply sub_spaces_single_spaced. }
  assert (Hspace : Text.strip Text.is_space kept = kept).
  { pose proof (strip_head UtilsText.is_separator
                  (Text.sub_spaces [" "%char] false
                     (list_ascii_of_string title))) as Hhead.
    fold kept in Hhead. unfold Text.strip at 1.
    assert (Hl : Text.lstrip Text.is_space kept = kept).
    { apply lstrip_fixed. destruct kept as [|c l] eqn:Hk; [exact I|].
      destruct (Text.is_space c) eqn:Hc; [|reflexivity].
      rewrite (single_spaced_spaces false (c :: l) c Hsingle
                 (or_introl eq_refl) Hc) in Hhead. discriminate. }
    rewrite Hl.
    apply (rstrip_fixed UtilsText.is_separator).
    - intros c. apply (single_spaced_spaces false); exact Hsingle.
    - unfold kept, Text.strip. apply rstrip_idem. }
  split; [|split; assumption].
  unfold UtilsText.clean_title.
  destruct (String.eqb_spec title "") as [->|_]; [reflexivity|].
  fold kept. now rewrite Hspace.
Qed.

(** X18.  [clean_title] is idempotent: a cleaned title is left as it is. *)
Theorem clean_title_idempotent (title : string) :
  UtilsText.clean_title (UtilsText.clean_title title)
  = UtilsText.clean_title title.
Proof.
  destruct (clean_title_eq title) as (Heq & Hsingle & _).
  destruct (clean_title_eq (UtilsText.clean_title title)) as (Heq' & _).
  rewrite Heq'. rewrite Heq at 1. rewrite Heq.
  rewrite list_of_string_of_list.
  rewrite (single_spaced_fixed _ _ Hsingle). now rewrite strip_idem.
Qed.

(** X19.  In the title that [clean_title] returns, every whitespace
    character is a single space between two other characters, and the
    title neither begins nor ends with whitespace or with one of the
    separators hyphen, colon and bar. *)
Theorem clean_title_shape (title : string) :
  let cleaned := list_ascii_of_string (UtilsText.clean_title title) in
  single_spaced false cleaned = true /\ trimmed is_edge cleaned = true.
Proof.
  destruct (clean_title_eq title) as (Heq & Hsingle & Hspace).
  cbv zeta. rewrite Heq, list_of_string_of_list.
  split; [exact Hsingle|].
  pose proof (strip_trimmed UtilsText.is_separator
                (Text.sub_spaces [" "%char] false
                   (list_ascii_of_string title))) as Hsep.
  pose proof (strip_trimmed Text.is_space
                (Text.strip UtilsText.is_separator
                   (Text.sub_spaces [" "%char] false
                      (list_ascii_of_string title)))) as Hsp.
  rewrite Hspace in Hsp.
  unfold trimmed, is_edge in *.
  destruct (Text.strip UtilsText.is_separator _) as [|c l];
    [reflexivity|].
  apply andb_prop in Hsep as [Hsep1 Hsep2].
  apply andb_prop in Hsp as [Hsp1 Hsp2].
  apply negb_true_iff in Hsep1, Hsp1. rewrite Hsep1, Hsp1. cbn [orb negb andb].
  destruct (rev (c :: l)) as [|x l']; [reflexivity|].
  apply negb_true_iff in Hsep2, Hsp2. now rewrite Hsep2, Hsp2.
Qed.






Lemma strip_none (drop : ascii -> bool) (s : list ascii) :
  Forall (fun c => drop c = false) s -> Text.strip drop s = s.
Proof.
  intros Hs. unfold Text.strip.
  assert (Hl : Text.lstrip drop s = s)
    by (destruct Hs as [|c s Hc _]; cbn; [reflexivity|now rewrite Hc]).
  rewrite Hl. clear Hl. induction Hs as [|c s Hc _ IH]; [reflexivity|].
  rewrite (rstrip_cons _ _ _ Hc). now rewrite IH.
Qed.



(** ** [clean_text]: the words of a text *)

Lemma split_words (s : list ascii) :
  Forall (fun w => is_a_word w = true) (Text.split s).
Proof.
  induction s as [|c s IH]; [constructor|].
  cbn [Text.split]. destruct (Text.is_space c) eqn:Hc; [exact IH|].
  destruct s as [|c' s'].
  - constructor; [|constructor]. unfold is_a_word. cbn. now rewrite Hc.
  - destruct (Text.is_space c') eqn:Hc'.
    + constructor; [|exact IH]. unfold is_a_word. cbn. now rewrite Hc.
    + destruct (Text.split (c' :: s')) as [|w ws].
      * constructor; [|constructor]. unfold is_a_word. cbn. now rewrite Hc.
      * inversion IH as [|? ? Hw Hws]; subst.
        constructor; [|exact Hws].
        unfold is_a_word in *. cbn. rewrite Hc. cbn.
        now apply andb_prop in Hw as [_ Hw].
Qed.

(** A word followed by a space and by more text is the first word of the
    whole. *)
Lemma split_word_space (w rest : list ascii) (c : ascii) :
  is_a_word w = true -> Text.is_space c = true ->
  Text.split (w ++ c :: rest) = w :: Text.split rest.
Proof.
  intros Hw Hc. induction w as [|x w IH]; [discriminate|].
  unfold is_a_word in Hw. cbn in Hw.
  apply andb_prop in Hw as [Hx Hw]. apply negb_true_iff in Hx.
  change ((x :: w) ++ c :: rest)%list with (x :: (w ++ c :: rest))%list.
  cbn [Text.split]. rewrite Hx.
  destruct w as [|y w'].
  - cbn [app]. rewrite Hc. cbn [Text.split]. now rewrite Hc.
  - change ((y :: w') ++ c :: rest)%list with (y :: (w' ++ c :: rest))%list
      in *.
    assert (Hy : Text.is_space y = false).
    { cbn in Hw. apply andb_prop in Hw as [Hy _].
      now apply negb_true_iff in Hy. }
    cbv iota. rewrite Hy. rewrite IH; [reflexivity|].
    unfold is_a_word. exact Hw.
Qed.

Lemma split_word (w : list ascii) :
  is_a_word w = true -> Text.split w = [w].
Proof.
  intros Hw. induction w as [|x w IH]; [discriminate|].
  unfold is_a_word in Hw. cbn in Hw.
  apply andb_prop in Hw as [Hx Hw]. apply negb_true_iff in Hx.
  cbn [Text.split]. rewrite Hx.
  destruct w as [|y w']; [reflexivity|].
  assert (Hy : Text.is_space y = false).
  { cbn in Hw. apply andb_prop in Hw as [Hy _].
    now apply negb_true_iff in Hy. }
  rewrite Hy. rewrite IH; [reflexivity|]. unfold is_a_word. exact Hw.
Qed.

(** Joining words and splitting the text again gives the words back. *)
Lemma split_join (words : list (list ascii)) :
  Forall (fun w => is_a_word w = true) words ->
  Text.split (Text.join words) = words.
Proof.
  induction 1 as [|w ws Hw Hws IH]; [reflexivity|].
  destruct ws as [|w' ws']; [now apply split_word|].
  change (Text.join (w :: w' :: ws'))
    with (w ++ " "%char :: Text.join (w' :: ws'))%list.
  rewrite split_word_space by (assumption || reflexivity).
  now rewrite IH.
Qed.

(** The two [replace] calls of [clean_text] put a space where [split]
    sees a space already. *)
Lemma split_replace_char (a : ascii) (s : list ascii) :
  Text.is_space a = true ->
  Text.split (Text.replace_char a " " s) = Text.split s.
Proof.
  intros Ha. unfold Text.replace_char.
  set (f := fun c => if Ascii.eqb c a then " "%char else c).
  assert (Hf : forall c, Text.is_space (f c) = Text.is_space c
                         /\ (Text.is_space c = false -> f c = c)).
  { intros c. unfold f. destruct (Ascii.eqb_spec c a) as [->|_].
    - rewrite Ha. split; [reflexivity|discriminate].
    - split; reflexivity. }
  induction s as [|c s IH]; [reflexivity|].
  cbn [map Text.split]. destruct (Hf c) as [Hc Hfix]. rewrite Hc.
  destruct (Text.is_space c) eqn:Hsp; [exact IH|].
  rewrite (Hfix eq_refl).
  destruct s as [|c' s']; [reflexivity|].
  cbn [map] in *. destruct (Hf c') as [Hc' _]. rewrite Hc'.
  now rewrite IH.
Qed.

Lemma clean_text_eq (text : string) :
  BaseScraperText.clean_text text
  = string_of_list_ascii (Text.join (Text.split (list_ascii_of_string text))).
Proof.
  unfold BaseScraperText.clean_text.
  destruct (String.eqb_spec text "") as [->|_]; [reflexivity|].
  now rewrite !split_replace_char.
Qed.

Lemma word_chars (w : list ascii) :
  is_a_word w = true ->
  w <> [] /\ Forall (fun c => Text.is_space c = false) w.
Proof.
  unfold is_a_word. intros Hw. apply andb_prop in Hw as [Hne Hw].
  split; [now destruct w|].
  apply List.Forall_forall. intros x Hx.
  rewrite forallb_forall in Hw. apply negb_true_iff. now apply Hw.
Qed.

Lemma word_single_spaced (w rest : list ascii) (b : bool) :
  is_a_word w = true ->
  single_spaced b (w ++ rest) = single_spaced false rest.
Proof.
  intros Hw. apply word_chars in Hw as [Hne Hall].
  revert b Hne. induction Hall as [|x l Hx Hl IH]; intros b Hne;
    [congruence|].
  cbn. rewrite Hx. destruct l as [|y l']; [reflexivity|].
  apply IH. discriminate.
Qed.

Lemma rstrip_app (drop : ascii -> bool) (l1 l2 : list ascii) :
  l2 <> [] -> Text.rstrip drop l2 = l2 ->
  Text.rstrip drop (l1 ++ l2) = (l1 ++ l2)%list.
Proof.
  intros Hne Hl2. induction l1 as [|c l1 IH]; [exact Hl2|].
  change ((c :: l1) ++ l2)%list with (c :: (l1 ++ l2))%list.
  cbn [Text.rstrip]. rewrite IH.
  destruct (l1 ++ l2)%list as [|x l] eqn:Happ; [|reflexivity].
  apply app_eq_nil in Happ as [_ ->]. congruence.
Qed.

(** The words joined: one space between two words, none at the ends. *)
Lemma join_shape (words : list (list ascii)) :
  Forall (fun w => is_a_word w = true) words ->
  (forall b, single_spaced b (Text.join words) = true)
  /\ Text.strip Text.is_space (Text.join words) = Text.join words
  /\ (words <> [] -> Text.join words <> []).
Proof.
  induction 1 as [|w ws Hw Hws (IHsingle & IHstrip & IHne)].
  - split; [reflexivity|]. split; [reflexivity|congruence].
  - pose proof (word_chars w Hw) as [Hwne Hwall].
    destruct ws as [|w' ws'].
    + cbn [Text.join]. split; [|split].
      * intros b. rewrite <- (app_nil_r w).
        now rewrite word_single_spaced.
      * now apply strip_none.
      * intros _. exact Hwne.
    + change (Text.join (w :: w' :: ws'))
        with (w ++ " "%char :: Text.join (w' :: ws'))%list.
      assert (Hrest : Text.join (w' :: ws') <> []) by (apply IHne; discriminate).
      split; [|split].
      * intros b. rewrite word_single_spaced by exact Hw.
        cbn. apply IHsingle.
      * unfold Text.strip. rewrite lstrip_fixed.
        -- apply rstrip_app; [discriminate|].
           unfold Text.strip in IHstrip.
           assert (Hr : Text.rstrip Text.is_space (Text.join (w' :: ws'))
                        = Text.join (w' :: ws')).
           { rewrite <- IHstrip. apply rstrip_idem. }
           cbn [Text.rstrip]. rewrite Hr.
           destruct (Text.join (w' :: ws')); [congruence|reflexivity].
        -- destruct w as [|c w0]; [congruence|]. cbn. now inversion Hwall.
      * intros _. destruct w; [congruence|discriminate].
Qed.

(** X21.  [clean_text] returns the words of the text with one space
    between two of them: every whitespace character of the result is a
    single space, none is at its ends, and cleaning a cleaned text changes
    nothing.  The two [replace] calls and the test of the empty text
    change nothing to what [split] and [join] give. *)
Theorem clean_text_words (text : string) :
  let cleaned := BaseScraperText.clean_text text in
  cleaned
  = string_of_list_ascii (Text.join (Text.split (list_ascii_of_string text)))
  /\ single_spaced false (list_ascii_of_string cleaned) = true
  /\ trimmed Text.is_space (list_ascii_of_string cleaned) = true
  /\ BaseScraperText.clean_text cleaned = cleaned.
Proof.
  cbv zeta. rewrite !clean_text_eq, !list_of_string_of_list.
  pose proof (split_words (list_ascii_of_string text)) as Hwords.
  destruct (join_shape _ Hwords) as (Hsingle & Hstrip & _).
  split; [reflexivity|]. split; [apply Hsingle|].
  split; [rewrite <- Hstrip; apply strip_trimmed|].
  now rewrite split_join.
Qed.

(** ** Seasons, episodes and details *)








Section AdapterFacts.
Context `{Net} `{Libs} `{Clock}.




Lemma AnimeSamaScraper_episodes_numbered (links : list node)
    (acc : list Episode.t) :
  let episodes := fold_left AnimeSamaScraper_episode links acc in
  map Episode.number episodes
  = (map Episode.number acc
     ++ map (fun i => Py.len acc + Z.of_nat i) (seq 1 (length links)))%list
  /\ map Episode.title episodes
     = (map Episode.title acc ++ map get_text links)%list.
Proof using Type.
  revert acc. induction links as [|ep links IH]; intros acc; cbn zeta.
  - cbn. now rewrite !app_nil_r.
  - cbn [fold_left]. destruct (IH (AnimeSamaScraper_episode acc ep)) as [Hn Ht].
    cbv zeta in Hn, Ht. rewrite Hn, Ht. unfold AnimeSamaScraper_episode.
    rewrite !map_app. cbn [map Episode.number Episode.title new_episode].
    rewrite <- !app_assoc. cbn [app length seq map].
    split; [|reflexivity]. f_equal.
    change (Z.of_nat 1) with 1. f_equal.
    rewrite <- (seq_shift (length links) 1), map_map.
    apply map_ext. intros i. unfold Py.len. rewrite length_app.
    cbn [length]. lia.
Qed.

(** X24.  [AnimeSamaScraper.get_details] never raises.  It returns [None]
    exactly when the page of the anime could not be fetched or is empty.
    Otherwise the result has one episode for each link of class
    "episode", numbered 1, 2, ... in the order of the page and titled by
    the text of the link; its [episode_count] is their number, and it has
    no season and no source. *)
Theorem AnimeSamaScraper_get_details_episodes (content_id : string) :
  let detail_url := BaseScraper.base_url AnimeSamaScraper ++ "/anime/" ++ content_id in
  exists html,
    Utils.fetch_page detail_url (Some (BaseScraper.headers AnimeSamaScraper)) 30 = Ok html
    /\ if no_page html
       then AnimeSamaScraper_get_details content_id = Ok None
       else
         let links :=
           find_all (BeautifulSoup (page html)) "a" (Some "episode") in
         exists r,
           AnimeSamaScraper_get_details content_id = Ok (Some r)
           /\ map Episode.number (ScraperResult.episodes r)
              = numbers (length links)
           /\ map Episode.title (ScraperResult.episodes r)
              = map get_text links
           /\ ScraperResult.episode_count r = Py.len links
           /\ ScraperResult.seasons r = []
           /\ ScraperResult.sources r = [].
Proof using Type.
  intros detail_url. unfold AnimeSamaScraper_get_details. fold detail_url.
  destruct (fetch_page_returns detail_url (Some (BaseScraper.headers AnimeSamaScraper)) 30)
    as [html Hhtml].
  exists html. split; [exact Hhtml|]. rewrite Hhtml. cbn [bind].
  destruct (no_page html); [reflexivity|]. cbv zeta.
  eexists. split; [reflexivity|].
  cbn [ScraperResult.episodes ScraperResult.episode_count
       ScraperResult.seasons ScraperResult.sources].
  destruct (AnimeSamaScraper_episodes_numbered
              (find_all (BeautifulSoup (page html)) "a" (Some "episode")) [])
    as [Hn Ht].
  cbv zeta in Hn, Ht. cbn [map app] in Hn, Ht.
  split; [rewrite Hn; unfold numbers; apply map_ext; intros i;
          unfold Py.len; cbn; lia|].
  split; [exact Ht|]. split; [|split; reflexivity].
  unfold Py.len. f_equal.
  rewrite <- (length_map Episode.title), Ht. apply length_map.
Qed.

(** X25.  [AsyncRequestPool.fetch_multiple] never raises: it returns one
    slot for each url, in the order of the urls, holding what [fetch_page]
    returns for that url, so that a url that cannot be fetched gives
    [None] in its slot and leaves the others as they are. *)
Theorem fetch_multiple_one_per_url (urls : list string)
    (hdrs : option Http.headers) :
  exists pages,
    fetch_multiple urls hdrs = Ok pages
    /\ Forall2 (fun url html => Utils.fetch_page url hdrs 30 = Ok html)
               urls pages.
Proof using Type.
  unfold fetch_multiple. induction urls as [|url urls (pages & Hrun & Hall)].
  - exists []. split; [reflexivity|constructor].
  - destruct (fetch_page_returns url hdrs 30) as [html Hhtml].
    exists (html :: pages). cbn [map Main.gather]. rewrite Hhtml, Hrun.
    split; [reflexivity|now constructor].
Qed.

End AdapterFacts.


(** X26.  Without a source named, [search_content] never asks zoro nor
    fmovies, whatever the type is: the sources it uses are among
    gogoanime, animeheaven, animesama, sflix, lookmovie and vidsrc. *)
Theorem search_content_default_sources
    (scrapers : Main.site -> Main.adapter) (q type : string) (limit : Z) :
  exists resp,
    Main.search_content scrapers q type limit None = Ok resp
    /\ incl (Main.sources_used resp)
            ["gogoanime"; "animeheaven"; "animesama";
             "sflix"; "lookmovie"; "vidsrc"]
    /\ ~ In "zoro" (Main.sources_used resp)
    /\ ~ In "fmovies" (Main.sources_used resp).
Proof.
  rewrite search_content_response. eexists. split; [reflexivity|].
  cbn [Main.sources_used].
  assert (Hincl : incl
            (map Main.key
               (List.filter (fun s => Py.nonempty (found scrapers q limit s))
                  (Main.scrapers_to_use type None)))
            ["gogoanime"; "animeheaven"; "animesama";
             "sflix"; "lookmovie"; "vidsrc"]).
  { intros k Hk. apply in_map_iff in Hk as (s & <- & Hs).
    apply List.filter_In in Hs as [Hs _].
    unfold Main.scrapers_to_use, Main.default_scrapers in Hs.
    apply in_app_or in Hs as [Hs|Hs].
    - destruct (_ || _) in Hs; [|contradiction].
      cbn in Hs. cbn. intuition (subst; tauto).
    - destruct (_ || _) in Hs; [|contradiction].
      cbn in Hs. cbn. intuition (subst; tauto). }
  split; [exact Hincl|].
  split; intros Hin; apply Hincl in Hin; cbn in Hin;
    intuition discriminate.
Qed.

(** ** The years and the durations read off a text *)

Lemma last_cons {A} (l : list A) (x d : A) :
  List.last (x :: l) d = List.last l x.
Proof.
  revert x d. induction l as [|y l IH]; intros x d; [reflexivity|].
  change (List.last (x :: y :: l) d) with (List.last (y :: l) d).
  now rewrite !IH.
Qed.

Lemma last_from_cons (prev : option ascii) (x : ascii) (pre : list ascii) :
  last_from prev (x :: pre) = last_from (Some x) pre.
Proof. unfold last_from. cbn [map]. apply last_cons. Qed.

(** [re.search] finds the match at the leftmost position that has one. *)
Lemma search_from_leftmost (p : Rx.pattern) (s : list ascii) :
  forall prev,
    match Rx.search_from p prev s with
    | Some m =>
        exists pre rest,
          s = (pre ++ rest)%list
          /\ Rx.match_here p (last_from prev pre) rest = Some m
          /\ forall pre' rest',
               s = (pre' ++ rest')%list -> (length pre' < length pre)%nat ->
               Rx.match_here p (last_from prev pre') rest' = None
    | None =>
        forall pre rest,
          s = (pre ++ rest)%list ->
          Rx.match_here p (last_from prev pre) rest = None
    end.
Proof.
  induction s as [|x s IH]; intros prev; cbn [Rx.search_from].
  - destruct (Rx.match_here p prev []) as [m|] eqn:Hm.
    + exists [], []. split; [reflexivity|]. split; [exact Hm|].
      intros pre' rest' _ Hlen. cbn in Hlen. lia.
    + intros pre rest Heq. symmetry in Heq.
      apply app_eq_nil in Heq as [-> ->]. exact Hm.
  - destruct (Rx.match_here p prev (x :: s)) as [m|] eqn:Hm.
    + exists [], (x :: s). split; [reflexivity|]. split; [exact Hm|].
      intros pre' rest' _ Hlen. cbn in Hlen. lia.
    + specialize (IH (Some x)).
      destruct (Rx.search_from p (Some x) s) as [m|].
      * destruct IH as (pre & rest & -> & Hrest & Hleft).
        exists (x :: pre), rest. split; [reflexivity|].
        split; [now rewrite last_from_cons|].
        intros pre' rest' Heq Hlen. destruct pre' as [|y pre'].
        -- cbn in Heq. subst rest'. exact Hm.
        -- injection Heq as <- Heq. rewrite last_from_cons.
           apply Hleft; [exact Heq|cbn in Hlen; lia].
      * intros pre rest Heq. destruct pre as [|y pre].
        -- cbn in Heq. subst rest. exact Hm.
        -- injection Heq as <- Heq. rewrite last_from_cons. now apply IH.
Qed.

Lemma digit_is_word (c : ascii) : Rx.digit c = true -> Re.is_word c = true.
Proof. unfold Rx.digit, Re.is_word. now intros ->. Qed.

Lemma match_here_year_short (prev : option ascii) (s : list ascii) :
  (length s < 4)%nat -> Rx.match_here BaseScraperRe.year prev s = None.
Proof.
  intros Hlen. destruct s as [|a [|b [|c [|d post]]]];
    [| | | |cbn in Hlen; lia].
  all: cbn; destruct (Rx.at_boundary prev _); try reflexivity.
  all: repeat match goal with
              | |- context [Ascii.eqb ?x ?y] => destruct (Ascii.eqb x y); cbn
              | |- context [if ?b then _ else _] => destruct b; cbn
              end; reflexivity.
Qed.

Lemma match_here_year_four (prev : option ascii) (a b c d : ascii)
    (post : list ascii) :
  Rx.match_here BaseScraperRe.year prev (a :: b :: c :: d :: post)
  = if is_year [a; b; c; d] && negb (Rx.is_word_at prev)
       && negb (Rx.is_word_at (head post))
    then Some ([a; b; c; d], [a; b])
    else None.
Proof.
  assert (Hwa : Ascii.eqb a "1" || Ascii.eqb a "2" = true ->
                Re.is_word a = true).
  { destruct (Ascii.eqb_spec a "1") as [->|_]; [reflexivity|].
    destruct (Ascii.eqb_spec a "2") as [->|_]; [reflexivity|discriminate]. }
  pose proof (digit_is_word d) as Hwd.
  unfold is_year. cbn. unfold Rx.at_boundary. cbn [head Rx.is_word_at].
  destruct (Ascii.eqb a "1") eqn:E1, (Ascii.eqb b "9") eqn:E9,
    (Ascii.eqb a "2") eqn:E2, (Ascii.eqb b "0") eqn:E0,
    (Rx.digit c) eqn:Hc, (Rx.digit d) eqn:Hd,
    (Rx.is_word_at prev) eqn:Hwp, (Rx.is_word_at (head post)) eqn:Hwn.
  all: try rewrite (Hwa eq_refl); try rewrite (Hwd eq_refl).
  all: cbn; rewrite ?E1, ?E9, ?E2, ?E0, ?Hc, ?Hd, ?Hwp, ?Hwn; cbn.
  all: try reflexivity.
  all: repeat match goal with
              | E : Ascii.eqb _ _ = true |- _ => apply Ascii.eqb_eq in E
              end.
  all: try (subst a b; reflexivity).
  all: try congruence.
  all: destruct (Re.is_word a); cbn;
    rewrite ?E1, ?E9, ?E2, ?E0, ?Hc, ?Hd, ?Hwp, ?Hwn; cbn; try reflexivity.
Qed.

Lemma match_here_year (prev : option ascii) (s : list ascii) (m : Rx.found) :
  Rx.match_here BaseScraperRe.year prev s = Some m ->
  exists y post,
    s = (y ++ post)%list /\ is_year y = true
    /\ Rx.is_word_at prev = false /\ Rx.is_word_at (head post) = false
    /\ fst m = y.
Proof.
  intros Hm.
  destruct (Nat.lt_ge_cases (length s) 4) as [Hshort|Hlong].
  - rewrite (match_here_year_short _ _ Hshort) in Hm. discriminate.
  - destruct s as [|a [|b [|c [|d post]]]]; cbn in Hlong; try lia.
    rewrite match_here_year_four in Hm.
    destruct (is_year [a; b; c; d]) eqn:Hy; [|discriminate].
    destruct (Rx.is_word_at prev) eqn:Hp; [discriminate|].
    destruct (Rx.is_word_at (head post)) eqn:Hn; [discriminate|].
    injection Hm as <-. exists [a; b; c; d], post. repeat split; assumption.
Qed.

Lemma year_matches (prev : option ascii) (y post : list ascii) :
  is_year y = true -> Rx.is_word_at prev = false ->
  Rx.is_word_at (head post) = false ->
  exists g, Rx.match_here BaseScraperRe.year prev (y ++ post) = Some (y, g).
Proof.
  intros Hy Hp Hn.
  destruct y as [|a [|b [|c [|d [|e y]]]]]; try discriminate.
  change ([a; b; c; d] ++ post)%list with (a :: b :: c :: d :: post).
  rewrite match_here_year_four, Hy, Hp, Hn. eauto.
Qed.

(** X27.  [extract_year] returns the leftmost year of the text: four
    digits, the first two 19 or 20, with no word character before them
    nor behind them.  It returns the empty string exactly when the text
    holds no such year. *)
Theorem extract_year_leftmost (text : string) :
  let s := list_ascii_of_string text in
  let y := list_ascii_of_string (BaseScraperRe.extract_year text) in
  (y <> [] ->
   exists pre post,
     s = (pre ++ y ++ post)%list /\ year_between pre y post
     /\ forall pre' y' post',
          s = (pre' ++ y' ++ post')%list -> year_between pre' y' post' ->
          (length pre <= length pre')%nat)
  /\ (y = [] ->
      forall pre y' post,
        s = (pre ++ y' ++ post)%list -> ~ year_between pre y' post).
Proof.
  cbv zeta. unfold BaseScraperRe.extract_year, Rx.search.
  pose proof (search_from_leftmost BaseScraperRe.year
                (list_ascii_of_string text) None) as Hsearch.
  destruct (Rx.search_from _ _ _) as [m|].
  - destruct Hsearch as (pre & rest & Htext & Hm & Hleft).
    apply match_here_year in Hm as (y & post & -> & Hy & Hp & Hn & Hfst).
    rewrite Hfst, list_of_string_of_list. split.
    + intros _. exists pre, post. split; [exact Htext|].
      split; [repeat split; assumption|].
      intros pre' y' post' Htext' (Hy' & Hp' & Hn').
      destruct (Nat.le_gt_cases (length pre) (length pre')) as [Hle|Hgt];
        [exact Hle|].
      destruct (year_matches _ y' post' Hy' Hp' Hn') as [g Hg].
      rewrite (Hleft pre' (y' ++ post')%list Htext' Hgt) in Hg.
      discriminate.
    + intros ->. discriminate.
  - split; [intros Hne; now contradiction Hne|].
    intros _ pre y' post Htext (Hy & Hp & Hn).
    destruct (year_matches _ y' post Hy Hp Hn) as [g Hg].
    rewrite (Hsearch pre (y' ++ post)%list Htext) in Hg. discriminate.
Qed.

(** *** Durations *)

Lemma match_here_plus_cons (k : ascii -> bool) (g : bool) (p : Rx.pattern)
    (prev prev' : option ascii) (x : ascii) (s : list ascii) :
  Rx.match_here ((Rx.Plus k, g) :: p) prev (x :: s)
  = if k x
    then match Rx.match_here ((Rx.Plus k, g) :: p) prev' s with
         | Some m => Some (Rx.took g [x] m)
         | None => option_map (Rx.took g [x]) (Rx.match_here p (Some x) s)
         end
    else None.
Proof. reflexivity. Qed.

Lemma match_here_star (k : ascii -> bool) (g : bool) (p : Rx.pattern)
    (prev : option ascii) (s : list ascii) :
  Rx.match_here ((Rx.Star k, g) :: p) prev s
  = match Rx.match_here ((Rx.Plus k, g) :: p) prev s with
    | Some m => Some m
    | None => Rx.match_here p prev s
    end.
Proof. reflexivity. Qed.

Lemma took_took (g : bool) (a b : list ascii) (m : Rx.found) :
  Rx.took g a (Rx.took g b m) = Rx.took g (a ++ b) m.
Proof.
  unfold Rx.took. destruct g; cbn [fst snd]; now rewrite <- ?app_assoc.
Qed.

(** What a match of [k+] and of the rest of the pattern is made of. *)
Lemma match_here_plus_sound (k : ascii -> bool) (g : bool) (p : Rx.pattern)
    (s : list ascii) :
  forall prev m,
    Rx.match_here ((Rx.Plus k, g) :: p) prev s = Some m ->
    exists run rest m',
      s = (run ++ rest)%list /\ run <> [] /\ forallb k run = true
      /\ Rx.match_here p (last_from prev run) rest = Some m'
      /\ m = Rx.took g run m'.
Proof.
  induction s as [|x s IH]; intros prev m; [discriminate|].
  rewrite (match_here_plus_cons k g p prev (Some x)).
  destruct (k x) eqn:Hx; [|discriminate].
  destruct (Rx.match_here ((Rx.Plus k, g) :: p) (Some x) s) as [m1|] eqn:Hs.
  - intros [= <-].
    destruct (IH _ _ Hs) as (run & rest & m' & -> & Hne & Hrun & Hrest & ->).
    exists (x :: run), rest, m'. split; [reflexivity|].
    split; [discriminate|]. split; [cbn; now rewrite Hx|].
    split; [now rewrite last_from_cons|]. apply (took_took g [x] run).
  - destruct (Rx.match_here p (Some x) s) as [m'|] eqn:Hrest; [|discriminate].
    intros [= <-]. exists [x], s, m'. split; [reflexivity|].
    split; [discriminate|]. split; [cbn; now rewrite Hx|].
    split; [exact Hrest|reflexivity].
Qed.

(** A greedy [k+] takes the whole run when the rest of the pattern
    matches behind it. *)
Lemma match_here_plus_greedy (k : ascii -> bool) (g : bool) (p : Rx.pattern)
    (run rest : list ascii) (m' : Rx.found) :
  forallb k run = true -> run <> [] ->
  forall prev,
    Rx.match_here p (last_from prev run) rest = Some m' ->
    match rest with
    | [] => True
    | x :: _ => k x = false
    end ->
    Rx.match_here ((Rx.Plus k, g) :: p) prev (run ++ rest)
    = Some (Rx.took g run m').
Proof.
  intros Hrun Hne. induction run as [|x run IH]; [congruence|].
  intros prev Hrest Hstop. cbn in Hrun. apply andb_prop in Hrun as [Hx Hrun].
  change ((x :: run) ++ rest)%list with (x :: (run ++ rest))%list.
  rewrite (match_here_plus_cons k g p prev (Some x)), Hx.
  rewrite last_from_cons in Hrest.
  destruct run as [|y run].
  - cbn [app]. cbn [last_from map List.last] in Hrest.
    assert (Hnone : Rx.match_here ((Rx.Plus k, g) :: p) (Some x) rest = None).
    { destruct rest as [|z rest]; [reflexivity|].
      rewrite (match_here_plus_cons k g p (Some x) None), Hstop.
      reflexivity. }
    rewrite Hnone. unfold last_from in Hrest. cbn in Hrest.
    now rewrite Hrest.
  - rewrite (IH Hrun ltac:(discriminate) (Some x) Hrest Hstop).
    now rewrite (took_took g [x] (y :: run)).
Qed.

Lemma match_here_lit_sound (w : string) (s : list ascii) :
  forall prev m,
    Rx.match_here (Rx.lit w) prev s = Some m ->
    exists rest, s = (list_ascii_of_string w ++ rest)%list
                 /\ m = (list_ascii_of_string w, []).
Proof.
  unfold Rx.lit. revert s.
  induction (list_ascii_of_string w) as [|c l IH]; intros s prev m.
  - cbn. intros [= <-]. now exists s.
  - cbn [map Rx.match_here]. destruct s as [|x s]; [discriminate|].
    destruct (Ascii.eqb_spec c x) as [<-|_]; [|discriminate].
    destruct (Rx.match_here _ (Some c) s) as [m'|] eqn:Hs; [|discriminate].
    cbn [option_map]. intros [= <-].
    destruct (IH _ _ _ Hs) as (rest & -> & ->).
    exists rest. split; reflexivity.
Qed.

Lemma match_here_lit (w : string) (rest : list ascii) (prev : option ascii) :
  Rx.match_here (Rx.lit w) prev (list_ascii_of_string w ++ rest)
  = Some (list_ascii_of_string w, []).
Proof.
  unfold Rx.lit. revert prev.
  induction (list_ascii_of_string w) as [|c l IH]; intros prev;
    [reflexivity|].
  cbn [map app Rx.match_here]. rewrite Ascii.eqb_refl, IH. reflexivity.
Qed.

Section Durations.
(** The unit of a duration: a text that begins with a character that is
    no digit and no whitespace. *)
Variable unit : string.
Variable u : ascii.
Variable unit' : list ascii.
Hypothesis Hunit : list_ascii_of_string unit = u :: unit'.
Hypothesis Hdigit : Rx.digit u = false.
Hypothesis Hspace : Text.is_space u = false.

Let duration : Rx.pattern :=
  ((Rx.Plus Rx.digit, true) :: (Rx.Star Text.is_space, false)
   :: Rx.lit unit)%list.

Lemma match_here_duration_sound (prev : option ascii) (s : list ascii)
    (m : Rx.found) :
  Rx.match_here duration prev s = Some m ->
  exists n sp post,
    s = (n ++ sp ++ list_ascii_of_string unit ++ post)%list
    /\ is_number n = true /\ forallb Text.is_space sp = true
    /\ snd m = n.
Proof using Type.
  intros Hm. apply match_here_plus_sound in Hm
    as (n & rest & m' & -> & Hne & Hn & Hrest & ->).
  rewrite match_here_star in Hrest.
  destruct (Rx.match_here ((Rx.Plus Text.is_space, false) :: Rx.lit unit)
              (last_from prev n) rest) as [m1|] eqn:Hsp.
  - injection Hrest as <-.
    apply match_here_plus_sound in Hsp
      as (sp & rest' & m'' & -> & _ & Hsp & Hlit & ->).
    apply match_here_lit_sound in Hlit as (post & -> & ->).
    exists n, sp, post. split; [reflexivity|].
    split; [unfold is_number; rewrite Hn; now destruct n|].
    split; [exact Hsp|]. cbn. apply app_nil_r.
  - apply match_here_lit_sound in Hrest as (post & -> & ->).
    exists n, [], post. split; [reflexivity|].
    split; [unfold is_number; rewrite Hn; now destruct n|].
    split; [reflexivity|]. cbn. apply app_nil_r.
Qed.

Lemma match_here_duration (prev : option ascii) (n sp post : list ascii) :
  is_number n = true -> forallb Text.is_space sp = true ->
  exists w,
    Rx.match_here duration prev
      (n ++ sp ++ list_ascii_of_string unit ++ post)%list
    = Some (w, n).
Proof using Hunit Hdigit Hspace.
  intros Hn Hsp. unfold is_number in Hn. apply andb_prop in Hn as [Hne Hn].
  assert (Hstar : forall prev',
             exists w,
               Rx.match_here ((Rx.Star Text.is_space, false) :: Rx.lit unit)
                 prev' (sp ++ list_ascii_of_string unit ++ post)%list
               = Some (w, [])).
  { intros prev'. rewrite match_here_star. destruct sp as [|x sp].
    - cbn [app]. rewrite Hunit. cbn [app].
      rewrite (match_here_plus_cons _ _ _ prev' None), Hspace.
      change (u :: (unit' ++ post))%list with ((u :: unit') ++ post)%list.
      rewrite <- Hunit, match_here_lit. eauto.
    - rewrite (match_here_plus_greedy Text.is_space false (Rx.lit unit)
                 (x :: sp) (list_ascii_of_string unit ++ post)
                 (list_ascii_of_string unit, []) Hsp ltac:(discriminate)).
      + cbn. eauto.
      + apply match_here_lit.
      + rewrite Hunit. exact Hspace. }
  destruct (Hstar (last_from prev n)) as [w Hw].
  unfold duration.
  rewrite (match_here_plus_greedy Rx.digit true _ n _ (w, []) Hn
             ltac:(now destruct n) prev Hw).
  - unfold Rx.took. cbn [fst snd]. rewrite app_nil_r. eauto.
  - destruct sp as [|x sp]; cbn [app].
    + rewrite Hunit. exact Hdigit.
    + cbn in Hsp. apply andb_prop in Hsp as [Hx _].
      destruct (Rx.digit x) eqn:Hd; [|reflexivity].
      revert Hx Hd. clear. destruct x as [[] [] [] [] [] [] [] []];
        vm_compute; congruence.
Qed.

(** The search finds a number of the text when the text holds a
    duration, and nothing otherwise. *)
Lemma search_duration (s : list ascii) :
  match Rx.search_from duration None s with
  | Some m => holds_duration unit s (snd m)
  | None => forall n, ~ holds_duration unit s n
  end.
Proof using Hunit Hdigit Hspace.
  pose proof (search_from_leftmost duration s None) as Hsearch.
  destruct (Rx.search_from duration None s) as [m|].
  - destruct Hsearch as (pre & rest & -> & Hm & _).
    apply match_here_duration_sound in Hm
      as (n & sp & post & -> & Hn & Hsp & ->).
    exists pre, sp, post. repeat split; assumption.
  - intros n (pre & sp & post & -> & Hn & Hsp).
    destruct (match_here_duration (last_from None pre) n sp post Hn Hsp)
      as [w Hw].
    rewrite (Hsearch pre _ eq_refl) in Hw. discriminate.
Qed.

End Durations.

Lemma search_minutes (s : list ascii) :
  match Rx.search_from BaseScraperRe.minutes None s with
  | Some m => holds_duration "min" s (snd m)
  | None => forall n, ~ holds_duration "min" s n
  end.
Proof.
  exact (search_duration "min" "m" ["i"; "n"]%char eq_refl eq_refl eq_refl s).
Qed.

Lemma search_hours (s : list ascii) :
  match Rx.search_from BaseScraperRe.hours None s with
  | Some m => holds_duration "h" s (snd m)
  | None => forall n, ~ holds_duration "h" s n
  end.
Proof.
  exact (search_duration "h" "h" [] eq_refl eq_refl eq_refl s).
Qed.

(** X28.  [parse_duration] reads the text in lower case.  When it holds a
    number followed by whitespace or none and by "min", the result is
    such a number and " min", whatever hours the text gives; when it
    holds no minutes and a number followed by "h", the result is such a
    number and "h"; otherwise the text is returned as it is. *)
Theorem parse_duration_cases (text : string) :
  let s := list_ascii_of_string (Py.lower text) in
  ((exists n, holds_duration "min" s n) ->
   exists n,
     holds_duration "min" s n
     /\ BaseScraperRe.parse_duration text
        = string_of_list_ascii n ++ " min")
  /\ ((forall n, ~ holds_duration "min" s n) ->
      (exists n, holds_duration "h" s n) ->
      exists n,
        holds_duration "h" s n
        /\ BaseScraperRe.parse_duration text = string_of_list_ascii n ++ "h")
  /\ ((forall n, ~ holds_duration "min" s n) ->
      (forall n, ~ holds_duration "h" s n) ->
      BaseScraperRe.parse_duration text = text).
Proof.
  cbv zeta. unfold BaseScraperRe.parse_duration, Rx.search.
  pose proof (search_minutes (list_ascii_of_string (Py.lower text))) as Hmin.
  pose proof (search_hours (list_ascii_of_string (Py.lower text))) as Hh.
  destruct (Rx.search_from BaseScraperRe.minutes None _) as [m|].
  - split; [intros _; eauto|].
    split; intros Hnone; now contradiction (Hnone (snd m)).
  - split; [intros [n Hn]; now contradiction (Hmin n)|].
    destruct (Rx.search_from BaseScraperRe.hours None _) as [m|].
    + split; [intros _ _; eauto|].
      intros _ Hnone. now contradiction (Hnone (snd m)).
    + split; [intros _ [n Hn]; now contradiction (Hh n)|reflexivity].
Qed.

Lemma search_from_here (p : Rx.pattern) (prev : option ascii)
    (s : list ascii) (m : Rx.found) :
  Rx.match_here p prev s = Some m -> Rx.search_from p prev s = Some m.
Proof. intros Hm. destruct s; cbn [Rx.search_from]; now rewrite Hm. Qed.

Lemma digit_lower (c : ascii) : Rx.digit c = true -> Py.lower_char c = c.
Proof.
  destruct c as [[] [] [] [] [] [] [] []]; vm_compute; congruence.
Qed.

Lemma list_of_append (a b : string) :
  list_ascii_of_string (a ++ b)
  = (list_ascii_of_string a ++ list_ascii_of_string b)%list.
Proof.
  induction a as [|c a IH]; [reflexivity|].
  change (String c a ++ b) with (String c (a ++ b)).
  cbn [list_ascii_of_string app]. now rewrite IH.
Qed.

Lemma lower_number (n : list ascii) (unit : string) :
  is_number n = true -> Py.lower unit = unit ->
  Py.lower (string_of_list_ascii n ++ unit) = string_of_list_ascii n ++ unit.
Proof.
  unfold is_number. intros Hn Hunit. apply andb_prop in Hn as [_ Hn].
  induction n as [|c n IH]; [exact Hunit|].
  cbn in Hn. apply andb_prop in Hn as [Hc Hn].
  change (string_of_list_ascii (c :: n) ++ unit)
    with (String c (string_of_list_ascii n ++ unit)).
  cbn [Py.lower]. now rewrite (digit_lower c Hc), IH.
Qed.

(** A number followed by a unit is read as that number. *)
Lemma search_number_unit (unit : string) (u : ascii) (unit' : list ascii)
    (n sp : list ascii) :
  list_ascii_of_string unit = u :: unit' ->
  Rx.digit u = false -> Text.is_space u = false ->
  is_number n = true -> forallb Text.is_space sp = true ->
  exists w,
    Rx.search_from
      ((Rx.Plus Rx.digit, true) :: (Rx.Star Text.is_space, false)
       :: Rx.lit unit)%list
      None (n ++ sp ++ list_ascii_of_string unit)%list
    = Some (w, n).
Proof.
  intros Hunit Hdigit Hspace Hn Hsp.
  destruct (match_here_duration unit u unit' Hunit Hdigit Hspace None
              n sp [] Hn Hsp) as [w Hw].
  exists w. apply search_from_here. now rewrite app_nil_r in Hw.
Qed.

(** X29.  [parse_duration] is idempotent: a parsed duration is read
    again as itself. *)
Theorem parse_duration_idempotent (text : string) :
  BaseScraperRe.parse_duration (BaseScraperRe.parse_duration text)
  = BaseScraperRe.parse_duration text.
Proof.
  unfold BaseScraperRe.parse_duration at 2 3. unfold Rx.search.
  pose proof (search_minutes (list_ascii_of_string (Py.lower text))) as Hmin.
  pose proof (search_hours (list_ascii_of_string (Py.lower text))) as Hh.
  destruct (Rx.search_from BaseScraperRe.minutes None _) as [m|] eqn:Hm.
  - destruct Hmin as (_ & _ & _ & _ & Hn & _).
    unfold BaseScraperRe.parse_duration, Rx.search.
    rewrite (lower_number _ " min" Hn eq_refl).
    rewrite list_of_append, list_of_string_of_list.
    destruct (search_number_unit "min" "m" ["i"; "n"]%char (snd m)
                [" "%char] eq_refl eq_refl eq_refl Hn eq_refl) as [w Hw].
    change (list_ascii_of_string " min")
      with ([" "%char] ++ list_ascii_of_string "min")%list.
    unfold BaseScraperRe.minutes. now rewrite Hw.
  - destruct (Rx.search_from BaseScraperRe.hours None _) as [m|] eqn:Hhours.
    + destruct Hh as (_ & _ & _ & _ & Hn & _).
      unfold BaseScraperRe.parse_duration, Rx.search.
      rewrite (lower_number _ "h" Hn eq_refl).
      rewrite list_of_append, list_of_string_of_list.
      pose proof (search_minutes (snd m ++ list_ascii_of_string "h")%list)
        as Hnomin.
      destruct (Rx.search_from BaseScraperRe.minutes None
                  (snd m ++ list_ascii_of_string "h")%list) as [m'|].
      * exfalso. destruct Hnomin as (pre & sp & post & Heq & _).
        assert (Hin : In "m"%char (snd m ++ list_ascii_of_string "h")%list).
        { rewrite Heq. apply in_or_app. right. apply in_or_app. right.
          apply in_or_app. right. cbn. tauto. }
        apply in_app_or in Hin as [Hin|Hin].
        -- unfold is_number in Hn. apply andb_prop in Hn as [_ Hn].
           rewrite forallb_forall in Hn. specialize (Hn _ Hin).
           discriminate.
        -- cbn in Hin. destruct Hin as [Hin|[]]. discriminate.
      * destruct (search_number_unit "h" "h" [] (snd m) []
                    eq_refl eq_refl eq_refl Hn eq_refl) as [w Hw].
        cbn [app] in Hw. unfold BaseScraperRe.hours. now rewrite Hw.
    + unfold BaseScraperRe.parse_duration, Rx.search. now rewrite Hm, Hhours.
Qed.

(** ** The searches of the adapters and the limit *)

Lemma flat_map_at_most_one {A B} (f : A -> list B) (l : list A) :
  (forall x, (length (f x) <= 1)%nat) ->
  (length (flat_map f l) <= length l)%nat.
Proof.
  intros Hf. induction l as [|x l IH]; cbn; [lia|].
  rewrite length_app. specialize (Hf x). lia.
Qed.

Lemma page_hits_capped {A} (f : A -> list item) (items : list A) (limit : Z) :
  0 <= limit -> (forall x, (length (f x) <= 1)%nat) ->
  Py.len (flat_map f (Py.slice_to items limit)) <= limit.
Proof.
  intros Hlimit Hf.
  pose proof (flat_map_at_most_one f (Py.slice_to items limit) Hf) as Hlen.
  pose proof (slice_to_len items limit Hlimit) as Hslice.
  unfold Py.len in *. lia.
Qed.

Lemma json_slice_capped (v first : json) (items : list json) (limit : Z) :
  0 <= limit ->
  Json.slice_to v limit = Ok first -> Json.iter first = Ok items ->
  Py.len items <= limit.
Proof.
  intros Hlimit Hslice Hiter. destruct v; try discriminate.
  - injection Hslice as <-. cbn in Hiter. injection Hiter as <-.
    unfold Py.len. rewrite length_map, list_of_string_of_list.
    fold (Py.len (Py.slice_to (list_ascii_of_string s) limit)).
    rewrite slice_to_len by exact Hlimit. lia.
  - injection Hslice as <-. cbn in Hiter. injection Hiter as <-.
    rewrite slice_to_len by exact Hlimit. lia.
Qed.

Lemma for_each_grows {A B} (step : list B -> A -> result (list B))
    (l : list A) :
  (forall acc x acc',
      step acc x = Ok acc' -> (length acc' <= length acc + 1)%nat) ->
  forall acc r,
    Py.for_each l acc step = Ok r ->
    (length r <= length acc + length l)%nat.
Proof.
  intros Hstep. induction l as [|x l IH]; intros acc r; cbn.
  - intros [= <-]. lia.
  - intros Hrun. apply bind_ok in Hrun as (acc' & Hx & Hrun).
    apply IH in Hrun. apply Hstep in Hx. lia.
Qed.

Section SearchFacts.
Context `{Net} `{Libs}.

(** X30.  Each of the eight searches returns at most [limit] hits, for a
    limit that is not negative. *)
Theorem adapter_search_capped (s : Main.site) (query : string) (limit : Z)
    (hits : list item) :
  0 <= limit ->
  Main.scrapers s query limit = Ok hits ->
  Py.len hits <= limit.
Proof.
  intros Hlimit Hrun. destruct s; cbn [Main.scrapers] in Hrun.
  - unfold GogoanimeScraper_search in Hrun. cbv zeta in Hrun.
    unbind Hrun html. destruct (no_page html);
      injection Hrun as <-; [unfold Py.len; cbn; lia|].
    apply page_hits_capped; [exact Hlimit|].
    intros x. unfold GogoanimeScraper_search_item.
    destruct (find x "a" None); [|cbn; lia].
    cbv zeta. destruct (String.eqb _ ""); cbn; lia.
  - unfold ZoroScraper_search in Hrun. cbv zeta in Hrun.
    unbind Hrun html. destruct (no_page html);
      injection Hrun as <-; [unfold Py.len; cbn; lia|].
    apply page_hits_capped; [exact Hlimit|].
    intros x. unfold ZoroScraper_search_item. cbv zeta.
    destruct (find x "a" _); cbn; lia.
  - unfold AnimeHeavenScraper_search in Hrun. cbv zeta in Hrun.
    unbind Hrun html. destruct (no_page html);
      injection Hrun as <-; [unfold Py.len; cbn; lia|].
    apply page_hits_capped; [exact Hlimit|].
    intros x. unfold AnimeHeavenScraper_search_item.
    destruct (find x "a" None); cbn; lia.
  - unfold AnimeSamaScraper_search in Hrun. cbv zeta in Hrun.
    destruct (aiohttp_get _ _ _) as [e|response]; [discriminate|].
    destruct (status response =? 200); [|injection Hrun as <-; unfold Py.len; cbn; lia].
    unbind Hrun data. unbind_eq Hrun sliced Hfirst.
    unbind_eq Hrun items Hitems.
    pose proof (json_slice_capped _ _ _ _ Hlimit Hfirst Hitems) as Hcap.
    apply for_each_grows in Hrun; [unfold Py.len in *; cbn in Hrun; lia|].
    intros acc x acc' Hstep. unfold AnimeSamaScraper_search_item in Hstep.
    unbind Hstep a. unbind Hstep b. unbind Hstep c. unbind Hstep d.
    injection Hstep as <-. rewrite length_app. cbn. lia.
  - unfold SFlixScraper_search in Hrun. cbv zeta in Hrun.
    unbind Hrun html. destruct (no_page html);
      injection Hrun as <-; [unfold Py.len; cbn; lia|].
    apply page_hits_capped; [exact Hlimit|].
    intros x. unfold SFlixScraper_search_item. cbv zeta.
    destruct (find x "a" _); cbn; lia.
  - unfold FMoviesScraper_search in Hrun.
    unbind Hrun html. destruct (no_page html);
      injection Hrun as <-; [unfold Py.len; cbn; lia|].
    apply page_hits_capped; [exact Hlimit|].
    intros x. unfold FMoviesScraper_search_item.
    destruct (find x "a" _); cbn; lia.
  - unfold LookMovieScraper_search in Hrun.
    unbind Hrun movies. unbind Hrun both. injection Hrun as <-.
    rewrite slice_to_len by exact Hlimit. lia.
  - unfold VidSrcScraper_search in Hrun. cbv zeta in Hrun.
    unbind Hrun data. unbind Hrun found_data.
    destruct found_data; [|injection Hrun as <-; unfold Py.len; cbn; lia].
    unbind Hrun hits'. unbind_eq Hrun sliced Hfirst.
    unbind_eq Hrun items Hitems.
    pose proof (json_slice_capped _ _ _ _ Hlimit Hfirst Hitems) as Hcap.
    apply for_each_grows in Hrun; [unfold Py.len in *; cbn in Hrun; lia|].
    intros acc x acc' Hstep. unfold VidSrcScraper_search_item in Hstep.
    unbind Hstep a. unbind Hstep b. unbind Hstep c. unbind Hstep d.
    unbind Hstep e. injection Hstep as <-. rewrite length_app. cbn. lia.
Qed.

End SearchFacts.

Lemma adapter_search_capped_witness :
  exists hits,
    @Main.scrapers FixtureApi.vidsrc_three Fixture.plain_libs Main.vidsrc
      "matrix" 2 = Ok hits
    /\ Py.len hits = 2 /\ Py.len hits <= 2.
Proof.
  eexists. split; [vm_compute; reflexivity|]. split; [reflexivity|].
  apply (@adapter_search_capped FixtureApi.vidsrc_three Fixture.plain_libs
           Main.vidsrc "matrix" 2); [lia|vm_compute; reflexivity].
Defined.

(** The two readers on texts as the sites write them. *)
Example extract_year_examples :
  BaseScraperRe.extract_year "Released in 1999, remastered 2020" = "1999"
  /\ BaseScraperRe.extract_year "S01E1999x 12020" = ""
  /\ BaseScraperRe.extract_year "(2024)" = "2024".
Proof. repeat split; vm_compute; reflexivity. Qed.

Example parse_duration_examples :
  BaseScraperRe.parse_duration "1h 30min" = "30 min"
  /\ BaseScraperRe.parse_duration "Duration: 2 H" = "2h"
  /\ BaseScraperRe.parse_duration "N/A" = "N/A".
Proof. repeat split; vm_compute; reflexivity. Qed.
